(** * Karibu Groceries API: procurement and sales routes

    A shallow embedding of [src/routes/procurementRoutes.js],
    [src/routes/salesRoutes.js], [src/models/Procurement.js],
    [src/models/Sale.js] and the route table of [src/app.js], together with
    the properties of the written specification that concern them.

    Conventions of the embedding.
    - A request body is a JavaScript object whose members are JSON scalars
      (null, booleans, numbers, strings); it is a finite map from member
      names to values, an absent member reading as [undefined].  Members
      holding arrays or nested objects are outside the model.
    - A JavaScript number is an exact decimal [m * 10^e]; binary64 rounding
      is not modelled.  A string is a sequence of 8-bit code units.
    - A [Date] is its time value in milliseconds.
    - Handlers are written in a small monad threading the store and a log of
      the pipeline stages that executed, with early responses and thrown
      exceptions. *)

From Stdlib Require Import ZArith NArith Ascii String List Lia Bool Sorted.
From stdpp Require Import base option list gmap strings.

Import ListNotations.
Local Open Scope string_scope.
Local Open Scope list_scope.
Local Open Scope Z_scope.

(* ===================================================================== *)
(** ** Characters and decimal digits *)
(* ===================================================================== *)

Module Chars.

Definition code (c : ascii) : N := N_of_ascii c.

Definition in_range (lo hi : N) (c : ascii) : bool :=
  ((lo <=? code c) && (code c <=? hi))%N.

(** [[0-9]] *)
Definition is_digit (c : ascii) : bool := in_range 48 57 c.
(** [[a-z]] and [[A-Z]] *)
Definition is_lower (c : ascii) : bool := in_range 97 122 c.
Definition is_upper (c : ascii) : bool := in_range 65 90 c.
(** [\s] restricted to 8-bit code units: TAB, LF, VT, FF, CR, SPACE, NBSP. *)
Definition is_space (c : ascii) : bool :=
  in_range 9 13 c || (code c =? 32)%N || (code c =? 160)%N.

Definition digit_val (c : ascii) : N := (code c - 48)%N.
Definition digit_char (d : N) : ascii := ascii_of_N (48 + d)%N.

(** Value of a digit sequence, most significant digit first. *)
Definition digits_val (ds : list ascii) : N :=
  fold_left (fun acc c => (10 * acc + digit_val c)%N) ds 0%N.

(** Decimal digits of [n], most significant first, pushed in front of
    [acc]; [fuel] bounds the number of digits produced. *)
Fixpoint digits_fuel (fuel : nat) (n : N) (acc : list ascii) : list ascii :=
  match fuel with
  | O => acc
  | S f =>
      let acc' := digit_char (n mod 10)%N :: acc in
      if (n / 10 =? 0)%N then acc' else digits_fuel f (n / 10)%N acc'
  end.

(** The decimal numeral of [n] with no leading zero (["0"] for zero). *)
Definition digits_of (n : N) : list ascii :=
  digits_fuel (S (N.to_nat (N.log2 n))) n [].

Fixpoint drop_zeros (ds : list ascii) : list ascii :=
  match ds with
  | c :: tl => if Ascii.eqb c "0" then drop_zeros tl else ds
  | [] => []
  end.

(** Removes the trailing zero digits. *)
Definition strip_trailing_zeros (ds : list ascii) : list ascii :=
  rev (drop_zeros (rev ds)).

Definition zeros (n : nat) : list ascii := repeat "0"%char n.

End Chars.

(* ===================================================================== *)
(** ** JavaScript values *)
(* ===================================================================== *)

(** A finite number [dmant * 10^dexp]. *)
Record Dec : Type := mkDec { dmant : Z; dexp : Z }.

Definition Dec_of_Z (z : Z) : Dec := mkDec z 0.

(** [d >= n], computed without division. *)
Definition Dec_geZ (d : Dec) (n : Z) : bool :=
  if 0 <=? dexp d then n <=? dmant d * 10 ^ dexp d
  else n * 10 ^ (- dexp d) <=? dmant d.

(** [Number.isInteger]. *)
Definition Dec_isInteger (d : Dec) : bool :=
  if 0 <=? dexp d then true else dmant d mod 10 ^ (- dexp d) =? 0.

Definition Dec_isZero (d : Dec) : bool := dmant d =? 0.

(** The integer a number equals, when it is one. *)
Definition Dec_toZ (d : Dec) : option Z :=
  if 0 <=? dexp d then Some (dmant d * 10 ^ dexp d)
  else if dmant d mod 10 ^ (- dexp d) =? 0 then Some (dmant d / 10 ^ (- dexp d))
  else None.

(** Two representations of one number: they compare alike with every
    integer and are integers together. *)
Definition Dec_equiv (a b : Dec) : Prop :=
  (forall m, Dec_geZ a m = Dec_geZ b m) /\ Dec_isInteger a = Dec_isInteger b.

Module Number.

Import Chars.

(** [Number::toString] (radix 10) of ECMA-262.  With [s] the digits of the
    mantissa freed of trailing zeros, [k] their count and [n] the position
    of the decimal point after them, the four layouts are, in order: an
    integer padded with zeros, a numeral with an inner point, a numeral
    below one, and the exponential form. *)
Definition toChars (d : Dec) : list ascii :=
  if dmant d =? 0 then ["0"%char] else
  let all := digits_of (Z.to_N (Z.abs (dmant d))) in
  let s := strip_trailing_zeros all in
  let k := Z.of_nat (length s) in
  let e := dexp d + (Z.of_nat (length all) - k) in
  let n := k + e in
  let sign := if dmant d <? 0 then ["-"%char] else [] in
  sign ++
  (if (k <=? n) && (n <=? 21) then s ++ zeros (Z.to_nat (n - k))
   else if (0 <? n) && (n <=? 21) then
     take (Z.to_nat n) s ++ "."%char :: drop (Z.to_nat n) s
   else if (-6 <? n) && (n <=? 0) then
     "0"%char :: "."%char :: zeros (Z.to_nat (- n)) ++ s
   else
     let ex := n - 1 in
     take 1 s ++ (if k =? 1 then [] else "."%char :: drop 1 s)
       ++ "e"%char :: (if ex <? 0 then "-"%char else "+"%char)
       :: digits_of (Z.to_N (Z.abs ex))).

Definition toString (d : Dec) : string := string_of_list_ascii (toChars d).


End Number.


(** A member of a request body, as [express.json()] delivers it. *)
Inductive JSON : Type :=
| JNull
| JBool (b : bool)
| JNum (n : Dec)
| JStr (s : string).

(** [String(v)] *)
Definition ToString (j : JSON) : string :=
  match j with
  | JNull => "null"
  | JBool true => "true"
  | JBool false => "false"
  | JNum n => Number.toString n
  | JStr s => s
  end.

(** JavaScript truthiness ([ToBoolean]); [None] reads as [undefined]. *)
Definition truthy (v : option JSON) : bool :=
  match v with
  | None | Some JNull => false
  | Some (JBool b) => b
  | Some (JNum n) => negb (Dec_isZero n)
  | Some (JStr s) => negb (String.eqb s "")
  end.

(* ===================================================================== *)
(** ** Regular expressions

    The patterns of the routes and schemas are all anchored at both ends;
    [Regex.test] therefore decides whether the whole string matches, by
    Brzozowski derivatives. *)
(* ===================================================================== *)

Module Regex.

Inductive t : Type :=
| Void
| Eps
| Class (p : ascii -> bool)
| Seq (r1 r2 : t)
| Alt (r1 r2 : t)
| Star (r : t).

Fixpoint nullable (r : t) : bool :=
  match r with
  | Void | Class _ => false
  | Eps | Star _ => true
  | Seq r1 r2 => nullable r1 && nullable r2
  | Alt r1 r2 => nullable r1 || nullable r2
  end.

Fixpoint deriv (c : ascii) (r : t) : t :=
  match r with
  | Void | Eps => Void
  | Class p => if p c then Eps else Void
  | Seq r1 r2 =>
      if nullable r1 then Alt (Seq (deriv c r1) r2) (deriv c r2)
      else Seq (deriv c r1) r2
  | Alt r1 r2 => Alt (deriv c r1) (deriv c r2)
  | Star r1 => Seq (deriv c r1) (Star r1)
  end.

Definition matches (r : t) (cs : list ascii) : bool :=
  nullable (fold_left (fun r c => deriv c r) cs r).

Definition test (r : t) (s : string) : bool :=
  matches r (list_ascii_of_string s).

(** Derived forms: [r?], [r+], [r{n}], [r{lo,hi}], a literal character. *)
Definition Opt (r : t) : t := Alt Eps r.
Definition Plus (r : t) : t := Seq r (Star r).
Fixpoint Times (n : nat) (r : t) : t :=
  match n with O => Eps | S m => Seq r (Times m r) end.
Fixpoint AtMost (n : nat) (r : t) : t :=
  match n with O => Eps | S m => Opt (Seq r (AtMost m r)) end.
Definition Between (lo hi : nat) (r : t) : t :=
  Seq (Times lo r) (AtMost (hi - lo) r).
Definition Chr (c : ascii) : t := Class (Ascii.eqb c).
Definition Range (lo hi : ascii) : t :=
  Class (Chars.in_range (N_of_ascii lo) (N_of_ascii hi)).

Import Chars.

(** [/^[a-zA-Z0-9\s]+$/] *)
Definition alphanumeric : t :=
  Plus (Class (fun c => is_lower c || is_upper c || is_digit c || is_space c)).
(** [/^[a-zA-Z\s]+$/] *)
Definition letters : t :=
  Plus (Class (fun c => is_lower c || is_upper c || is_space c)).
(** [/^[0-9]{10,12}$/] *)
Definition phone : t := Between 10 12 (Class is_digit).
(** [/^[A-Z0-9]{10,15}$/] *)
Definition nin : t := Between 10 15 (Class (fun c => is_upper c || is_digit c)).
(** [/^([0-1]?[0-9]|2[0-3]):[0-5][0-9]$/] *)
Definition time : t :=
  Seq (Alt (Seq (Opt (Range "0" "1")) (Range "0" "9"))
           (Seq (Chr "2") (Range "0" "3")))
      (Seq (Chr ":") (Seq (Range "0" "5") (Range "0" "9"))).

End Regex.


(* ===================================================================== *)
(** ** validator.js: the string predicates behind the rule chains *)
(* ===================================================================== *)

Module Validator.

Import Chars.

(** An optional leading sign: is it a minus, and what follows it. *)
Definition split_sign (cs : list ascii) : bool * list ascii :=
  match cs with
  | c :: tl =>
      if Ascii.eqb c "-" then (true, tl)
      else if Ascii.eqb c "+" then (false, tl)
      else (false, cs)
  | [] => (false, [])
  end.

Definition nonempty {A} (l : list A) : bool :=
  match l with [] => false | _ => true end.

Definition signed (neg : bool) (n : N) : Z :=
  if neg then - Z.of_N n else Z.of_N n.

(** [/^[-+]?[0-9]+$/], the pattern of [isInt] (leading zeros allowed). *)
Definition int_regex (cs : list ascii) : bool :=
  let '(_, ds) := split_sign cs in nonempty ds && forallb is_digit ds.

(** The number a string matching [int_regex] converts to. *)
Definition int_value (cs : list ascii) : Z :=
  let '(neg, ds) := split_sign cs in signed neg (digits_val ds).

(** [isInt(str, { min })]: [regex.test(str) && str >= min]. *)
Definition isInt (min : Z) (str : string) : bool :=
  let cs := list_ascii_of_string str in
  int_regex cs && (min <=? int_value cs).

(** The longest prefix of digits, and the rest. *)
Fixpoint span_digits (cs : list ascii) : list ascii * list ascii :=
  match cs with
  | c :: tl =>
      if is_digit c then let '(ds, rest) := span_digits tl in (c :: ds, rest)
      else ([], cs)
  | [] => ([], [])
  end.

(** The parts of a string matching the pattern of [isFloat]: an optional
    sign, optional digits, an optional point followed by optional digits,
    and an optional exponent [[eE][+-]?[0-9]+]. *)
Record FloatParts : Type := mkFloatParts {
  f_neg : bool;
  f_int : list ascii;
  f_frac : list ascii;
  f_exp : Z
}.

Definition float_parts (cs : list ascii) : option FloatParts :=
  let '(neg, r0) := split_sign cs in
  let '(ip, r1) := span_digits r0 in
  let '(fp, r2) :=
    match r1 with
    | c :: tl => if Ascii.eqb c "." then span_digits tl else ([], r1)
    | [] => ([], r1)
    end in
  match r2 with
  | [] => Some (mkFloatParts neg ip fp 0)
  | c :: tl =>
      if Ascii.eqb c "e" || Ascii.eqb c "E" then
        let '(eneg, ed) := split_sign tl in
        if nonempty ed && forallb is_digit ed
        then Some (mkFloatParts neg ip fp (signed eneg (digits_val ed)))
        else None
      else None
  end.

Definition float_regex (cs : list ascii) : bool :=
  match float_parts cs with Some _ => true | None => false end.

(** [parseFloat] on a string matching the pattern; [None] is [NaN], which
    is what a string without any mantissa digit parses to. *)
Definition parseFloat (cs : list ascii) : option Dec :=
  match float_parts cs with
  | Some p =>
      if nonempty (f_int p ++ f_frac p) then
        Some (mkDec (signed (f_neg p) (digits_val (f_int p ++ f_frac p)))
                    (f_exp p - Z.of_nat (length (f_frac p))))
      else None
  | None => None
  end.

(** [isFloat(str, { min })]: the five degenerate strings are refused, then
    [float.test(str) && parseFloat(str) >= min]; a comparison with [NaN]
    is false. *)
Definition isFloat (min : Z) (str : string) : bool :=
  let cs := list_ascii_of_string str in
  if bool_decide (str ∈ [""; "."; ","; "-"; "+"]) then false
  else float_regex cs &&
       match parseFloat cs with Some d => Dec_geZ d min | None => false end.

(** [isLength(str, { min })] *)
Definition isLength (min : nat) (str : string) : bool :=
  (min <=? String.length str)%nat.

(** [isEmpty(str)] *)
Definition isEmpty (str : string) : bool := String.eqb str "".

(** [isIn(str, values)] *)
Definition isIn (values : list string) (str : string) : bool :=
  bool_decide (str ∈ values).

(** [matches(str, pattern)] *)
Definition matches (pattern : Regex.t) (str : string) : bool :=
  Regex.test pattern str.

End Validator.


(* ===================================================================== *)
(** ** express-validator: rule chains and the errors they record *)
(* ===================================================================== *)

Module ExpressValidator.

(** The standard validators that the routes use. *)
Inductive StandardValidator : Type :=
| isInt (min : Z)
| isFloat (min : Z)
| isLength (min : nat)
| matches (pattern : Regex.t)
| notEmpty
| isIn (values : list string)
| isISO8601.

(** [.validator(...).withMessage(message)] *)
Record Rule : Type := withMessage {
  validator : StandardValidator;
  message : string
}.

(** [body(field).rule1.rule2...] *)
Record ValidationChain : Type := body {
  field : string;
  rules : list Rule
}.

(** An entry of [validationResult(req).array()]. *)
Record ValidationError : Type := mkValidationError {
  type : string;
  value : option JSON;
  msg : string;
  path : string;
  location : string
}.

(** The members of the entry once [res.json] has serialised it; a member
    holding [undefined] is left out. *)
Definition members (e : ValidationError) : list string :=
  ["type"] ++ (match value e with Some _ => ["value"] | None => [] end)
    ++ ["msg"; "path"; "location"].

(** The string a standard validator is given for a field value. *)
Definition toString (v : option JSON) : string :=
  match v with
  | None | Some JNull => ""
  | Some j => ToString j
  end.

End ExpressValidator.

(* ===================================================================== *)
(** ** Values held by documents, users, the store *)
(* ===================================================================== *)

(** An [ObjectId] in its canonical form of 24 lower-case hexadecimal
    digits. *)
Definition ObjectId : Type := string.

Module ObjectId_.

Import Chars.

Definition is_hex (c : ascii) : bool :=
  is_digit c || in_range 97 102 c || in_range 65 70 c.

Definition to_lower (c : ascii) : ascii :=
  if in_range 65 70 c then ascii_of_N (code c + 32) else c.

(** [new ObjectId(str)]: a string of 24 hexadecimal digits is accepted,
    anything else is refused. *)
Definition ofString (s : string) : option ObjectId :=
  let cs := list_ascii_of_string s in
  if (length cs =? 24)%nat && forallb is_hex cs
  then Some (string_of_list_ascii (map to_lower cs))
  else None.

Definition valid (o : ObjectId) : Prop := ofString o = Some o.

End ObjectId_.

(** What a document member holds: a JSON scalar, a [Date], an [ObjectId]. *)
Inductive Value : Type :=
| VJson (j : JSON)
| VDate (t : Z)
| VObjectId (o : ObjectId).

Definition VStr (s : string) : Value := VJson (JStr s).
Definition VNum (n : Dec) : Value := VJson (JNum n).
Definition VBool (b : bool) : Value := VJson (JBool b).
Definition VNull : Value := VJson JNull.

Global Instance Dec_eq_dec : EqDecision Dec.
Proof. solve_decision. Defined.
Global Instance JSON_eq_dec : EqDecision JSON.
Proof. solve_decision. Defined.
Global Instance Value_eq_dec : EqDecision Value.
Proof. solve_decision. Defined.

(** A document: its members by name. *)
Abbreviation Doc := (gmap string Value).

(** Modelled from the spec: the [User] record of [src/models/User.js],
    which is not among the sources ("identity, display name, email,
    credential hash, role"). *)
Module User.
Record t : Type := mk {
  _id : ObjectId;
  name : string;
  email : string;
  password : string;
  role : string
}.
End User.

Record Store : Type := mkStore {
  users : gmap ObjectId User.t;
  procurements : list Doc;
  sales : list Doc
}.

(** What the surroundings answer during one request: the clock read by
    [new Date()] and [Date.now], the identifier the driver generates for a
    new document, and whether the database answers. *)
Record Env : Type := mkEnv {
  now : Z;
  newId : ObjectId;
  dbUp : bool
}.

(* ===================================================================== *)
(** ** Mongoose schemas: [src/models/Procurement.js], [src/models/Sale.js] *)
(* ===================================================================== *)

Inductive SchemaType : Type := TString | TNumber | TDate | TBoolean | TObjectId.

Inductive DefaultValue : Type :=
| Date_now                (* [default: Date.now] *)
| Literal (v : Value)     (* [default: false] *)
| Generated_id.           (* the [_id] of a new document *)

(** One path of a schema, with the options the two model files use. *)
Record SchemaPath : Type := mkSchemaPath {
  p_name : string;
  p_type : SchemaType;
  p_required : bool;
  p_default : option DefaultValue;
  p_trim : bool;
  p_min : option Z;
  p_minlength : option nat;
  p_match : option Regex.t;
  p_enum : option (list string);
  p_validate : option (Value -> bool)
}.

Module Schemas.

Definition path (name : string) (ty : SchemaType) : SchemaPath :=
  mkSchemaPath name ty false None false None None None None None.

Definition required (p : SchemaPath) : SchemaPath :=
  mkSchemaPath (p_name p) (p_type p) true (p_default p) (p_trim p) (p_min p)
    (p_minlength p) (p_match p) (p_enum p) (p_validate p).
Definition default (d : DefaultValue) (p : SchemaPath) : SchemaPath :=
  mkSchemaPath (p_name p) (p_type p) (p_required p) (Some d) (p_trim p)
    (p_min p) (p_minlength p) (p_match p) (p_enum p) (p_validate p).
Definition trim (p : SchemaPath) : SchemaPath :=
  mkSchemaPath (p_name p) (p_type p) (p_required p) (p_default p) true
    (p_min p) (p_minlength p) (p_match p) (p_enum p) (p_validate p).
Definition min (n : Z) (p : SchemaPath) : SchemaPath :=
  mkSchemaPath (p_name p) (p_type p) (p_required p) (p_default p) (p_trim p)
    (Some n) (p_minlength p) (p_match p) (p_enum p) (p_validate p).
Definition minlength (n : nat) (p : SchemaPath) : SchemaPath :=
  mkSchemaPath (p_name p) (p_type p) (p_required p) (p_default p) (p_trim p)
    (p_min p) (Some n) (p_match p) (p_enum p) (p_validate p).
Definition match_ (r : Regex.t) (p : SchemaPath) : SchemaPath :=
  mkSchemaPath (p_name p) (p_type p) (p_required p) (p_default p) (p_trim p)
    (p_min p) (p_minlength p) (Some r) (p_enum p) (p_validate p).
Definition enum (values : list string) (p : SchemaPath) : SchemaPath :=
  mkSchemaPath (p_name p) (p_type p) (p_required p) (p_default p) (p_trim p)
    (p_min p) (p_minlength p) (p_match p) (Some values) (p_validate p).
Definition validate (f : Value -> bool) (p : SchemaPath) : SchemaPath :=
  mkSchemaPath (p_name p) (p_type p) (p_required p) (p_default p) (p_trim p)
    (p_min p) (p_minlength p) (p_match p) (p_enum p) (Some f).

Notation "p |> f" := (f p) (at level 45, left associativity, only parsing).

(** [validator: function(v) { return /^([0-1]?[0-9]|2[0-3]):[0-5][0-9]$/.test(v); }] *)
Definition time_validator (v : Value) : bool :=
  match v with
  | VJson (JStr s) => Regex.test Regex.time s
  | _ => false
  end.

(** [validator: Number.isInteger] *)
Definition Number_isInteger (v : Value) : bool :=
  match v with
  | VJson (JNum n) => Dec_isInteger n
  | _ => false
  end.

Definition procurementSchema : list SchemaPath := [
  path "produceName" TString |> required |> trim |> match_ Regex.alphanumeric;
  path "produceType" TString |> required |> trim |> minlength 2
    |> match_ Regex.letters;
  path "date" TDate |> required |> default Date_now;
  path "time" TString |> required |> validate time_validator;
  path "tonnage" TNumber |> required |> min 100 |> validate Number_isInteger;
  path "cost" TNumber |> required |> min 10000;
  path "dealerName" TString |> required |> trim |> minlength 2
    |> match_ Regex.alphanumeric;
  path "branch" TString |> required |> enum ["Maganjo"; "Matugga"];
  path "contact" TString |> required |> match_ Regex.phone;
  path "sellingPrice" TNumber |> required |> min 1000;
  path "recordedBy" TObjectId |> required;
  path "createdAt" TDate |> default Date_now
].

(** The base schema of the sales, with [timestamps: true] and
    [discriminatorKey: 'saleType'] as its options. *)
Definition saleSchema : list SchemaPath := [
  path "recordedBy" TObjectId |> required;
  path "createdAt" TDate |> default Date_now
].

Definition cashSaleSchema : list SchemaPath := [
  path "produceName" TString |> required |> trim;
  path "tonnage" TNumber |> required |> min 1;
  path "amountPaid" TNumber |> required |> min 10000;
  path "buyerName" TString |> required |> trim |> minlength 2
    |> match_ Regex.alphanumeric;
  path "salesAgentName" TString |> required |> trim |> minlength 2
    |> match_ Regex.alphanumeric;
  path "date" TDate |> required |> default Date_now;
  path "time" TString |> required |> validate time_validator
].

Definition creditSaleSchema : list SchemaPath := [
  path "buyerName" TString |> required |> trim |> minlength 2
    |> match_ Regex.alphanumeric;
  path "nationalId" TString |> required |> match_ Regex.nin;
  path "location" TString |> required |> trim |> minlength 2
    |> match_ Regex.alphanumeric;
  path "contacts" TString |> required |> match_ Regex.phone;
  path "amountDue" TNumber |> required |> min 10000;
  path "salesAgentName" TString |> required |> trim |> minlength 2
    |> match_ Regex.alphanumeric;
  path "dueDate" TDate |> required;
  path "produceName" TString |> required |> trim;
  path "produceType" TString |> required |> trim;
  path "tonnage" TNumber |> required |> min 1;
  path "dispatchDate" TDate |> required |> default Date_now;
  path "isPaid" TBoolean |> default (Literal (VBool false));
  path "paymentDate" TDate
].

End Schemas.

Inductive Collection : Type := Procurements | Sales.

(** A compiled model: its collection, its own paths, whether the schema
    asks for timestamps, the name of its discriminator key and, for a
    discriminator, the value that key must hold. *)
Record Model : Type := mkModel {
  modelName : string;
  collection : Collection;
  schema : list SchemaPath;
  timestamps : bool;
  discriminatorKey : option string;
  discriminatorValue : option string
}.

(** [mongoose.model('Procurement', procurementSchema)] *)
Definition Procurement : Model :=
  mkModel "Procurement" Procurements Schemas.procurementSchema false None None.

(** [mongoose.model('Sale', saleSchema)] *)
Definition Sale : Model :=
  mkModel "Sale" Sales Schemas.saleSchema true (Some "saleType") None.

(** [base.discriminator(name, childSchema)]: the union of both schemas in
    the collection and with the options of the base. *)
Definition discriminator (base : Model) (name : string)
    (child : list SchemaPath) : Model :=
  mkModel name (collection base) (schema base ++ child) (timestamps base)
    (discriminatorKey base) (Some name).

Definition CashSale : Model := discriminator Sale "Cash" Schemas.cashSaleSchema.
Definition CreditSale : Model := discriminator Sale "Credit" Schemas.creditSaleSchema.

(** The paths a model validates and stores: the ones Mongoose adds
    ([_id], the version key, the discriminator key, [updatedAt]) and the
    declared ones.  [createdAt] is declared by every schema here, so the
    timestamps option only adds [updatedAt]. *)
Definition paths (m : Model) : list SchemaPath :=
  [ Schemas.required
      (Schemas.default Generated_id (Schemas.path "_id" TObjectId));
    Schemas.default (Literal (VNum (Dec_of_Z 0))) (Schemas.path "__v" TNumber) ]
  ++ match discriminatorKey m with
     | Some key =>
         [ match discriminatorValue m with
           | Some v =>
               Schemas.default (Literal (VStr v)) (Schemas.path key TString)
           | None => Schemas.path key TString
           end ]
     | None => []
     end
  ++ (if timestamps m then [ Schemas.path "updatedAt" TDate ] else [])
  ++ schema m.

(* ===================================================================== *)
(** ** Requests, responses and the handler monad *)
(* ===================================================================== *)

(** The stages of a request pipeline, in the order of the specification. *)
Inductive Stage : Type :=
| Authenticate | Authorize | Validate | DefaultFill | Persist.

Global Instance Stage_eq_dec : EqDecision Stage.
Proof. solve_decision. Defined.

Definition Stage_rank (s : Stage) : nat :=
  match s with
  | Authenticate => 0 | Authorize => 1 | Validate => 2
  | DefaultFill => 3 | Persist => 4
  end.

(** The routes of [app.js] and of the two routers it mounts. *)
Inductive Route : Type :=
| POST_procurement
| GET_procurement
| GET_procurement_id
| POST_sales_cash
| POST_sales_credit
| GET_sales
| PATCH_sales_credit_payment
| GET_health
| Unmatched.

Record Request : Type := mkRequest {
  req_route : Route;
  req_authorization : option string;   (* the bearer credential *)
  req_params_id : string;              (* [req.params.id] *)
  req_query_type : option string;      (* [req.query.type] *)
  req_body : gmap string JSON;         (* [req.body] *)
  req_user : option User.t;            (* [req.user], set by [protect] *)
  req_validation : list ExpressValidator.ValidationError
}.

(** [req.user = u] *)
Definition set_user (u : User.t) (req : Request) : Request :=
  mkRequest (req_route req) (req_authorization req) (req_params_id req)
    (req_query_type req) (req_body req) (Some u) (req_validation req).

(** The errors that the chains of a route add to the request. *)
Definition add_validation (errors : list ExpressValidator.ValidationError)
    (req : Request) : Request :=
  mkRequest (req_route req) (req_authorization req) (req_params_id req)
    (req_query_type req) (req_body req) (req_user req)
    (req_validation req ++ errors).

(** A referenced user as [populate('recordedBy', 'name email')] resolves
    it. *)
Record UserProjection : Type := mkUserProjection {
  up_id : ObjectId;
  up_name : string;
  up_email : string
}.

(** A document together with what its [recordedBy] member was replaced
    by: the projection of the user, or [null] when there is none. *)
Record Populated : Type := mkPopulated {
  populated_doc : Doc;
  populated_recordedBy : option UserProjection
}.

Inductive Payload : Type :=
| json_errors (errors : list ExpressValidator.ValidationError)
| json_error (error : string)
| json_data (data : Doc)                         (* success: true *)
| json_populated (data : Populated)              (* success: true *)
| json_list (count : nat) (data : list Populated)  (* success: true *)
| json_status (status message : string).

Record Response : Type := mkResponse {
  status : nat;
  json : Payload
}.

Inductive Exn : Type :=
| ReferenceError (identifier : string)
| CastError (path : string)
| ValidationError (paths : list string)
| MongooseError (message : string)
| MongoServerError (message : string)
| MongoNetworkError
| TypeError (message : string).

(** The store and the log of the stages that ran. *)
Record World : Type := mkWorld {
  store : Store;
  stages : list Stage
}.

Inductive Result (A : Type) : Type :=
| Ok (a : A)
| Sent (r : Response)      (* a response was sent: nothing else runs *)
| Threw (e : Exn).
Arguments Ok {A} a.
Arguments Sent {A} r.
Arguments Threw {A} e.

Definition M (A : Type) : Type := World -> Result A * World.

Definition ret {A} (a : A) : M A := fun w => (Ok a, w).

Definition bind {A B} (m : M A) (k : A -> M B) : M B :=
  fun w =>
    match m w with
    | (Ok a, w') => k a w'
    | (Sent r, w') => (Sent r, w')
    | (Threw e, w') => (Threw e, w')
    end.

Global Instance M_ret : MRet M := @ret.
Global Instance M_bind : MBind M := fun A B k m => bind m k.

Definition throw {A} (e : Exn) : M A := fun w => (Threw e, w).

(** [return res.status(code).json(payload)] *)
Definition send {A} (code : nat) (payload : Payload) : M A :=
  fun w => (Sent (mkResponse code payload), w).

(** [try { block } catch (error) { handler }] *)
Definition try_catch {A} (block : M A) (handler : Exn -> M A) : M A :=
  fun w =>
    match block w with
    | (Threw e, w') => handler e w'
    | other => other
    end.

Definition mark (s : Stage) : M unit :=
  fun w => (Ok tt, mkWorld (store w) (stages w ++ [s])).

Definition get_store : M Store := fun w => (Ok (store w), w).

Definition put_store (st : Store) : M unit :=
  fun w => (Ok tt, mkWorld st (stages w)).

Definition get_collection (c : Collection) (st : Store) : list Doc :=
  match c with Procurements => procurements st | Sales => sales st end.

Definition set_collection (c : Collection) (docs : list Doc) (st : Store)
    : Store :=
  match c with
  | Procurements => mkStore (users st) docs (sales st)
  | Sales => mkStore (users st) (procurements st) docs
  end.

Section Api.

(** Library functions taken as given: [isISO8601] of validator.js, the
    conversion of a non-empty string to a [Date] ([None] when the result is
    an invalid date), [Date.prototype.toString], and the verification of a
    bearer credential, which yields the identity it was issued for. *)
Variable validator_isISO8601 : string -> bool.
Variable Date_parse : string -> option Z.
Variable Date_toString : Z -> string.
Variable verifyToken : string -> option ObjectId.

(* ===================================================================== *)
(** ** Mongoose: casting, validation, persistence *)
(* ===================================================================== *)

Fixpoint drop_spaces (cs : list ascii) : list ascii :=
  match cs with
  | c :: tl => if Chars.is_space c then drop_spaces tl else cs
  | [] => []
  end.

(** [String.prototype.trim] *)
Definition String_trim (s : string) : string :=
  string_of_list_ascii
    (rev (drop_spaces (rev (drop_spaces (list_ascii_of_string s))))).

(** [Number(str)] for decimal numerals; [None] is [NaN].  Numerals in
    another radix and [Infinity], which no route lets through to a Number
    path, read as [NaN] here. *)
Definition StringToNumber (s : string) : option Dec :=
  let cs := list_ascii_of_string (String_trim s) in
  match cs with
  | [] => Some (Dec_of_Z 0)
  | _ => Validator.parseFloat cs
  end.

(** The integral part of a number. *)
Definition Dec_trunc (d : Dec) : Z :=
  if 0 <=? dexp d then dmant d * 10 ^ dexp d
  else Z.quot (dmant d) (10 ^ (- dexp d)).

(** Each cast returns [None] for a [CastError]; [null] casts to [null]. *)
Definition castString (v : Value) : option Value :=
  match v with
  | VJson JNull => Some VNull
  | VJson j => Some (VStr (ToString j))
  | VDate t => Some (VStr (Date_toString t))
  | VObjectId o => Some (VStr o)
  end.

Definition castNumber (v : Value) : option Value :=
  match v with
  | VJson JNull => Some VNull
  | VJson (JStr s) =>
      if String.eqb s "" then Some VNull else VNum <$> StringToNumber s
  | VJson (JBool b) => Some (VNum (Dec_of_Z (if b then 1 else 0)))
  | VJson (JNum n) => Some (VNum n)
  | VDate t => Some (VNum (Dec_of_Z t))
  | VObjectId o => VNum <$> StringToNumber o
  end.

(** [Date_parse] stands for both branches that [castDate] has for a
    string. *)
Definition castDate (v : Value) : option Value :=
  match v with
  | VJson JNull => Some VNull
  | VJson (JStr s) =>
      if String.eqb s "" then Some VNull else VDate <$> Date_parse s
  | VJson (JBool _) => None
  | VJson (JNum n) =>
      let t := Dec_trunc n in
      if Z.abs t <=? 8640000000000000 then Some (VDate t) else None
  | VDate t => Some (VDate t)
  | VObjectId o => VDate <$> Date_parse o
  end.

Definition castBoolean (v : Value) : option Value :=
  match v with
  | VJson JNull => Some VNull
  | VJson (JBool b) => Some (VBool b)
  | VJson (JStr s) =>
      if bool_decide (s ∈ ["true"; "1"; "yes"]) then Some (VBool true)
      else if bool_decide (s ∈ ["false"; "0"; "no"]) then Some (VBool false)
      else None
  | VJson (JNum n) =>
      match Dec_toZ n with
      | Some 1 => Some (VBool true)
      | Some 0 => Some (VBool false)
      | _ => None
      end
  | VDate _ | VObjectId _ => None
  end.

Definition castObjectId (v : Value) : option Value :=
  match v with
  | VJson JNull => Some VNull
  | VJson j => VObjectId <$> ObjectId_.ofString (ToString j)
  | VDate t => VObjectId <$> ObjectId_.ofString (Date_toString t)
  | VObjectId o => Some (VObjectId o)
  end.

Definition cast (ty : SchemaType) (v : Value) : option Value :=
  match ty with
  | TString => castString v
  | TNumber => castNumber v
  | TDate => castDate v
  | TBoolean => castBoolean v
  | TObjectId => castObjectId v
  end.

(** The setters of a path, run on the cast value: only [trim] is used. *)
Definition apply_setters (p : SchemaPath) (v : Value) : Value :=
  match v with
  | VJson (JStr s) => if p_trim p then VStr (String_trim s) else v
  | _ => v
  end.

Definition default_value (env : Env) (d : DefaultValue) : Value :=
  match d with
  | Date_now => VDate (now env)
  | Literal v => v
  | Generated_id => VObjectId (newId env)
  end.

(** [new Model(data)]: each path takes the cast of the member given for it
    or, when none is given, its default; members that are no path of the
    schema are dropped.  The result is the document and the paths whose
    cast failed. *)
Fixpoint construct (env : Env) (ps : list SchemaPath) (data : Doc)
    : Doc * list string :=
  match ps with
  | [] => (∅, [])
  | p :: rest =>
      let '(doc, failed) := construct env rest data in
      match data !! p_name p with
      | Some v =>
          match cast (p_type p) v with
          | Some v' => (<[p_name p := apply_setters p v']> doc, failed)
          | None => (doc, p_name p :: failed)
          end
      | None =>
          match p_default p with
          | Some d => (<[p_name p := default_value env d]> doc, failed)
          | None => (doc, failed)
          end
      end
  end.

(** The [required] validator of a path. *)
Definition checkRequired (v : option Value) : bool :=
  match v with
  | None | Some (VJson JNull) => false
  | Some (VJson (JStr s)) => negb (String.eqb s "")
  | Some _ => true
  end.

(** The other validators, which are not run on [undefined] and of which
    the built-in ones let [null] pass. *)
Definition run_validators (p : SchemaPath) (v : Value) : bool :=
  match p_min p, v with
  | Some n, VJson (JNum d) => Dec_geZ d n
  | _, _ => true
  end
  && match p_minlength p, v with
     | Some n, VJson (JStr s) => (n <=? String.length s)%nat
     | _, _ => true
     end
  && match p_match p, v with
     | Some r, VJson (JStr s) => String.eqb s "" || Regex.test r s
     | _, _ => true
     end
  && match p_enum p, v with
     | Some values, VJson (JStr s) => bool_decide (s ∈ values)
     | _, _ => true
     end
  && match p_validate p with
     | Some f => f v
     | None => true
     end.

Definition path_valid (p : SchemaPath) (v : option Value) : bool :=
  (if p_required p then checkRequired v else true)
  && match v with Some x => run_validators p x | None => true end.

Definition invalid_paths (ps : list SchemaPath) (doc : Doc) : list string :=
  flat_map (fun p => if path_valid p (doc !! p_name p) then [] else [p_name p])
    ps.

(** A discriminator refuses a value for its key other than its own. *)
Definition discriminator_ok (m : Model) (data : Doc) : bool :=
  match discriminatorKey m, discriminatorValue m with
  | Some key, Some v =>
      match data !! key with
      | Some given => bool_decide (castString given = Some (VStr v))
      | None => true
      end
  | _, _ => true
  end.

(** The timestamps hook on a new document: [createdAt] is filled when it
    is unset, and [updatedAt] is given the value of [createdAt]. *)
Definition timestamps_new (env : Env) (m : Model) (doc : Doc) : Doc :=
  if timestamps m then
    let doc1 :=
      match doc !! "createdAt" with
      | None | Some (VJson JNull) => <["createdAt" := VDate (now env)]> doc
      | Some _ => doc
      end in
    match doc1 !! "createdAt" with
    | Some ts => <["updatedAt" := ts]> doc1
    | None => doc1
    end
  else doc.

Definition has_id (id : option Value) (d : Doc) : bool :=
  bool_decide (d !! "_id" = id).

(** [Model.create(data)] *)
Definition Model_create (m : Model) (env : Env) (data : Doc) : M Doc :=
  if negb (discriminator_ok m data)
  then throw (MongooseError "Can't set discriminator key")
  else
    let '(doc0, failed) := construct env (paths m) data in
    let doc := timestamps_new env m doc0 in
    match failed ++ invalid_paths (paths m) doc with
    | (_ :: _) as errors => throw (ValidationError errors)
    | [] =>
        if negb (dbUp env) then throw MongoNetworkError
        else
          st ← get_store;
          let docs := get_collection (collection m) st in
          if existsb (has_id (doc !! "_id")) docs
          then throw (MongoServerError "E11000 duplicate key error")
          else
            put_store (set_collection (collection m) (docs ++ [doc]) st);;
            mret doc
    end.

(** The filter a discriminator adds to every query. *)
Definition of_model (m : Model) (d : Doc) : bool :=
  match discriminatorKey m, discriminatorValue m with
  | Some key, Some v => bool_decide (d !! key = Some (VStr v))
  | _, _ => true
  end.

(** [Model.findById(id)] *)
Definition Model_findById (m : Model) (env : Env) (id : string)
    : M (option Doc) :=
  match ObjectId_.ofString id with
  | None => throw (CastError "_id")
  | Some oid =>
      if negb (dbUp env) then throw MongoNetworkError
      else
        st ← get_store;
        mret (List.find
                (fun d => has_id (Some (VObjectId oid)) d && of_model m d)
                (get_collection (collection m) st))
  end.

(** The members of a query filter, cast by the path they name. *)
Fixpoint cast_query (ps : list SchemaPath) (query : list (string * Value))
    : option (list (string * Value)) :=
  match query with
  | [] => Some []
  | (k, v) :: rest =>
      let cv :=
        match List.find (fun p => String.eqb (p_name p) k) ps with
        | Some p => cast (p_type p) v
        | None => Some v
        end in
      match cv, cast_query ps rest with
      | Some v', Some rest' => Some ((k, v') :: rest')
      | _, _ => None
      end
  end.

Definition matches_query (query : list (string * Value)) (d : Doc) : bool :=
  forallb (fun '(k, v) => bool_decide (d !! k = Some v)) query.

(** [Model.find(query)] *)
Definition Model_find (m : Model) (env : Env) (query : list (string * Value))
    : M (list Doc) :=
  match cast_query (paths m) query with
  | None => throw (CastError "query")
  | Some q =>
      if negb (dbUp env) then throw MongoNetworkError
      else
        st ← get_store;
        mret (List.filter (fun d => matches_query q d && of_model m d)
                (get_collection (collection m) st))
  end.

(** [.sort({ createdAt: -1 })]: a stable sort, newest first, a document
    without a date last. *)
Definition createdAt (d : Doc) : option Z :=
  match d !! "createdAt" with
  | Some (VDate t) => Some t
  | _ => None
  end.

Definition newer (a b : Doc) : bool :=
  match createdAt a, createdAt b with
  | Some x, Some y => y <? x
  | Some _, None => true
  | None, _ => false
  end.

Fixpoint insert_sorted (d : Doc) (l : list Doc) : list Doc :=
  match l with
  | [] => [d]
  | x :: tl => if newer x d then x :: insert_sorted d tl else d :: l
  end.

Definition sort_createdAt_desc (l : list Doc) : list Doc :=
  foldr insert_sorted [] l.

(** [.populate('recordedBy', 'name email')] *)
Definition populate (us : gmap ObjectId User.t) (d : Doc) : Populated :=
  mkPopulated d
    match d !! "recordedBy" with
    | Some (VObjectId o) =>
        (fun u => mkUserProjection (User._id u) (User.name u) (User.email u))
          <$> us !! o
    | _ => None
    end.

(** A loaded document: its members and the paths assigned to since. *)
Record Document : Type := mkDocument {
  doc_values : Doc;
  doc_modified : list string
}.

(** [doc[k] = v], for a value that already has the type of the path; an
    assignment of the value the member holds modifies nothing. *)
Definition Document_set (k : string) (v : Value) (d : Document) : Document :=
  if bool_decide (doc_values d !! k = Some v) then d
  else mkDocument (<[k := v]> (doc_values d)) (doc_modified d ++ [k]).

(** The assignments of the update that a save sends: the paths to write
    and the values the document holds for them. *)
Definition delta (doc : Doc) (written : list string) : list (string * Value) :=
  omap (fun k => (fun v => (k, v)) <$> doc !! k) written.

Definition apply_delta (changes : list (string * Value)) (d : Doc) : Doc :=
  foldr (fun '(k, v) acc => <[k := v]> acc) d changes.

(** [updateOne({ _id: id }, { $set: changes })] *)
Fixpoint update_first (id : option Value) (changes : list (string * Value))
    (l : list Doc) : list Doc :=
  match l with
  | [] => []
  | d :: tl =>
      if has_id id d then apply_delta changes d :: tl
      else d :: update_first id changes tl
  end.

(** [doc.save()] on a loaded document: when a path was modified the
    timestamps hook sets [updatedAt]; the modified paths and the required
    ones that are unset are validated; the modified paths are written to
    the stored document. *)
Definition Document_save (m : Model) (env : Env) (d : Document) : M Doc :=
  match doc_modified d with
  | [] => mret (doc_values d)
  | _ :: _ =>
      let doc :=
        if timestamps m then <["updatedAt" := VDate (now env)]> (doc_values d)
        else doc_values d in
      let written :=
        doc_modified d ++ (if timestamps m then ["updatedAt"] else []) in
      let checked :=
        List.filter
          (fun p => bool_decide (p_name p ∈ written)
                    || (p_required p && negb (bool_decide (is_Some (doc !! p_name p)))))
          (paths m) in
      match invalid_paths checked doc with
      | (_ :: _) as errors => throw (ValidationError errors)
      | [] =>
          if negb (dbUp env) then throw MongoNetworkError
          else
            st ← get_store;
            put_store
              (set_collection (collection m)
                 (update_first (doc !! "_id") (delta doc written)
                    (get_collection (collection m) st)) st);;
            mret doc
      end
  end.

(* ===================================================================== *)
(** ** express-validator: running the chains *)
(* ===================================================================== *)

Import ExpressValidator.

Definition passes (v : StandardValidator) (str : string) : bool :=
  match v with
  | isInt n => Validator.isInt n str
  | isFloat n => Validator.isFloat n str
  | isLength n => Validator.isLength n str
  | matches r => Validator.matches r str
  | notEmpty => negb (Validator.isEmpty str)
  | isIn values => Validator.isIn values str
  | isISO8601 => validator_isISO8601 str
  end.

(** The errors of one chain: every rule is run on the value of the field,
    and every rule that fails records an error (no rule bails out). *)
Definition run_chain (b : gmap string JSON) (c : ValidationChain)
    : list ValidationError :=
  flat_map
    (fun r =>
       if passes (validator r) (toString (b !! field c)) then []
       else [mkValidationError "field" (b !! field c) (message r) (field c)
               "body"])
    (rules c).

(** The chains of a route run as middleware, one after the other, before
    its handler; none of them responds. *)
Definition validators (chains : list ValidationChain) (req : Request)
    : M Request :=
  mark Validate;;
  mret (add_validation (flat_map (run_chain (req_body req)) chains) req).

(** [validationResult(req).array()] *)
Definition validationResult (req : Request) : list ValidationError :=
  req_validation req.

(* ===================================================================== *)
(** ** The authorization guard *)
(* ===================================================================== *)

(** Modelled from the spec: the resolution of a bearer credential in
    [src/middleware/auth.js], which is not among the sources: the
    credential is verified and the identity it carries looked up among the
    users. *)
Definition resolve_credential (st : Store) (credential : option string)
    : option User.t :=
  match credential with
  | Some token =>
      match verifyToken token with
      | Some uid => users st !! uid
      | None => None
      end
  | None => None
  end.

(** Modelled from the spec: [protect] of [src/middleware/auth.js], which is
    not among the sources.  "Given a bearer credential, resolve it to a
    User or fail with Unauthenticated (no valid/parseable credential),
    surfaced as a 401"; on success the identity is attached to the
    request. *)
Definition protect (req : Request) : M Request :=
  mark Authenticate;;
  st ← get_store;
  match resolve_credential st (req_authorization req) with
  | Some u => mret (set_user u req)
  | None => send 401 (json_error "Unauthenticated")
  end.

(** Modelled from the spec: [authorize] of [src/middleware/auth.js], which
    is not among the sources.  "Given a resolved User and a required role
    set for the operation, fail with Forbidden (role not in allow-list),
    surfaced as a 403". *)
Definition authorize (roles : list string) (req : Request) : M Request :=
  mark Authorize;;
  match req_user req with
  | Some u =>
      if bool_decide (User.role u ∈ roles) then mret req
      else send 403 (json_error "Forbidden")
  | None => send 403 (json_error "Forbidden")
  end.

(* ===================================================================== *)
(** ** Module scopes *)
(* ===================================================================== *)

(** [module.exports = { Sale, CashSale, CreditSale }] *)
Definition Sale_exports : list (string * Model) :=
  [("Sale", Sale); ("CashSale", CashSale); ("CreditSale", CreditSale)].

(** [const { a, b } = require(...)] binds the names listed, no other. *)
Definition destructure (names : list string) (exports : list (string * Model))
    : list (string * Model) :=
  List.filter (fun '(x, _) => bool_decide (x ∈ names)) exports.

(** [const Procurement = require('../models/Procurement')] *)
Definition procurementRoutes_scope : list (string * Model) :=
  [("Procurement", Procurement)].

(** [const { CashSale, CreditSale } = require('../models/Sale')] *)
Definition salesRoutes_scope : list (string * Model) :=
  destructure ["CashSale"; "CreditSale"] Sale_exports.

(** The evaluation of an identifier: a name that nothing binds throws. *)
Definition resolve (scope : list (string * Model)) (x : string) : M Model :=
  match List.find (fun '(y, _) => String.eqb x y) scope with
  | Some (_, m) => mret m
  | None => throw (ReferenceError x)
  end.

(** [req.user._id] *)
Definition user_id (req : Request) : M ObjectId :=
  match req_user req with
  | Some u => mret (User._id u)
  | None => throw (TypeError "Cannot read properties of undefined")
  end.

(** [{ ...req.body, recordedBy: id, [key]: req.body[key] || new Date() }] *)
Definition fill_defaults (env : Env) (b : gmap string JSON) (id : ObjectId)
    (key : string) : Doc :=
  <[key := if truthy (b !! key) then from_option VJson (VDate (now env)) (b !! key)
           else VDate (now env)]>
    (<["recordedBy" := VObjectId id]> (VJson <$> b)).

(* ===================================================================== *)
(** ** [src/routes/procurementRoutes.js] *)
(* ===================================================================== *)

Definition procurement_rules : list ValidationChain := [
  body "produceName"
    [withMessage (matches Regex.alphanumeric) "Produce name must be alphanumeric"];
  body "produceType"
    [withMessage (isLength 2) "Produce type must be at least 2 characters";
     withMessage (matches Regex.letters) "Produce type must contain only letters"];
  body "time"
    [withMessage (matches Regex.time) "Please enter valid time (HH:MM)"];
  body "tonnage" [withMessage (isInt 100) "Tonnage must be at least 100 kg"];
  body "cost" [withMessage (isFloat 10000) "Cost must be at least 10,000 UgX"];
  body "dealerName"
    [withMessage (isLength 2) "Dealer name must be at least 2 characters";
     withMessage (matches Regex.alphanumeric) "Dealer name must be alphanumeric"];
  body "branch"
    [withMessage (isIn ["Maganjo"; "Matugga"]) "Branch must be Maganjo or Matugga"];
  body "contact"
    [withMessage (matches Regex.phone) "Please enter a valid phone number"];
  body "sellingPrice"
    [withMessage (isFloat 1000) "Selling price must be at least 1,000 UgX"]
].

Definition server_error {A} (error : Exn) : M A :=
  send 500 (json_error "Server error").

(** The handler of [router.post('/')]. *)
Definition post_procurement_handler (env : Env) (req : Request) : M Empty_set :=
  try_catch
    (match validationResult req with
     | (_ :: _) as errors => send 400 (json_errors errors)
     | [] =>
         mark DefaultFill;;
         id ← user_id req;
         let procurementData := fill_defaults env (req_body req) id "date" in
         mark Persist;;
         model ← resolve procurementRoutes_scope "Procurement";
         procurement ← Model_create model env procurementData;
         send 201 (json_data procurement)
     end)
    server_error.

Definition post_procurement (env : Env) (req : Request) : M Empty_set :=
  req ← protect req;
  req ← authorize ["Manager"] req;
  req ← validators procurement_rules req;
  post_procurement_handler env req.

(** The handler of the first [router.get('/')]. *)
Definition get_procurements_handler (env : Env) (req : Request) : M Empty_set :=
  try_catch
    (model ← resolve procurementRoutes_scope "Procurement";
     found ← Model_find model env [];
     st ← get_store;
     let procurements := populate (users st) <$> sort_createdAt_desc found in
     send 200 (json_list (length procurements) procurements))
    server_error.

Definition get_procurements (env : Env) (req : Request) : M Empty_set :=
  req ← protect req;
  get_procurements_handler env req.

(** The handler of [router.get('/:id')]. *)
Definition get_procurement_handler (env : Env) (req : Request) : M Empty_set :=
  try_catch
    (model ← resolve procurementRoutes_scope "Procurement";
     found ← Model_findById model env (req_params_id req);
     st ← get_store;
     match found with
     | None => send 404 (json_error "Procurement record not found")
     | Some procurement =>
         send 200 (json_populated (populate (users st) procurement))
     end)
    server_error.

Definition get_procurement (env : Env) (req : Request) : M Empty_set :=
  req ← protect req;
  get_procurement_handler env req.

(* ===================================================================== *)
(** ** [src/routes/salesRoutes.js] *)
(* ===================================================================== *)

Definition cash_rules : list ValidationChain := [
  body "produceName" [withMessage notEmpty "Produce name is required"];
  body "tonnage" [withMessage (isInt 1) "Tonnage must be at least 1 kg"];
  body "amountPaid"
    [withMessage (isFloat 10000) "Amount paid must be at least 10,000 UgX"];
  body "buyerName"
    [withMessage (isLength 2) "Buyer name must be at least 2 characters";
     withMessage (matches Regex.alphanumeric) "Buyer name must be alphanumeric"];
  body "salesAgentName"
    [withMessage (isLength 2) "Sales agent name must be at least 2 characters";
     withMessage (matches Regex.alphanumeric)
       "Sales agent name must be alphanumeric"];
  body "time"
    [withMessage (matches Regex.time) "Please enter valid time (HH:MM)"]
].

Definition credit_rules : list ValidationChain := [
  body "buyerName"
    [withMessage (isLength 2) "Buyer name must be at least 2 characters";
     withMessage (matches Regex.alphanumeric) "Buyer name must be alphanumeric"];
  body "nationalId" [withMessage (matches Regex.nin) "Please enter a valid NIN"];
  body "location"
    [withMessage (isLength 2) "Location must be at least 2 characters";
     withMessage (matches Regex.alphanumeric) "Location must be alphanumeric"];
  body "contacts"
    [withMessage (matches Regex.phone) "Please enter a valid phone number"];
  body "amountDue"
    [withMessage (isFloat 10000) "Amount due must be at least 10,000 UgX"];
  body "salesAgentName"
    [withMessage (isLength 2) "Sales agent name must be at least 2 characters";
     withMessage (matches Regex.alphanumeric)
       "Sales agent name must be alphanumeric"];
  body "dueDate" [withMessage isISO8601 "Please enter a valid due date"];
  body "produceName" [withMessage notEmpty "Produce name is required"];
  body "produceType" [withMessage notEmpty "Produce type is required"];
  body "tonnage" [withMessage (isInt 1) "Tonnage must be at least 1 kg"]
].

(** The handler of [router.post('/cash')]. *)
Definition post_cash_handler (env : Env) (req : Request) : M Empty_set :=
  try_catch
    (match validationResult req with
     | (_ :: _) as errors => send 400 (json_errors errors)
     | [] =>
         mark DefaultFill;;
         id ← user_id req;
         let saleData := fill_defaults env (req_body req) id "date" in
         mark Persist;;
         model ← resolve salesRoutes_scope "CashSale";
         sale ← Model_create model env saleData;
         send 201 (json_data sale)
     end)
    server_error.

Definition post_cash (env : Env) (req : Request) : M Empty_set :=
  req ← protect req;
  req ← authorize ["Sales Agent"; "Manager"] req;
  req ← validators cash_rules req;
  post_cash_handler env req.

(** The handler of [router.post('/credit')]. *)
Definition post_credit_handler (env : Env) (req : Request) : M Empty_set :=
  try_catch
    (match validationResult req with
     | (_ :: _) as errors => send 400 (json_errors errors)
     | [] =>
         mark DefaultFill;;
         id ← user_id req;
         let saleData := fill_defaults env (req_body req) id "dispatchDate" in
         mark Persist;;
         model ← resolve salesRoutes_scope "CreditSale";
         sale ← Model_create model env saleData;
         send 201 (json_data sale)
     end)
    server_error.

Definition post_credit (env : Env) (req : Request) : M Empty_set :=
  req ← protect req;
  req ← authorize ["Sales Agent"; "Manager"] req;
  req ← validators credit_rules req;
  post_credit_handler env req.

(** The handler of [router.get('/')]: [query.saleType] is set when
    [req.query.type] is truthy, and the sales are read through [Sale]. *)
Definition get_sales_handler (env : Env) (req : Request) : M Empty_set :=
  try_catch
    (let query :=
       match req_query_type req with
       | Some type => if truthy (Some (JStr type)) then [("saleType", VStr type)] else []
       | None => []
       end in
     model ← resolve salesRoutes_scope "Sale";
     found ← Model_find model env query;
     st ← get_store;
     let sales := populate (users st) <$> sort_createdAt_desc found in
     send 200 (json_list (length sales) sales))
    server_error.

Definition get_sales (env : Env) (req : Request) : M Empty_set :=
  req ← protect req;
  get_sales_handler env req.

(** The handler of [router.patch('/credit/:id/payment')]. *)
Definition patch_payment_handler (env : Env) (req : Request) : M Empty_set :=
  try_catch
    (model ← resolve salesRoutes_scope "CreditSale";
     found ← Model_findById model env (req_params_id req);
     match found with
     | None => send 404 (json_error "Credit sale not found")
     | Some stored =>
         let sale := mkDocument stored [] in
         let sale := Document_set "isPaid" (VBool true) sale in
         let sale := Document_set "paymentDate" (VDate (now env)) sale in
         mark Persist;;
         saved ← Document_save model env sale;
         send 200 (json_data saved)
     end)
    server_error.

Definition patch_payment (env : Env) (req : Request) : M Empty_set :=
  req ← protect req;
  patch_payment_handler env req.

(* ===================================================================== *)
(** ** [src/app.js] *)
(* ===================================================================== *)

Definition dispatch (env : Env) (req : Request) : M Empty_set :=
  match req_route req with
  | POST_procurement => post_procurement env req
  | GET_procurement => get_procurements env req
  | GET_procurement_id => get_procurement env req
  | POST_sales_cash => post_cash env req
  | POST_sales_credit => post_credit env req
  | GET_sales => get_sales env req
  | PATCH_sales_credit_payment => patch_payment env req
  | GET_health => send 200 (json_status "OK" "Server is running")
  | Unmatched => send 404 (json_error "Route not found")
  end.

(** One request served: the response, the store and the stage log after
    it.  An exception that reaches the application is answered by its
    error handler. *)
Definition app (env : Env) (req : Request) (w : World) : Response * World :=
  match dispatch env req w with
  | (Sent r, w') => (r, w')
  | (Threw _, w') => (mkResponse 500 (json_error "Something went wrong!"), w')
  | (Ok impossible, _) => match impossible with end
  end.

(** A request as it arrives, before any middleware has run. *)
Definition incoming (route : Route) (authorization : option string)
    (id : string) (type : option string) (b : gmap string JSON) : Request :=
  mkRequest route authorization id type b None [].

(** A request served from a store, with an empty stage log. *)
Definition serve (env : Env) (req : Request) (st : Store)
    : Response * Store * list Stage :=
  let '(r, w) := app env req (mkWorld st []) in (r, store w, stages w).

End Api.

(* ===================================================================== *)
(** ** Notions used by the properties *)
(* ===================================================================== *)





(** The world after further stages were logged. *)
Definition log (w : World) (s : list Stage) : World :=
  mkWorld (store w) (stages w ++ s).

(** The creation routes, each with the roles it admits, the chains it
    runs and the member its handler fills in when the body gives none. *)
Definition creation_routes
    : list (Route * list string * list ExpressValidator.ValidationChain * string) :=
  [ (POST_procurement, ["Manager"], procurement_rules, "date");
    (POST_sales_cash, ["Sales Agent"; "Manager"], cash_rules, "date");
    (POST_sales_credit, ["Sales Agent"; "Manager"], credit_rules, "dispatchDate") ].

(** The model a creation route creates its record with. *)
Definition model_of (route : Route) : Model :=
  match route with
  | POST_sales_cash => CashSale
  | POST_sales_credit => CreditSale
  | _ => Procurement
  end.

(** [doc] is the document that [Model.create(data)] builds and accepts:
    the discriminator key is not contradicted, every cast succeeds and
    every path is valid. *)
Definition created (Date_parse : string -> option Z) (Date_toString : Z -> string)
    (m : Model) (env : Env) (data doc : Doc) : Prop :=
  discriminator_ok Date_toString m data = true
  /\ (construct Date_parse Date_toString env (paths m) data).2 = []
  /\ doc = timestamps_new env m
             (construct Date_parse Date_toString env (paths m) data).1
  /\ invalid_paths (paths m) doc = [].

(** The store after [doc] was inserted in the collection of [m]. *)
Definition inserted (m : Model) (doc : Doc) (st : Store) : Store :=
  set_collection (collection m) (get_collection (collection m) st ++ [doc]) st.

(** No document of the collection of [m] has the [_id] of [doc]. *)
Definition fresh (m : Model) (doc : Doc) (st : Store) : Prop :=
  existsb (has_id (doc !! "_id")) (get_collection (collection m) st) = false.

(** The handler of a creation route. *)
Definition creation_handler (Date_parse : string -> option Z)
    (Date_toString : Z -> string) (route : Route) (env : Env)
    : Request -> M Empty_set :=
  match route with
  | POST_sales_cash => post_cash_handler Date_parse Date_toString env
  | POST_sales_credit => post_credit_handler Date_parse Date_toString env
  | _ => post_procurement_handler Date_parse Date_toString env
  end.

(** The body of the example request of the specification. *)
Definition maize_body : gmap string JSON :=
  list_to_map
    [ ("produceName", JStr "Maize"); ("produceType", JStr "Cereal");
      ("time", JStr "14:30"); ("tonnage", JNum (Dec_of_Z 150));
      ("cost", JNum (Dec_of_Z 500000)); ("dealerName", JStr "John Doe");
      ("branch", JStr "Maganjo"); ("contact", JStr "0771234567");
      ("sellingPrice", JNum (Dec_of_Z 2000)) ].

(** The routes that start with [protect]. *)
Definition protected (route : Route) : bool :=
  match route with
  | GET_health | Unmatched => false
  | _ => true
  end.

(** The loaded credit sale after the two assignments of the payment
    handler. *)
Definition paid (env : Env) (stored : Doc) : Document :=
  Document_set "paymentDate" (VDate (now env))
    (Document_set "isPaid" (VBool true) (mkDocument stored [])).

(** The credit sale that [CreditSale.findById] finds for an identifier. *)
Definition find_credit_sale (oid : ObjectId) (st : Store) : option Doc :=
  List.find (fun d => has_id (Some (VObjectId oid)) d && of_model CreditSale d)
    (sales st).

(** The members that the payment handler may change. *)
Definition payment_members : list string :=
  ["isPaid"; "paymentDate"; "updatedAt"].

(** [d'] is [d] up to the members that the payment handler may change. *)
Definition same_but_payment (d d' : Doc) : Prop :=
  forall k, k ∉ payment_members -> d' !! k = d !! k.




(* ===================================================================== *)
(** ** A sample deployment *)
(* ===================================================================== *)

(** Stand-ins for the library functions, two users, and requests on which
    the properties are exercised.  The properties themselves hold for any
    choice of the library functions. *)
Module Sample.

Definition isISO8601 (s : string) : bool := (String.length s =? 10)%nat.

Definition Date_parse (s : string) : option Z :=
  if String.eqb s "2026-12-31" then Some 1798675200000
  else if String.eqb s "2020-01-01" then Some 1577836800000
  else None.

Definition Date_toString (t : Z) : string := "Thu Jan 01 1970 03:00:00 GMT+0300".

Definition mary : User.t :=
  User.mk "65f000000000000000000001" "Mary" "mary@kgl.example" "hash-1" "Manager".

Definition sam : User.t :=
  User.mk "65f000000000000000000002" "Sam" "sam@kgl.example" "hash-2" "Sales Agent".

Definition verifyToken (token : string) : option ObjectId :=
  if String.eqb token "token-of-mary" then Some (User._id mary)
  else if String.eqb token "token-of-sam" then Some (User._id sam)
  else None.

Definition store0 : Store :=
  mkStore (<[User._id mary := mary]> (<[User._id sam := sam]> ∅)) [] [].

Definition env0 : Env := mkEnv 1700000000000 "0123456789abcdef01234567" true.
Definition env1 : Env := mkEnv 1700000005000 "0123456789abcdef01234568" true.

Definition request : Env -> Request -> Store -> Response * Store * list Stage :=
  serve isISO8601 Date_parse Date_toString verifyToken.

Definition credit_body : gmap string JSON :=
  list_to_map
    [ ("buyerName", JStr "Jane Roe"); ("nationalId", JStr "CM12345678ABCD");
      ("location", JStr "Kampala"); ("contacts", JStr "0771234567");
      ("amountDue", JNum (Dec_of_Z 20000)); ("salesAgentName", JStr "Sam");
      ("dueDate", JStr "2026-12-31"); ("produceName", JStr "Beans");
      ("produceType", JStr "Legume"); ("tonnage", JNum (Dec_of_Z 5)) ].

(** [POST /sales/credit] by Sam, and what it leaves. *)
Definition credit_outcome : Response * Store * list Stage :=
  request env0 (incoming POST_sales_credit (Some "token-of-sam") "" None credit_body)
    store0.

(** The record that a response carries, if it carries one. *)
Definition data_of (r : Response) : Doc :=
  match json r with
  | json_data d => d
  | _ => ∅
  end.

Definition credit_record : Doc := data_of credit_outcome.1.1.

Definition credit_store : Store := credit_outcome.1.2.

(** [PATCH /sales/credit/0123456789abcdef01234567/payment] five seconds
    later, and what it leaves. *)
Definition payment : Request :=
  incoming PATCH_sales_credit_payment (Some "token-of-sam")
    "0123456789abcdef01234567" None ∅.

Definition payment_outcome : Response * Store * list Stage :=
  request env1 payment credit_store.

End Sample.

(* ===================================================================== *)
(** ** Notions used by the further properties *)
(* ===================================================================== *)

(** [a] may stand before [b] in a list that is ordered newest first: [b]
    is not newer than [a]. *)
Definition not_older (a b : Doc) : Prop := newer b a = false.

(** What [populate('recordedBy', 'name email')] shows of a user. *)
Definition projection (u : User.t) : UserProjection :=
  mkUserProjection (User._id u) (User.name u) (User.email u).

(** A value of the type of a path, or [null]. *)
Definition has_type (ty : SchemaType) (v : Value) : Prop :=
  v = VNull
  \/ match ty with
     | TString => exists s, v = VStr s
     | TNumber => exists d, v = VNum d
     | TDate => exists t, v = VDate t
     | TBoolean => exists b, v = VBool b
     | TObjectId => exists o, v = VObjectId o
     end.

(** The member is a number of at least [n]. *)
Definition number_from (n : Z) (v : option Value) : Prop :=
  exists d, v = Some (VNum d) /\ Dec_geZ d n = true.

(** The member is a non-empty string that matches [r]. *)
Definition string_of (r : Regex.t) (v : option Value) : Prop :=
  exists s, v = Some (VStr s) /\ s <> "" /\ Regex.test r s = true.

(** The member is a non-empty string. *)
Definition text (v : option Value) : Prop :=
  exists s, v = Some (VStr s) /\ s <> "".

(** The member is a string of at least [n] characters. *)
Definition long (n : nat) (v : option Value) : Prop :=
  exists s, v = Some (VStr s) /\ (n <= String.length s)%nat.

(** What [src/models/Procurement.js] demands of a procurement. *)
Definition procurement_ok (d : Doc) : Prop :=
  string_of Regex.alphanumeric (d !! "produceName")
  /\ string_of Regex.letters (d !! "produceType")
  /\ long 2 (d !! "produceType")
  /\ (exists t, d !! "date" = Some (VDate t))
  /\ string_of Regex.time (d !! "time")
  /\ number_from 100 (d !! "tonnage")
  /\ (exists n, d !! "tonnage" = Some (VNum n) /\ Dec_isInteger n = true)
  /\ number_from 10000 (d !! "cost")
  /\ string_of Regex.alphanumeric (d !! "dealerName")
  /\ long 2 (d !! "dealerName")
  /\ (d !! "branch" = Some (VStr "Maganjo") \/ d !! "branch" = Some (VStr "Matugga"))
  /\ string_of Regex.phone (d !! "contact")
  /\ number_from 1000 (d !! "sellingPrice")
  /\ (exists o, d !! "recordedBy" = Some (VObjectId o)).

(** What [src/models/Sale.js] demands of a cash sale and of a credit
    sale. *)
Definition cash_sale_ok (d : Doc) : Prop :=
  d !! "saleType" = Some (VStr "Cash")
  /\ text (d !! "produceName")
  /\ number_from 1 (d !! "tonnage")
  /\ number_from 10000 (d !! "amountPaid")
  /\ string_of Regex.alphanumeric (d !! "buyerName")
  /\ long 2 (d !! "buyerName")
  /\ string_of Regex.alphanumeric (d !! "salesAgentName")
  /\ long 2 (d !! "salesAgentName")
  /\ (exists t, d !! "date" = Some (VDate t))
  /\ string_of Regex.time (d !! "time")
  /\ (exists o, d !! "recordedBy" = Some (VObjectId o)).

Definition credit_sale_ok (d : Doc) : Prop :=
  d !! "saleType" = Some (VStr "Credit")
  /\ string_of Regex.alphanumeric (d !! "buyerName")
  /\ long 2 (d !! "buyerName")
  /\ string_of Regex.nin (d !! "nationalId")
  /\ string_of Regex.alphanumeric (d !! "location")
  /\ long 2 (d !! "location")
  /\ string_of Regex.phone (d !! "contacts")
  /\ number_from 10000 (d !! "amountDue")
  /\ string_of Regex.alphanumeric (d !! "salesAgentName")
  /\ long 2 (d !! "salesAgentName")
  /\ (exists t, d !! "dueDate" = Some (VDate t))
  /\ text (d !! "produceName")
  /\ text (d !! "produceType")
  /\ number_from 1 (d !! "tonnage")
  /\ (exists t, d !! "dispatchDate" = Some (VDate t))
  /\ (exists o, d !! "recordedBy" = Some (VObjectId o)).

Definition sale_ok (d : Doc) : Prop := cash_sale_ok d \/ credit_sale_ok d.

(** The handlers of [src/routes/procurementRoutes.js] and
    [src/routes/salesRoutes.js], as they stand after the middleware of
    their routes. *)
Definition handlers (Date_parse : string -> option Z) (Date_toString : Z -> string)
    (env : Env) : list (Request -> M Empty_set) :=
  [ post_procurement_handler Date_parse Date_toString env;
    get_procurements_handler Date_parse Date_toString env;
    get_procurement_handler env;
    post_cash_handler Date_parse Date_toString env;
    post_credit_handler Date_parse Date_toString env;
    get_sales_handler Date_parse Date_toString env;
    patch_payment_handler env ].

(** A truthy member of a body that Mongoose cannot cast to a [Date]: a
    non-empty string that [Date] does not parse, or [true]. *)
Definition no_date (Date_parse : string -> option Z) (v : JSON) : Prop :=
  (exists s, v = JStr s /\ s <> "" /\ Date_parse s = None) \/ v = JBool true.

(** The record was created before [t], or bears no creation date. *)
Definition older_than (t : Z) (d : Doc) : Prop :=
  match createdAt d with
  | Some y => y < t
  | None => True
  end.

(** The writings of a time of day: [HH:MM], and [H:MM] for an hour below
    ten. *)
Definition digit (n : nat) : ascii := Chars.digit_char (N.of_nat n).

Definition two_digits (n : nat) : list ascii :=
  [digit (Nat.div n 10); digit (Nat.modulo n 10)].

Definition clock_long (h m : nat) : string :=
  string_of_list_ascii (two_digits h ++ ":"%char :: two_digits m).

Definition clock_short (h m : nat) : string :=
  string_of_list_ascii (digit h :: ":"%char :: two_digits m).

(** The characters that [[a-zA-Z0-9\s]] and [[a-zA-Z\s]] admit. *)
Definition is_alphanumeric (c : ascii) : bool :=
  Chars.is_lower c || Chars.is_upper c || Chars.is_digit c || Chars.is_space c.

Definition is_letter (c : ascii) : bool :=
  Chars.is_lower c || Chars.is_upper c || Chars.is_space c.




(* ===================================================================== *)
(** ** Further requests on the sample deployment *)
(* ===================================================================== *)

Module Ledger.

(** [POST /procurement] with the example body by Mary, and what it
    leaves. *)
Definition procurement_outcome : Response * Store * list Stage :=
  Sample.request Sample.env0
    (incoming POST_procurement (Some "token-of-mary") "" None maize_body)
    Sample.store0.

Definition procurement_record : Doc := Sample.data_of procurement_outcome.1.1.

Definition procurement_store : Store := procurement_outcome.1.2.

Definition cash_body : gmap string JSON :=
  list_to_map
    [ ("produceName", JStr "Beans"); ("tonnage", JStr "5");
      ("amountPaid", JNum (Dec_of_Z 25000)); ("buyerName", JStr "Jane Roe");
      ("salesAgentName", JStr "Sam"); ("time", JStr "9:05") ].

(** [POST /sales/cash] by Sam, and what it leaves. *)
Definition cash_outcome : Response * Store * list Stage :=
  Sample.request Sample.env0
    (incoming POST_sales_cash (Some "token-of-sam") "" None cash_body)
    Sample.store0.

Definition cash_record : Doc := Sample.data_of cash_outcome.1.1.

Definition cash_store : Store := cash_outcome.1.2.

(** A moment at which the database does not answer. *)
Definition outage : Env := mkEnv 1700000001000 "0123456789abcdef0123456a" false.

End Ledger.

(* ===================================================================== *)
(** * Properties *)
(* ===================================================================== *)

(** ** The library functions on a few inputs *)

Example toString_150 : Number.toString (Dec_of_Z 150) = "150".
Proof. reflexivity. Qed.
Example time_1430 : Regex.test Regex.time "14:30" = true.
Proof. reflexivity. Qed.
Example time_2400 : Regex.test Regex.time "24:00" = false.
Proof. reflexivity. Qed.
Example phone_ok : Regex.test Regex.phone "0771234567" = true.
Proof. reflexivity. Qed.
Example phone_short : Regex.test Regex.phone "077123456" = false.
Proof. reflexivity. Qed.
Example isInt_150 : Validator.isInt 100 "150" = true.
Proof. reflexivity. Qed.
Example isInt_99 : Validator.isInt 100 "99" = false.
Proof. reflexivity. Qed.
Example isInt_frac : Validator.isInt 100 "150.5" = false.
Proof. reflexivity. Qed.
Example isInt_exp : Validator.isInt 100 "1e+21" = false.
Proof. reflexivity. Qed.
Example isFloat_low : Validator.isFloat 10000 "9999.99" = false.
Proof. reflexivity. Qed.
Example isFloat_exp : Validator.isFloat 10000 "1e4" = true.
Proof. reflexivity. Qed.
Example isFloat_nodigit : Validator.isFloat 10000 "+." = false.
Proof. reflexivity. Qed.

(** ** Decimal numerals *)

Section Digits.

Import Chars.




















End Digits.

(** ** Numbers with the same value *)

Lemma pow10_pos (e : Z) : 0 < 10 ^ e \/ e < 0.
Proof. destruct (Z.le_gt_cases 0 e); [left; apply Z.pow_pos_nonneg; lia | right; lia]. Qed.




Lemma Dec_equiv_refl (d : Dec) : Dec_equiv d d.
Proof. split; reflexivity. Qed.




(** ** validator.js on the numerals that [Number::toString] writes *)

Section ValidatorFacts.

Import Chars Validator Number.

Lemma digit_is_plain (c : ascii) :
  is_digit c = true ->
  Ascii.eqb c "-" = false /\ Ascii.eqb c "+" = false /\ Ascii.eqb c "." = false
  /\ (Ascii.eqb c "e" || Ascii.eqb c "E") = false /\ is_space c = false.
Proof.
  destruct c as [[] [] [] [] [] [] [] []]; intros H;
    solve [ discriminate H | repeat split ].
Qed.



Lemma split_sign_digits (ds : list ascii) :
  forallb is_digit ds = true -> split_sign ds = (false, ds).
Proof.
  destruct ds as [|c ds]; [reflexivity|]. cbn [forallb split_sign].
  intros H. apply andb_true_iff in H as [H _].
  destruct (digit_is_plain c H) as (-> & -> & _). reflexivity.
Qed.





End ValidatorFacts.

Section NumberToString.

Import Chars Validator Number.


Lemma float_parts_zero : float_parts ["0"%char] = Some (mkFloatParts false ["0"%char] [] 0).
Proof. reflexivity. Qed.


End NumberToString.

Section NumericRules.

Import Chars Validator.
















End NumericRules.

(** ** The numeric rules on a member of a body *)





(** ** Running the handler monad *)

Lemma bind_unfold {A B} (m : M A) (k : A -> M B) : mbind k m = bind m k.
Proof. reflexivity. Qed.

Lemma bind_inv {A B} (m : M A) (k : A -> M B) (w w2 : World) (r : Result B) :
  bind m k w = (r, w2) ->
  (exists a w1, m w = (Ok a, w1) /\ k a w1 = (r, w2))
  \/ (exists resp, m w = (Sent resp, w2) /\ r = Sent resp)
  \/ (exists e, m w = (Threw e, w2) /\ r = Threw e).
Proof.
  unfold bind. destruct (m w) as [[a|resp|e] w1]; intros H.
  - left. eauto.
  - right. left. injection H as <- <-. eauto.
  - right. right. injection H as <- <-. eauto.
Qed.

Lemma try_catch_inv {A} (block : M A) (handler : Exn -> M A) (w w2 : World)
    (r : Result A) :
  try_catch block handler w = (r, w2) ->
  (exists e w1, block w = (Threw e, w1) /\ handler e w1 = (r, w2))
  \/ (block w = (r, w2) /\ forall e, r <> Threw e).
Proof.
  unfold try_catch. destruct (block w) as [[a|resp|e] w1]; intros H.
  - right. injection H as <- <-. split; [reflexivity | discriminate].
  - right. injection H as <- <-. split; [reflexivity | discriminate].
  - left. eauto.
Qed.

Lemma bind_ok {A B} (m : M A) (k : A -> M B) (w w1 : World) (a : A) :
  m w = (Ok a, w1) -> bind m k w = k a w1.
Proof. unfold bind. intros ->. reflexivity. Qed.

Lemma bind_sent {A B} (m : M A) (k : A -> M B) (w w1 : World) (resp : Response) :
  m w = (Sent resp, w1) -> bind m k w = (Sent resp, w1).
Proof. unfold bind. intros ->. reflexivity. Qed.

Lemma bind_threw {A B} (m : M A) (k : A -> M B) (w w1 : World) (e : Exn) :
  m w = (Threw e, w1) -> bind m k w = (Threw e, w1).
Proof. unfold bind. intros ->. reflexivity. Qed.

Lemma log_log (w : World) (a b : list Stage) : log (log w a) b = log w (a ++ b).
Proof. unfold log. cbn. rewrite app_assoc. reflexivity. Qed.

Lemma mark_run (s : Stage) (w : World) : mark s w = (Ok tt, log w [s]).
Proof. reflexivity. Qed.

(** Membership in a list that is written out. *)
Ltac elem_of_listed :=
  repeat first [ apply list_elem_of_here | apply list_elem_of_further ].

(** ** The middleware of a route *)

Section Pipeline.

Variable validator_isISO8601 : string -> bool.
Variable Date_parse : string -> option Z.
Variable Date_toString : Z -> string.
Variable verifyToken : string -> option ObjectId.

Lemma protect_ok (req : Request) (w : World) (u : User.t) :
  resolve_credential verifyToken (store w) (req_authorization req) = Some u ->
  protect verifyToken req w = (Ok (set_user u req), log w [Authenticate]).
Proof. unfold protect, mbind, M_bind, bind. cbn. intros ->. reflexivity. Qed.

Lemma protect_fail (req : Request) (w : World) :
  resolve_credential verifyToken (store w) (req_authorization req) = None ->
  protect verifyToken req w
  = (Sent (mkResponse 401 (json_error "Unauthenticated")), log w [Authenticate]).
Proof. unfold protect, mbind, M_bind, bind. cbn. intros ->. reflexivity. Qed.

Lemma authorize_ok (roles : list string) (req : Request) (w : World) (u : User.t) :
  req_user req = Some u -> User.role u ∈ roles ->
  authorize roles req w = (Ok req, log w [Authorize]).
Proof.
  unfold authorize, mbind, M_bind, bind. cbn. intros -> Hin.
  rewrite bool_decide_eq_true_2 by exact Hin. reflexivity.
Qed.

Lemma authorize_fail (roles : list string) (req : Request) (w : World) (u : User.t) :
  req_user req = Some u -> User.role u ∉ roles ->
  authorize roles req w
  = (Sent (mkResponse 403 (json_error "Forbidden")), log w [Authorize]).
Proof.
  unfold authorize, mbind, M_bind, bind. cbn. intros -> Hin.
  rewrite bool_decide_eq_false_2 by exact Hin. reflexivity.
Qed.

Lemma validators_run (chains : list ExpressValidator.ValidationChain)
    (req : Request) (w : World) :
  validators validator_isISO8601 chains req w
  = (Ok (add_validation
           (flat_map (run_chain validator_isISO8601 (req_body req)) chains) req),
     log w [Validate]).
Proof. reflexivity. Qed.

(** A creation route, for a requester whose role it admits, comes down to
    its handler run on the request that carries the user and the errors
    of the chains. *)
Lemma guarded_route (roles : list string)
    (chains : list ExpressValidator.ValidationChain)
    (handler : Request -> M Empty_set) (req : Request) (w : World) (u : User.t) :
  resolve_credential verifyToken (store w) (req_authorization req) = Some u ->
  User.role u ∈ roles ->
  (req ← protect verifyToken req;
   req ← authorize roles req;
   req ← validators validator_isISO8601 chains req;
   handler req) w
  = handler
      (add_validation
         (flat_map (run_chain validator_isISO8601 (req_body req)) chains)
         (set_user u req))
      (log w [Authenticate; Authorize; Validate]).
Proof.
  intros Hu Hrole. unfold mbind, M_bind.
  rewrite (bind_ok _ _ _ _ _ (protect_ok req w u Hu)).
  rewrite (bind_ok _ _ _ _ _ (authorize_ok roles (set_user u req) _ u eq_refl Hrole)).
  rewrite (bind_ok _ _ _ _ _ (validators_run chains (set_user u req) _)).
  rewrite !log_log. reflexivity.
Qed.

(** The same route for a requester whose role it does not admit. *)
Lemma forbidden_route (roles : list string)
    (chains : list ExpressValidator.ValidationChain)
    (handler : Request -> M Empty_set) (req : Request) (w : World) (u : User.t) :
  resolve_credential verifyToken (store w) (req_authorization req) = Some u ->
  User.role u ∉ roles ->
  (req ← protect verifyToken req;
   req ← authorize roles req;
   req ← validators validator_isISO8601 chains req;
   handler req) w
  = (Sent (mkResponse 403 (json_error "Forbidden")),
     log w [Authenticate; Authorize]).
Proof.
  intros Hu Hrole. unfold mbind, M_bind.
  rewrite (bind_ok _ _ _ _ _ (protect_ok req w u Hu)).
  rewrite (bind_sent _ _ _ _ _
             (authorize_fail roles (set_user u req) _ u eq_refl Hrole)).
  rewrite !log_log. reflexivity.
Qed.

(** A route answers a request without a valid credential in [protect]. *)
Lemma unauthenticated_route {A} (rest : Request -> M A) (req : Request)
    (w : World) :
  resolve_credential verifyToken (store w) (req_authorization req) = None ->
  (req ← protect verifyToken req; rest req) w
  = (Sent (mkResponse 401 (json_error "Unauthenticated")), log w [Authenticate]).
Proof.
  intros Hu. unfold mbind, M_bind.
  rewrite (bind_sent _ _ _ _ _ (protect_fail req w Hu)). reflexivity.
Qed.

Lemma authenticated_route {A} (rest : Request -> M A) (req : Request)
    (w : World) (u : User.t) :
  resolve_credential verifyToken (store w) (req_authorization req) = Some u ->
  (req ← protect verifyToken req; rest req) w
  = rest (set_user u req) (log w [Authenticate]).
Proof.
  intros Hu. unfold mbind, M_bind.
  rewrite (bind_ok _ _ _ _ _ (protect_ok req w u Hu)). reflexivity.
Qed.

End Pipeline.

(** ** The creation routes *)

Section RouteProperties.

Variable validator_isISO8601 : string -> bool.
Variable Date_parse : string -> option Z.
Variable Date_toString : Z -> string.
Variable verifyToken : string -> option ObjectId.

Local Abbreviation serve_ :=
  (serve validator_isISO8601 Date_parse Date_toString verifyToken).
Local Abbreviation run_chain_ := (run_chain validator_isISO8601).
Local Abbreviation resolve_credential_ := (resolve_credential verifyToken).

Import ExpressValidator.

Lemma post_procurement_authorized (env : Env) (req : Request) (w : World)
    (u : User.t) :
  resolve_credential_ (store w) (req_authorization req) = Some u ->
  User.role u = "Manager" ->
  post_procurement validator_isISO8601 Date_parse Date_toString verifyToken
    env req w
  = post_procurement_handler Date_parse Date_toString env
      (add_validation (flat_map (run_chain_ (req_body req)) procurement_rules)
         (set_user u req))
      (log w [Authenticate; Authorize; Validate]).
Proof.
  intros Hu Hr. apply guarded_route; [exact Hu|]. rewrite Hr. apply list_elem_of_here.
Qed.



(** A handler of a creation route answers a request that carries
    validation errors with all of them, and does nothing else. *)
Lemma post_procurement_handler_invalid (env : Env) (req : Request) (w : World)
    (e : ValidationError) (es : list ValidationError) :
  req_validation req = e :: es ->
  post_procurement_handler Date_parse Date_toString env req w
  = (Sent (mkResponse 400 (json_errors (e :: es))), w).
Proof.
  intros H. unfold post_procurement_handler, try_catch, validationResult.
  rewrite H. reflexivity.
Qed.

Lemma post_cash_handler_invalid (env : Env) (req : Request) (w : World)
    (e : ValidationError) (es : list ValidationError) :
  req_validation req = e :: es ->
  post_cash_handler Date_parse Date_toString env req w
  = (Sent (mkResponse 400 (json_errors (e :: es))), w).
Proof.
  intros H. unfold post_cash_handler, try_catch, validationResult.
  rewrite H. reflexivity.
Qed.

Lemma post_credit_handler_invalid (env : Env) (req : Request) (w : World)
    (e : ValidationError) (es : list ValidationError) :
  req_validation req = e :: es ->
  post_credit_handler Date_parse Date_toString env req w
  = (Sent (mkResponse 400 (json_errors (e :: es))), w).
Proof.
  intros H. unfold post_credit_handler, try_catch, validationResult.
  rewrite H. reflexivity.
Qed.

(** The error that a failed rule of a chain records is among the errors of
    the chains. *)
Lemma failed_rule_recorded (b : gmap string JSON) (chains : list ValidationChain)
    (c : ValidationChain) (r : Rule) :
  c ∈ chains -> r ∈ rules c ->
  passes validator_isISO8601 (validator r) (toString (b !! field c)) = false ->
  mkValidationError "field" (b !! field c) (message r) (field c) "body"
    ∈ flat_map (run_chain_ b) chains.
Proof.
  intros Hc Hr Hfail. apply list_elem_of_In, in_flat_map.
  exists c. split; [apply list_elem_of_In, Hc|].
  unfold run_chain. apply in_flat_map. exists r.
  split; [apply list_elem_of_In, Hr|]. rewrite Hfail. left. reflexivity.
Qed.

(** Every error among those of the chains was recorded by a rule that
    failed on the field of its chain. *)
Lemma recorded_error_failed (b : gmap string JSON) (chains : list ValidationChain)
    (e : ValidationError) :
  e ∈ flat_map (run_chain_ b) chains ->
  exists c r, c ∈ chains /\ r ∈ rules c
    /\ passes validator_isISO8601 (validator r) (toString (b !! field c)) = false
    /\ e = mkValidationError "field" (b !! field c) (message r) (field c) "body".
Proof.
  intros He. apply list_elem_of_In, in_flat_map in He as (c & Hc & He).
  unfold run_chain in He. apply in_flat_map in He as (r & Hr & He).
  exists c, r. rewrite !list_elem_of_In.
  destruct (passes _ _ _) eqn:Hp; [destruct He|].
  destruct He as [<-|[]]. auto.
Qed.







(** Whatever the creation route, the same three facts. *)
Lemma creation_route_authorized (env : Env) (route : Route) (roles : list string)
    (chains : list ValidationChain) (key : string) (req : Request) (w : World)
    (u : User.t) :
  (route, roles, chains, key) ∈ creation_routes ->
  req_route req = route ->
  resolve_credential_ (store w) (req_authorization req) = Some u ->
  (User.role u ∈ roles ->
   dispatch validator_isISO8601 Date_parse Date_toString verifyToken env req w
   = creation_handler Date_parse Date_toString route env
       (add_validation (flat_map (run_chain_ (req_body req)) chains)
          (set_user u req))
       (log w [Authenticate; Authorize; Validate]))
  /\ (User.role u ∉ roles ->
      dispatch validator_isISO8601 Date_parse Date_toString verifyToken env req w
      = (Sent (mkResponse 403 (json_error "Forbidden")),
         log w [Authenticate; Authorize])).
Proof.
  intros Hroute Hreq Hu. unfold dispatch. rewrite Hreq.
  unfold creation_routes in Hroute.
  apply elem_of_cons in Hroute as [Heq|Hroute];
    [|apply elem_of_cons in Hroute as [Heq|Hroute];
      [|apply list_elem_of_singleton in Hroute as Heq]];
    injection Heq as -> -> -> ->;
    (split; intros Hr; [eapply guarded_route | eapply forbidden_route]; eassumption).
Qed.

Lemma creation_handler_invalid (env : Env) (route : Route) (req : Request)
    (w : World) (e : ValidationError) (es : list ValidationError) :
  req_validation req = e :: es ->
  creation_handler Date_parse Date_toString route env req w
  = (Sent (mkResponse 400 (json_errors (e :: es))), w).
Proof.
  intros H. unfold creation_handler.
  destruct route;
    [ apply post_procurement_handler_invalid
    | apply post_procurement_handler_invalid
    | apply post_procurement_handler_invalid
    | apply post_cash_handler_invalid
    | apply post_credit_handler_invalid
    | apply post_procurement_handler_invalid
    | apply post_procurement_handler_invalid
    | apply post_procurement_handler_invalid
    | apply post_procurement_handler_invalid ]; exact H.
Qed.

(** C7 (as amended).  On each creation route, a request of an admitted
    requester that breaks at least one rule is answered with status 400 and
    the errors of all the rules that failed, in the order of the chains:
    the error of every failed rule is in the list, and every entry of the
    list is the error of a failed rule.  An entry is the field error of
    the validation library: it has the members type, value (when the body
    has the field), msg, path and location, where path is the name of the
    field and msg the message of the rule. *)
Theorem validation_errors_collected (env : Env) (route : Route)
    (roles : list string) (chains : list ValidationChain) (key : string)
    (authorization : option string) (id : string) (type : option string)
    (b : gmap string JSON) (st : Store) (u : User.t) :
  (route, roles, chains, key) ∈ creation_routes ->
  resolve_credential_ st authorization = Some u ->
  User.role u ∈ roles ->
  flat_map (run_chain_ b) chains <> [] ->
  let errors := flat_map (run_chain_ b) chains in
  serve_ env (incoming route authorization id type b) st
  = (mkResponse 400 (json_errors errors), st, [Authenticate; Authorize; Validate])
  /\ (forall c r, c ∈ chains -> r ∈ rules c ->
        passes validator_isISO8601 (validator r) (toString (b !! field c)) = false ->
        mkValidationError "field" (b !! field c) (message r) (field c) "body"
          ∈ errors)
  /\ (forall e, e ∈ errors ->
        (exists c r, c ∈ chains /\ r ∈ rules c
           /\ passes validator_isISO8601 (validator r) (toString (b !! field c)) = false
           /\ path e = field c /\ msg e = message r /\ value e = b !! field c)
        /\ (members e = ["type"; "value"; "msg"; "path"; "location"]
            \/ members e = ["type"; "msg"; "path"; "location"])).
Proof.
  intros Hroute Hu Hr Hne errors. subst errors. split; [|split].
  - destruct (flat_map (run_chain_ b) chains) as [|e es] eqn:Herrs;
      [congruence|].
    unfold serve, app.
    destruct (creation_route_authorized env route roles chains key
                (incoming route authorization id type b) (mkWorld st []) u
                Hroute eq_refl Hu) as [Hok _].
    rewrite (Hok Hr).
    rewrite (creation_handler_invalid env route _ _ e es); [reflexivity|].
    exact Herrs.
  - intros c r Hc Hrule Hfail. apply failed_rule_recorded; assumption.
  - intros e He. apply recorded_error_failed in He as (c & r & Hc & Hrule & Hfail & ->).
    split.
    + exists c, r. repeat split; assumption.
    + unfold members. cbn [value]. destruct (b !! field c); [left | right]; reflexivity.
Qed.


(** The handler of [GET /sales] evaluates [Sale], which the module does
    not bind: the ReferenceError is caught and answered with the
    server-error response, whatever the store holds. *)
Lemma get_sales_handler_run (env : Env) (req : Request) (w : World) :
  get_sales_handler Date_parse Date_toString env req w
  = (Sent (mkResponse 500 (json_error "Server error")), w).
Proof. reflexivity. Qed.

(** ** Creating a document *)

Lemma construct_lookup_notin (env : Env) (ps : list SchemaPath) (data : Doc)
    (k : string) :
  k ∉ p_name <$> ps ->
  (construct Date_parse Date_toString env ps data).1 !! k = None.
Proof.
  induction ps as [|p ps IH]; intros Hk; [apply lookup_empty|].
  rewrite fmap_cons in Hk. apply not_elem_of_cons in Hk as [Hne Hk].
  cbn [construct].
  destruct (construct Date_parse Date_toString env ps data) as [doc failed].
  cbn [fst] in IH.
  destruct (data !! p_name p) as [v|].
  - destruct (cast _ _ _ v); cbn [fst];
      [rewrite lookup_insert_ne by congruence|]; auto.
  - destruct (p_default p); cbn [fst];
      [rewrite lookup_insert_ne by congruence|]; auto.
Qed.

(** With path names that are all different, the member that [construct]
    gives a path is the cast of the member given for it, or its default. *)
Lemma construct_lookup (env : Env) (ps : list SchemaPath) (data : Doc)
    (p : SchemaPath) :
  NoDup (p_name <$> ps) -> p ∈ ps ->
  (construct Date_parse Date_toString env ps data).1 !! p_name p
  = match data !! p_name p with
    | Some v => apply_setters p <$> cast Date_parse Date_toString (p_type p) v
    | None => default_value env <$> p_default p
    end.
Proof.
  induction ps as [|q ps IH]; intros Hnd Hp; [apply elem_of_nil in Hp; destruct Hp|].
  rewrite fmap_cons in Hnd. apply NoDup_cons in Hnd as [Hq Hnd].
  apply elem_of_cons in Hp as [->|Hp].
  - pose proof (construct_lookup_notin env ps data (p_name q) Hq) as Hnone.
    cbn [construct].
    destruct (construct Date_parse Date_toString env ps data) as [doc failed].
    cbn [fst] in Hnone.
    destruct (data !! p_name q) as [v|].
    + destruct (cast _ _ _ v); cbn [fst fmap option_fmap option_map];
        [apply lookup_insert_eq | exact Hnone].
    + destruct (p_default q); cbn [fst fmap option_fmap option_map];
        [apply lookup_insert_eq | exact Hnone].
  - assert (Hne : p_name q <> p_name p).
    { intros Heq. apply Hq. rewrite Heq. apply list_elem_of_fmap_2, Hp. }
    specialize (IH Hnd Hp). cbn [construct].
    destruct (construct Date_parse Date_toString env ps data) as [doc failed].
    cbn [fst] in IH.
    destruct (data !! p_name q) as [v|].
    + destruct (cast _ _ _ v); cbn [fst];
        [rewrite lookup_insert_ne by exact Hne|]; exact IH.
    + destruct (p_default q); cbn [fst];
        [rewrite lookup_insert_ne by exact Hne|]; exact IH.
Qed.

Lemma timestamps_new_lookup (env : Env) (m : Model) (doc : Doc) (k : string) :
  k <> "createdAt" -> k <> "updatedAt" ->
  timestamps_new env m doc !! k = doc !! k.
Proof.
  intros Hc Hu. unfold timestamps_new. destruct (timestamps m); [|reflexivity].
  destruct (doc !! "createdAt") as [[[]| |]|];
    repeat first [ rewrite lookup_insert_eq
                 | rewrite lookup_insert_ne by congruence
                 | match goal with
                   | |- context [match ?x with _ => _ end] => destruct x
                   end ];
    reflexivity.
Qed.

Lemma paths_NoDup (m : Model) :
  m ∈ [Procurement; CashSale; CreditSale] -> NoDup (p_name <$> paths m).
Proof.
  intros Hm.
  apply elem_of_cons in Hm as [->|Hm];
    [|apply elem_of_cons in Hm as [->|Hm];
      [|apply list_elem_of_singleton in Hm as ->]];
    apply (bool_decide_unpack _); vm_compute; exact I.
Qed.

(** [Model.create(data)] succeeds exactly when the document is accepted,
    the database answers and the identifier is not taken; the document is
    then appended to its collection. *)
Lemma Model_create_run (m : Model) (env : Env) (data doc : Doc) (w : World) :
  created Date_parse Date_toString m env data doc ->
  dbUp env = true ->
  fresh m doc (store w) ->
  Model_create Date_parse Date_toString m env data w
  = (Ok doc, mkWorld (inserted m doc (store w)) (stages w)).
Proof.
  intros (Hdisc & Hfailed & Hdoc & Hvalid) Hup Hfresh. unfold Model_create.
  rewrite Hdisc. cbn [negb].
  destruct (construct Date_parse Date_toString env (paths m) data) as [doc0 failed].
  cbn [fst snd] in *. subst failed. rewrite <- Hdoc, Hvalid, Hup.
  rewrite app_nil_l. cbn [negb]. unfold mbind, M_bind, bind, get_store.
  unfold fresh in Hfresh. rewrite Hfresh. reflexivity.
Qed.

Lemma Model_create_inv (m : Model) (env : Env) (data : Doc) (w w' : World)
    (r : Result Doc) :
  Model_create Date_parse Date_toString m env data w = (r, w') ->
  (exists e, r = Threw e /\ w' = w)
  \/ (exists doc, r = Ok doc
        /\ created Date_parse Date_toString m env data doc
        /\ dbUp env = true
        /\ fresh m doc (store w)
        /\ w' = mkWorld (inserted m doc (store w)) (stages w)).
Proof.
  unfold Model_create, created, fresh.
  destruct (discriminator_ok Date_toString m data); cbn [negb];
    [|intros H; injection H as <- <-; left; eauto].
  destruct (construct Date_parse Date_toString env (paths m) data) as [doc0 failed].
  cbn [fst snd].
  destruct (failed ++ invalid_paths (paths m) (timestamps_new env m doc0))
    as [|x xs] eqn:Herr;
    [|intros H; injection H as <- <-; left; eauto].
  apply app_eq_nil in Herr as [-> Hvalid].
  destruct (dbUp env); cbn [negb];
    [|intros H; injection H as <- <-; left; eauto].
  unfold mbind, M_bind, bind, get_store.
  destruct (existsb _ _) eqn:Hfresh;
    intros H; injection H as <- <-; [left; eauto|].
  right. eexists. split; [reflexivity|]. split; [|split; [reflexivity|]].
  - split; [reflexivity|]. split; [reflexivity|]. split; [reflexivity|].
    exact Hvalid.
  - split; [exact Hfresh | reflexivity].
Qed.

(** The handler of a creation route on a request that passed validation:
    the defaults are filled, the store is asked to create the record, and
    the answer is 201 with the record or the server error. *)
Lemma creation_handler_run (env : Env) (route : Route) (roles : list string)
    (chains : list ValidationChain) (key : string) (req : Request) (w : World)
    (u : User.t) :
  (route, roles, chains, key) ∈ creation_routes ->
  req_user req = Some u ->
  req_validation req = [] ->
  creation_handler Date_parse Date_toString route env req w
  = try_catch
      (record ← Model_create Date_parse Date_toString (model_of route) env
                  (fill_defaults env (req_body req) (User._id u) key);
       send 201 (json_data record))
      server_error
      (log (log w [DefaultFill]) [Persist]).
Proof.
  intros Hroute Hu Hval. unfold creation_routes in Hroute.
  apply elem_of_cons in Hroute as [Heq|Hroute];
    [|apply elem_of_cons in Hroute as [Heq|Hroute];
      [|apply list_elem_of_singleton in Hroute as Heq]];
    injection Heq as -> -> -> ->;
    unfold creation_handler, post_procurement_handler, post_cash_handler,
      post_credit_handler, validationResult, user_id, try_catch, mbind, M_bind,
      bind;
    rewrite Hval, Hu; reflexivity.
Qed.

Lemma creation_handler_valid (env : Env) (route : Route) (roles : list string)
    (chains : list ValidationChain) (key : string) (req : Request) (w w' : World)
    (u : User.t) (r : Result Empty_set) :
  (route, roles, chains, key) ∈ creation_routes ->
  req_user req = Some u ->
  req_validation req = [] ->
  creation_handler Date_parse Date_toString route env req w = (r, w') ->
  (r = Sent (mkResponse 500 (json_error "Server error"))
   /\ w' = log (log w [DefaultFill]) [Persist])
  \/ (exists doc,
        r = Sent (mkResponse 201 (json_data doc))
        /\ created Date_parse Date_toString (model_of route) env
             (fill_defaults env (req_body req) (User._id u) key) doc
        /\ dbUp env = true
        /\ fresh (model_of route) doc (store w)
        /\ w' = mkWorld (inserted (model_of route) doc (store w))
                  (stages w ++ [DefaultFill] ++ [Persist])).
Proof.
  intros Hroute Hu Hval.
  rewrite (creation_handler_run env route roles chains key req w u Hroute Hu Hval).
  unfold try_catch, mbind, M_bind, bind.
  destruct (Model_create _ _ _ _ _ _) as [[doc|resp|e] w1] eqn:Hc;
    apply Model_create_inv in Hc as [(e' & He & ->)|(doc' & He & Hcr & Hup & Hfr & ->)];
    try discriminate He.
  - injection He as <-. intros H. injection H as <- <-.
    right. exists doc.
    split; [reflexivity|]. split; [exact Hcr|]. split; [exact Hup|].
    split; [exact Hfr|].
    unfold log. cbn [store stages]. rewrite <- app_assoc. reflexivity.
  - intros H. injection H as <- <-. left. split; reflexivity.
Qed.

(** ** Who recorded a record *)

Lemma dispatch_unauthenticated (env : Env) (req : Request) (w : World) :
  protected (req_route req) = true ->
  resolve_credential_ (store w) (req_authorization req) = None ->
  dispatch validator_isISO8601 Date_parse Date_toString verifyToken env req w
  = (Sent (mkResponse 401 (json_error "Unauthenticated")), log w [Authenticate]).
Proof.
  intros Hp Hu. unfold dispatch.
  destruct (req_route req); try discriminate Hp;
    apply unauthenticated_route; exact Hu.
Qed.

Lemma recordedBy_path (m : Model) :
  m ∈ [Procurement; CashSale; CreditSale] ->
  Schemas.required (Schemas.path "recordedBy" TObjectId) ∈ paths m.
Proof.
  intros Hm.
  apply elem_of_cons in Hm as [->|Hm];
    [|apply elem_of_cons in Hm as [->|Hm];
      [|apply list_elem_of_singleton in Hm as ->]];
    unfold paths; do 3 (apply elem_of_app; right);
    cbn [schema Procurement CashSale CreditSale discriminator Sale];
    [ unfold Schemas.procurementSchema; elem_of_listed
    | apply elem_of_app; left; apply list_elem_of_here
    | apply elem_of_app; left; apply list_elem_of_here ].
Qed.

Lemma created_recordedBy (m : Model) (env : Env) (b : gmap string JSON)
    (id : ObjectId) (key : string) (doc : Doc) :
  m ∈ [Procurement; CashSale; CreditSale] ->
  key <> "recordedBy" ->
  created Date_parse Date_toString m env (fill_defaults env b id key) doc ->
  doc !! "recordedBy" = Some (VObjectId id).
Proof.
  intros Hm Hkey (_ & _ & -> & _).
  rewrite timestamps_new_lookup by discriminate.
  rewrite (construct_lookup env (paths m) _ _ (paths_NoDup m Hm) (recordedBy_path m Hm)).
  cbn [p_name Schemas.required Schemas.path]. unfold fill_defaults.
  rewrite lookup_insert_ne by exact Hkey. rewrite lookup_insert_eq.
  reflexivity.
Qed.

Lemma creation_route_model (route : Route) (roles : list string)
    (chains : list ValidationChain) (key : string) :
  (route, roles, chains, key) ∈ creation_routes ->
  model_of route ∈ [Procurement; CashSale; CreditSale]
  /\ key <> "recordedBy" /\ protected route = true.
Proof.
  intros Hroute. unfold creation_routes in Hroute.
  apply elem_of_cons in Hroute as [Heq|Hroute];
    [|apply elem_of_cons in Hroute as [Heq|Hroute];
      [|apply list_elem_of_singleton in Hroute as Heq]];
    injection Heq as -> -> -> ->;
    (split; [cbn [model_of]; elem_of_listed | split; [discriminate | reflexivity]]).
Qed.

(** What a creation route answers, case by case. *)
Lemma creation_route_cases (env : Env) (route : Route) (roles : list string)
    (chains : list ValidationChain) (key : string)
    (authorization : option string) (id : string) (type : option string)
    (b : gmap string JSON) (st : Store) :
  (route, roles, chains, key) ∈ creation_routes ->
  let answer := serve_ env (incoming route authorization id type b) st in
  (resolve_credential_ st authorization = None
   /\ answer = (mkResponse 401 (json_error "Unauthenticated"), st, [Authenticate]))
  \/ (exists u, resolve_credential_ st authorization = Some u
        /\ (User.role u ∉ roles)
        /\ answer = (mkResponse 403 (json_error "Forbidden"), st,
                     [Authenticate; Authorize]))
  \/ (exists u e es, resolve_credential_ st authorization = Some u
        /\ User.role u ∈ roles
        /\ flat_map (run_chain_ b) chains = e :: es
        /\ answer = (mkResponse 400 (json_errors (e :: es)), st,
                     [Authenticate; Authorize; Validate]))
  \/ (exists u, resolve_credential_ st authorization = Some u
        /\ User.role u ∈ roles
        /\ flat_map (run_chain_ b) chains = []
        /\ answer = (mkResponse 500 (json_error "Server error"), st,
                     [Authenticate; Authorize; Validate; DefaultFill; Persist]))
  \/ (exists u doc, resolve_credential_ st authorization = Some u
        /\ User.role u ∈ roles
        /\ flat_map (run_chain_ b) chains = []
        /\ created Date_parse Date_toString (model_of route) env
             (fill_defaults env b (User._id u) key) doc
        /\ dbUp env = true
        /\ fresh (model_of route) doc st
        /\ answer = (mkResponse 201 (json_data doc),
                     inserted (model_of route) doc st,
                     [Authenticate; Authorize; Validate; DefaultFill; Persist])).
Proof.
  intros Hroute answer. subst answer.
  destruct (creation_route_model route roles chains key Hroute) as (_ & _ & Hprot).
  unfold serve, app.
  destruct (resolve_credential_ st authorization) as [u|] eqn:Hu.
  2:{ left. split; [reflexivity|].
      rewrite (dispatch_unauthenticated env (incoming route authorization id type b)
                 (mkWorld st []) Hprot Hu). reflexivity. }
  right.
  destruct (creation_route_authorized env route roles chains key
              (incoming route authorization id type b) (mkWorld st []) u
              Hroute eq_refl Hu) as [Hok Hforbidden].
  destruct (decide (User.role u ∈ roles)) as [Hr|Hr].
  2:{ left. exists u. split; [reflexivity|]. split; [exact Hr|].
      rewrite (Hforbidden Hr). reflexivity. }
  right. rewrite (Hok Hr).
  change (req_body (incoming route authorization id type b)) with b.
  destruct (flat_map (run_chain_ b) chains) as [|e es] eqn:Herrs.
  2:{ left. exists u, e, es. split; [reflexivity|]. split; [exact Hr|].
      split; [reflexivity|].
      rewrite (creation_handler_invalid env route _ _ e es); reflexivity. }
  right.
  destruct (creation_handler Date_parse Date_toString route env
              (add_validation [] (set_user u (incoming route authorization id type b)))
              (log (mkWorld st []) [Authenticate; Authorize; Validate]))
    as [r w'] eqn:Hrun.
  destruct (creation_handler_valid env route roles chains key
              (add_validation [] (set_user u (incoming route authorization id type b)))
              _ _ u _ Hroute eq_refl eq_refl Hrun)
    as [[-> ->]|(doc & -> & Hcr & Hup & Hfr & ->)].
  - left. exists u. split; [reflexivity|]. split; [exact Hr|].
    split; reflexivity.
  - right. exists u, doc. split; [reflexivity|]. split; [exact Hr|].
    split; [reflexivity|]. split; [exact Hcr|]. split; [exact Hup|].
    split; [exact Hfr | reflexivity].
Qed.

Lemma get_collection_inserted (m : Model) (doc : Doc) (st : Store) :
  get_collection (collection m) (inserted m doc st)
  = get_collection (collection m) st ++ [doc].
Proof. unfold inserted. destruct (collection m); reflexivity. Qed.

(** C9.  On every creation route, the record of a successful creation has
    for [recordedBy] the identity of the authenticated requester, whatever
    the body holds under that name, and it is the record that was added to
    the collection. *)
Theorem recordedBy_is_requester (env : Env) (route : Route)
    (roles : list string) (chains : list ValidationChain) (key : string)
    (authorization : option string) (id : string) (type : option string)
    (b : gmap string JSON) (st st' : Store) (doc : Doc) (done : list Stage) :
  (route, roles, chains, key) ∈ creation_routes ->
  serve_ env (incoming route authorization id type b) st
  = (mkResponse 201 (json_data doc), st', done) ->
  exists u,
    resolve_credential_ st authorization = Some u
    /\ doc !! "recordedBy" = Some (VObjectId (User._id u))
    /\ get_collection (collection (model_of route)) st'
       = get_collection (collection (model_of route)) st ++ [doc].
Proof.
  intros Hroute Hserve.
  destruct (creation_route_model route roles chains key Hroute) as (Hm & Hkey & _).
  destruct (creation_route_cases env route roles chains key authorization id
              type b st Hroute)
    as [[_ H]|[(u & _ & _ & H)|[(u & e & es & _ & _ & _ & H)
       |[(u & _ & _ & _ & H)|(u & doc' & Hu & _ & _ & Hcr & _ & _ & H)]]]];
    rewrite H in Hserve; try discriminate Hserve.
  injection Hserve as -> <- _.
  exists u. split; [exact Hu|]. split.
  - apply (created_recordedBy (model_of route) env b (User._id u) key);
      assumption.
  - apply get_collection_inserted.
Qed.

Lemma maize_body_valid :
  flat_map (run_chain_ maize_body) procurement_rules = [].
Proof. vm_compute. reflexivity. Qed.

Lemma existsb_has_id_false (id : option Value) (docs : list Doc) :
  (forall d, d ∈ docs -> d !! "_id" <> id) -> existsb (has_id id) docs = false.
Proof.
  intros H. induction docs as [|d docs IH]; [reflexivity|].
  cbn [existsb]. unfold has_id at 1.
  rewrite bool_decide_eq_false_2 by (apply H, list_elem_of_here).
  apply IH. intros d' Hd'. apply H, list_elem_of_further, Hd'.
Qed.

(** C6.  A requester whose role is not Manager (a Sales Agent for one) is
    refused on [POST /procurement] with status 403.  A Manager who sends
    the example body of the specification, while the database answers and
    the generated identifier is not taken, is answered with status 201 and
    the record, whose branch is Maganjo and whose tonnage is 150; the
    record is added to the procurements. *)
Theorem procurement_is_for_managers (env : Env) (authorization : option string)
    (id : string) (type : option string) (st : Store) (u : User.t) :
  resolve_credential_ st authorization = Some u ->
  (User.role u <> "Manager" ->
   forall b,
     serve_ env (incoming POST_procurement authorization id type b) st
     = (mkResponse 403 (json_error "Forbidden"), st, [Authenticate; Authorize]))
  /\ (User.role u = "Manager" ->
      dbUp env = true ->
      (forall d, d ∈ procurements st -> d !! "_id" <> Some (VObjectId (newId env))) ->
      exists doc,
        serve_ env (incoming POST_procurement authorization id type maize_body) st
        = (mkResponse 201 (json_data doc),
           mkStore (users st) (procurements st ++ [doc]) (sales st),
           [Authenticate; Authorize; Validate; DefaultFill; Persist])
        /\ doc !! "branch" = Some (VStr "Maganjo")
        /\ doc !! "tonnage" = Some (VNum (Dec_of_Z 150))).
Proof.
  intros Hu. split.
  - intros Hr b. unfold serve, app, dispatch. cbn [req_route incoming].
    unfold post_procurement.
    rewrite (forbidden_route validator_isISO8601 verifyToken ["Manager"]
               procurement_rules _
               (incoming POST_procurement authorization id type b)
               (mkWorld st []) u Hu).
    + reflexivity.
    + intros Hin. apply list_elem_of_singleton in Hin. contradiction.
  - intros Hr Hup Hfresh.
    set (data := fill_defaults env maize_body (User._id u) "date").
    set (doc := timestamps_new env Procurement
                  (construct Date_parse Date_toString env (paths Procurement) data).1).
    assert (Hcr : created Date_parse Date_toString Procurement env data doc).
    { split; [reflexivity|]. split; [vm_compute; reflexivity|].
      split; [reflexivity|]. vm_compute. reflexivity. }
    assert (Hid : doc !! "_id" = Some (VObjectId (newId env)))
      by (vm_compute; reflexivity).
    exists doc. split; [|split; vm_compute; reflexivity].
    unfold serve, app, dispatch. cbn [req_route incoming].
    rewrite (post_procurement_authorized env
               (incoming POST_procurement authorization id type maize_body)
               (mkWorld st []) u Hu Hr).
    change (req_body (incoming POST_procurement authorization id type maize_body))
      with maize_body.
    rewrite maize_body_valid.
    pose proof (creation_handler_run env POST_procurement ["Manager"]
                  procurement_rules "date"
                  (add_validation []
                     (set_user u
                        (incoming POST_procurement authorization id type maize_body)))
                  (log (mkWorld st []) [Authenticate; Authorize; Validate]) u)
      as Hrun.
    unfold creation_handler in Hrun. rewrite Hrun; clear Hrun;
      [|apply list_elem_of_here | reflexivity | reflexivity].
    unfold try_catch, mbind, M_bind, bind.
    change (req_body _) with maize_body. fold data.
    rewrite (Model_create_run Procurement env data doc _ Hcr Hup).
    + reflexivity.
    + unfold fresh. rewrite Hid. apply existsb_has_id_false. exact Hfresh.
Qed.

(** ** Reading and saving *)

Lemma Model_find_inv (m : Model) (env : Env) (query : list (string * Value))
    (w w' : World) (r : Result (list Doc)) :
  Model_find Date_parse Date_toString m env query w = (r, w') ->
  w' = w /\ ((exists e, r = Threw e) \/ (exists docs, r = Ok docs)).
Proof.
  unfold Model_find.
  destruct (cast_query _ _ _ _); [destruct (dbUp env)|]; cbn [negb];
    intros H; injection H as <- <-; eauto.
Qed.

Lemma Model_findById_run (m : Model) (env : Env) (id : string) (w : World) :
  Model_findById m env id w
  = match ObjectId_.ofString id with
    | None => (Threw (CastError "_id"), w)
    | Some oid =>
        if dbUp env
        then (Ok (List.find
                    (fun d => has_id (Some (VObjectId oid)) d && of_model m d)
                    (get_collection (collection m) (store w))), w)
        else (Threw MongoNetworkError, w)
    end.
Proof.
  unfold Model_findById. destruct (ObjectId_.ofString id); [|reflexivity].
  destruct (dbUp env); reflexivity.
Qed.

(** The handlers that only read leave the world as it is. *)
Lemma get_procurements_handler_cases (env : Env) (req : Request) (w w' : World)
    (r : Result Empty_set) :
  get_procurements_handler Date_parse Date_toString env req w = (r, w') ->
  w' = w /\ exists resp, r = Sent resp /\ (status resp = 200%nat \/ status resp = 500%nat).
Proof.
  unfold get_procurements_handler, try_catch, mbind, M_bind, bind, resolve.
  cbn [List.find procurementRoutes_scope String.eqb Ascii.eqb Bool.eqb].
  unfold mret, M_ret, ret.
  destruct (Model_find _ _ _ _ _ _) as [[docs|resp|e] w1] eqn:Hf;
    apply Model_find_inv in Hf as [-> [[e' He]|[docs' He]]]; try discriminate He;
    intros H; injection H as <- <-; split; try reflexivity; eexists;
    (split; [reflexivity|]); cbn; auto.
Qed.

Lemma get_procurement_handler_cases (env : Env) (req : Request) (w w' : World)
    (r : Result Empty_set) :
  get_procurement_handler env req w = (r, w') ->
  w' = w /\ exists resp, r = Sent resp
    /\ (status resp = 200%nat \/ status resp = 404%nat \/ status resp = 500%nat).
Proof.
  unfold get_procurement_handler, try_catch, mbind, M_bind, bind, resolve.
  cbn [List.find procurementRoutes_scope String.eqb Ascii.eqb Bool.eqb].
  unfold mret, M_ret, ret. rewrite Model_findById_run.
  destruct (ObjectId_.ofString (req_params_id req)); [destruct (dbUp env)|];
    [destruct (List.find _ _)| |];
    intros H; injection H as <- <-; split; try reflexivity; eexists;
    (split; [reflexivity|]); cbn; auto.
Qed.

(** Saving a loaded document: nothing happens when nothing was modified;
    otherwise the modified paths are validated and written. *)
Lemma Document_save_inv (m : Model) (env : Env) (d : Document) (w w' : World)
    (r : Result Doc) :
  Document_save m env d w = (r, w') ->
  (exists e, r = Threw e /\ w' = w)
  \/ (doc_modified d = [] /\ r = Ok (doc_values d) /\ w' = w)
  \/ (doc_modified d <> [] /\ dbUp env = true
      /\ let doc := if timestamps m
                    then <["updatedAt" := VDate (now env)]> (doc_values d)
                    else doc_values d in
         let written := doc_modified d ++ (if timestamps m then ["updatedAt"] else []) in
         r = Ok doc
         /\ w' = mkWorld
                   (set_collection (collection m)
                      (update_first (doc !! "_id") (delta doc written)
                         (get_collection (collection m) (store w))) (store w))
                   (stages w)).
Proof.
  unfold Document_save. destruct (doc_modified d) as [|k ks] eqn:Hmod.
  { intros H. injection H as <- <-. right. left. auto. }
  destruct (invalid_paths _ _); [|intros H; injection H as <- <-; left; eauto].
  destruct (dbUp env); cbn [negb]; [|intros H; injection H as <- <-; left; eauto].
  intros H. injection H as <- <-. right. right.
  split; [discriminate|]. split; [reflexivity|]. split; reflexivity.
Qed.

Lemma resolve_CreditSale (w : World) :
  resolve salesRoutes_scope "CreditSale" w = (Ok CreditSale, w).
Proof. reflexivity. Qed.

(** What the payment handler does, case by case. *)
Lemma patch_payment_handler_cases (env : Env) (req : Request) (w w' : World)
    (r : Result Empty_set) :
  patch_payment_handler env req w = (r, w') ->
  (r = Sent (mkResponse 500 (json_error "Server error"))
   /\ store w' = store w
   /\ (stages w' = stages w \/ stages w' = stages w ++ [Persist]))
  \/ (r = Sent (mkResponse 404 (json_error "Credit sale not found"))
      /\ w' = w
      /\ exists oid, ObjectId_.ofString (req_params_id req) = Some oid
           /\ dbUp env = true /\ find_credit_sale oid (store w) = None)
  \/ (exists oid stored,
        ObjectId_.ofString (req_params_id req) = Some oid
        /\ dbUp env = true
        /\ find_credit_sale oid (store w) = Some stored
        /\ stages w' = stages w ++ [Persist]
        /\ ((doc_modified (paid env stored) = []
             /\ r = Sent (mkResponse 200 (json_data stored))
             /\ store w' = store w)
            \/ (doc_modified (paid env stored) <> []
                /\ let saved := <["updatedAt" := VDate (now env)]>
                                  (doc_values (paid env stored)) in
                   r = Sent (mkResponse 200 (json_data saved))
                   /\ store w'
                      = mkStore (users (store w)) (procurements (store w))
                          (update_first (saved !! "_id")
                             (delta saved
                                (doc_modified (paid env stored) ++ ["updatedAt"]))
                             (sales (store w)))))).
Proof.
  unfold patch_payment_handler, try_catch, mbind, M_bind.
  rewrite (bind_ok _ _ _ _ _ (resolve_CreditSale w)).
  unfold bind at 1. rewrite Model_findById_run.
  destruct (ObjectId_.ofString (req_params_id req)) as [oid|] eqn:Hid.
  2:{ intros H. injection H as <- <-. left. auto. }
  destruct (dbUp env) eqn:Hup.
  2:{ intros H. injection H as <- <-. left. auto. }
  change (List.find _ _) with (find_credit_sale oid (store w)).
  destruct (find_credit_sale oid (store w)) as [stored|] eqn:Hfind.
  2:{ intros H. injection H as <- <-. right. left.
      split; [reflexivity|]. split; [reflexivity|]. exists oid. auto. }
  fold (paid env stored). unfold bind. rewrite mark_run.
  destruct (Document_save CreditSale env (paid env stored) (log w [Persist]))
    as [[saved|resp|e] w1] eqn:Hsave;
    apply Document_save_inv in Hsave
      as [(e' & He & ->)|[(Hmod & He & ->)|(Hmod & _ & He & ->)]];
    try discriminate He.
  - injection He as ->. intros H. injection H as <- <-.
    right. right. exists oid, stored.
    split; [reflexivity|]. split; [reflexivity|]. split; [exact Hfind|].
    split; [reflexivity|]. left. split; [exact Hmod|].
    split; [|reflexivity].
    assert (Hv : doc_values (paid env stored) = stored).
    { unfold paid, Document_set in *. cbn [doc_values doc_modified] in *.
      destruct (bool_decide (stored !! "isPaid" = Some (VBool true)));
        cbn [doc_values doc_modified] in *;
        [|destruct (bool_decide _) in Hmod; cbn in Hmod; discriminate Hmod].
      destruct (bool_decide (stored !! "paymentDate" = Some (VDate (now env))));
        [reflexivity | discriminate Hmod]. }
    rewrite Hv. reflexivity.
  - injection He as ->. intros H. injection H as <- <-.
    right. right. exists oid, stored.
    split; [reflexivity|]. split; [reflexivity|]. split; [exact Hfind|].
    split; [reflexivity|]. right. split; [exact Hmod|].
    split; reflexivity.
  - intros H. injection H as <- <-. left. auto.
Qed.

(** ** Every route, case by case *)

Lemma serve_unauthenticated (env : Env) (route : Route)
    (authorization : option string) (id : string) (type : option string)
    (b : gmap string JSON) (st : Store) :
  protected route = true ->
  resolve_credential_ st authorization = None ->
  serve_ env (incoming route authorization id type b) st
  = (mkResponse 401 (json_error "Unauthenticated"), st, [Authenticate]).
Proof.
  intros Hp Hu. unfold serve, app.
  rewrite (dispatch_unauthenticated env (incoming route authorization id type b)
             (mkWorld st []) Hp Hu).
  reflexivity.
Qed.

(** The routes that read, for an authenticated requester: the store is
    left as it is and only authentication is logged. *)
Lemma serve_read (env : Env) (route : Route) (authorization : option string)
    (id : string) (type : option string) (b : gmap string JSON) (st : Store)
    (u : User.t) :
  route ∈ [GET_procurement; GET_procurement_id; GET_sales] ->
  resolve_credential_ st authorization = Some u ->
  exists resp,
    serve_ env (incoming route authorization id type b) st
    = (resp, st, [Authenticate])
    /\ (status resp = 200%nat \/ status resp = 404%nat \/ status resp = 500%nat).
Proof.
  intros Hroute Hu. unfold serve, app, dispatch.
  apply elem_of_cons in Hroute as [->|Hroute];
    [|apply elem_of_cons in Hroute as [->|Hroute];
      [|apply list_elem_of_singleton in Hroute as ->]];
    cbn [req_route incoming].
  - unfold get_procurements.
    rewrite (authenticated_route verifyToken _
               (incoming GET_procurement authorization id type b)
               (mkWorld st []) u Hu).
    destruct (get_procurements_handler _ _ _ _ _) as [r w'] eqn:Hh.
    apply get_procurements_handler_cases in Hh as [-> (resp & -> & Hs)].
    exists resp. split; [reflexivity | tauto].
  - unfold get_procurement.
    rewrite (authenticated_route verifyToken _
               (incoming GET_procurement_id authorization id type b)
               (mkWorld st []) u Hu).
    destruct (get_procurement_handler _ _ _) as [r w'] eqn:Hh.
    apply get_procurement_handler_cases in Hh as [-> (resp & -> & Hs)].
    exists resp. split; [reflexivity | tauto].
  - unfold get_sales.
    rewrite (authenticated_route verifyToken _
               (incoming GET_sales authorization id type b)
               (mkWorld st []) u Hu).
    rewrite get_sales_handler_run.
    eexists. split; [reflexivity|]. cbn. auto.
Qed.

(** The payment route, for an authenticated requester. *)
Lemma serve_patch (env : Env) (authorization : option string) (id : string)
    (type : option string) (b : gmap string JSON) (st : Store) (u : User.t) :
  resolve_credential_ st authorization = Some u ->
  exists r w',
    patch_payment_handler env
      (set_user u (incoming PATCH_sales_credit_payment authorization id type b))
      (log (mkWorld st []) [Authenticate]) = (Sent r, w')
    /\ serve_ env (incoming PATCH_sales_credit_payment authorization id type b) st
       = (r, store w', stages w').
Proof.
  intros Hu. unfold serve, app, dispatch. cbn [req_route incoming].
  unfold patch_payment.
  rewrite (authenticated_route verifyToken _
             (incoming PATCH_sales_credit_payment authorization id type b)
             (mkWorld st []) u Hu).
  destruct (patch_payment_handler _ _ _) as [r w'] eqn:Hh.
  pose proof Hh as Hcases.
  apply patch_payment_handler_cases in Hcases
    as [(-> & _)|[(-> & _)|(oid & stored & _ & _ & _ & _ & [(_ & -> & _)|(_ & Hr)])]].
  - eexists _, w'. split; reflexivity.
  - eexists _, w'. split; reflexivity.
  - eexists _, w'. split; reflexivity.
  - cbv zeta in Hr. destruct Hr as [-> _]. eexists _, w'. split; reflexivity.
Qed.

Ltac sublist_listed := solve [ repeat constructor ].

(** Implications from the status of a response that is known. *)
Ltac by_status :=
  repeat match goal with
         | |- _ /\ _ => split
         | |- _ -> _ => let H := fresh in intros H; try discriminate H
         end;
  try reflexivity.

(** C5.  A request without a valid credential on a route that requires
    authentication is answered with status 401 by the first stage: nothing
    is validated and the store is not touched.  On every route the stages
    that run are taken from authenticate, authorize, validate,
    default-fill, persist in that order, each at most once, and a stage
    that fails is the last to run: status 401 leaves only authentication
    in the log, status 403 authentication and authorization, status 400
    those and validation, each with the store as it was; a creation that
    answers 201 has run all five. *)
Theorem pipeline_stops_at_first_failure (env : Env) (route : Route)
    (authorization : option string) (id : string) (type : option string)
    (b : gmap string JSON) (st st' : Store) (r : Response) (done : list Stage) :
  serve_ env (incoming route authorization id type b) st = (r, st', done) ->
  (protected route = true ->
   resolve_credential_ st authorization = None ->
   r = mkResponse 401 (json_error "Unauthenticated")
   /\ st' = st /\ done = [Authenticate] /\ Validate ∉ done)
  /\ sublist done [Authenticate; Authorize; Validate; DefaultFill; Persist]
  /\ (status r = 401%nat -> done = [Authenticate] /\ st' = st)
  /\ (status r = 403%nat -> done = [Authenticate; Authorize] /\ st' = st)
  /\ (status r = 400%nat ->
      done = [Authenticate; Authorize; Validate] /\ st' = st)
  /\ (status r = 201%nat ->
      done = [Authenticate; Authorize; Validate; DefaultFill; Persist]).
Proof.
  intros Hserve. split.
  { intros Hp Hu. rewrite (serve_unauthenticated env route _ _ _ _ _ Hp Hu) in Hserve.
    injection Hserve as <- <- <-. repeat split; try reflexivity.
    intros Hin. apply list_elem_of_singleton in Hin. discriminate Hin. }
  destruct (protected route) eqn:Hp.
  2:{ destruct route; try discriminate Hp; injection Hserve as <- <- <-;
        (split; [sublist_listed | by_status]). }
  destruct (resolve_credential_ st authorization) as [u|] eqn:Hu.
  2:{ rewrite (serve_unauthenticated env route _ _ _ _ _ Hp Hu) in Hserve.
      injection Hserve as <- <- <-.
      split; [sublist_listed | by_status]. }
  assert (Hkinds :
    (exists roles chains key, (route, roles, chains, key) ∈ creation_routes)
    \/ route ∈ [GET_procurement; GET_procurement_id; GET_sales]
    \/ route = PATCH_sales_credit_payment).
  { destruct route; try discriminate Hp.
    - left. exists ["Manager"], procurement_rules, "date". elem_of_listed.
    - right. left. elem_of_listed.
    - right. left. elem_of_listed.
    - left. exists ["Sales Agent"; "Manager"], cash_rules, "date". elem_of_listed.
    - left. exists ["Sales Agent"; "Manager"], credit_rules, "dispatchDate".
      elem_of_listed.
    - right. left. elem_of_listed.
    - right. right. reflexivity. }
  destruct Hkinds as [(roles & chains & key & Hroute)|[Hread| ->]].
  - destruct (creation_route_cases env route roles chains key authorization id
                type b st Hroute)
      as [[_ H]|[(u1 & _ & _ & H)|[(u1 & e & es & _ & _ & _ & H)
         |[(u1 & _ & _ & _ & H)|(u1 & doc & _ & _ & _ & _ & _ & _ & H)]]]];
      rewrite H in Hserve; injection Hserve as <- <- <-;
      (split; [sublist_listed | by_status]).
  - destruct (serve_read env route authorization id type b st u Hread Hu)
      as (resp & H & Hs).
    rewrite H in Hserve. injection Hserve as <- <- <-.
    split; [sublist_listed|].
    repeat match goal with
           | |- _ /\ _ => split
           | |- _ -> _ =>
               let H1 := fresh in
               intros H1; rewrite H1 in Hs;
               destruct Hs as [Hs|[Hs|Hs]]; discriminate Hs
           end.
  - destruct (serve_patch env authorization id type b st u Hu)
      as (r0 & w' & Hh & H).
    rewrite H in Hserve. injection Hserve as <- <- <-.
    apply patch_payment_handler_cases in Hh
      as [(Hr & _ & Hst)|[(Hr & Hw & _)|(oid & stored & _ & _ & _ & Hst & Hsaved)]].
    + injection Hr as ->.
      destruct Hst as [Hst|Hst]; rewrite Hst;
        (split; [sublist_listed | by_status]).
    + injection Hr as ->. subst w'.
      split; [sublist_listed | by_status].
    + rewrite Hst.
      destruct Hsaved as [(_ & Hr & _)|(_ & Hr)];
        [|cbv zeta in Hr; destruct Hr as [Hr _]];
        injection Hr as ->; (split; [sublist_listed | by_status]).
Qed.

(** ** What a payment changes *)

Lemma apply_delta_lookup (changes : list (string * Value)) (d : Doc) (k : string) :
  k ∉ changes.*1 -> apply_delta changes d !! k = d !! k.
Proof.
  induction changes as [|[k' v] changes IH]; intros Hk; [reflexivity|].
  rewrite fmap_cons in Hk. apply not_elem_of_cons in Hk as [Hne Hk].
  cbn [apply_delta foldr]. rewrite lookup_insert_ne by (cbn in Hne; congruence).
  apply IH, Hk.
Qed.

Lemma delta_keys (doc : Doc) (written : list string) (k : string) :
  k ∈ (delta doc written).*1 -> k ∈ written.
Proof.
  unfold delta. induction written as [|k' written IH]; cbn [omap list_omap].
  - intros H. apply elem_of_nil in H. destruct H.
  - destruct (doc !! k') as [v|]; cbn [fmap option_fmap option_map].
    + rewrite fmap_cons. intros H. apply elem_of_cons in H as [->|H].
      * apply list_elem_of_here.
      * apply list_elem_of_further, IH, H.
    + intros H. apply list_elem_of_further, IH, H.
Qed.

Lemma paid_modified (env : Env) (stored : Doc) (k : string) :
  k ∈ doc_modified (paid env stored) -> k = "isPaid" \/ k = "paymentDate".
Proof.
  unfold paid, Document_set. cbn [doc_values doc_modified].
  destruct (bool_decide (stored !! "isPaid" = Some (VBool true)));
    cbn [doc_values doc_modified];
    destruct (bool_decide _); cbn [doc_values doc_modified app];
    intros H;
    repeat (apply elem_of_cons in H as [->|H]; [tauto|]);
    apply elem_of_nil in H; destruct H.
Qed.

Lemma paid_values (env : Env) (stored : Doc) :
  doc_values (paid env stored) !! "isPaid" = Some (VBool true)
  /\ doc_values (paid env stored) !! "paymentDate" = Some (VDate (now env))
  /\ forall k, k <> "isPaid" -> k <> "paymentDate" ->
       doc_values (paid env stored) !! k = stored !! k.
Proof.
  unfold paid, Document_set. cbn [doc_values doc_modified].
  destruct (bool_decide_reflect (stored !! "isPaid" = Some (VBool true))) as [H1|H1];
    cbn [doc_values doc_modified];
    match goal with
    | |- context [bool_decide (?x = ?y)] =>
        destruct (bool_decide_reflect (x = y)) as [H2|H2]
    end; cbn [doc_values doc_modified];
    (split; [|split]);
    try (intros k Hk1 Hk2);
    repeat first [ rewrite lookup_insert_eq
                 | rewrite lookup_insert_ne by congruence ];
    try reflexivity; try assumption.
  rewrite lookup_insert_ne in H2 by discriminate. exact H2.
Qed.

(** The changes that a payment writes only name members a payment may
    change. *)
Lemma payment_delta_keys (env : Env) (stored saved : Doc) (k : string) :
  k ∈ (delta saved (doc_modified (paid env stored) ++ ["updatedAt"])).*1 ->
  k ∈ payment_members.
Proof.
  intros H. apply delta_keys, elem_of_app in H as [H|H].
  - apply paid_modified in H as [-> | ->]; unfold payment_members; elem_of_listed.
  - apply list_elem_of_singleton in H as ->. unfold payment_members. elem_of_listed.
Qed.


Lemma apply_delta_same_but_payment (changes : list (string * Value)) (d : Doc) :
  (forall k, k ∈ changes.*1 -> k ∈ payment_members) ->
  same_but_payment d (apply_delta changes d).
Proof.
  intros H k Hk. apply apply_delta_lookup. intros Hin. apply Hk, H, Hin.
Qed.

(** An update touches at most the first document that has the identifier,
    and only in the members written. *)
Lemma update_first_Forall2 (id : option Value) (changes : list (string * Value))
    (docs : list Doc) :
  (forall k, k ∈ changes.*1 -> k ∈ payment_members) ->
  Forall2 (fun d d' => d' = d \/ (d !! "_id" = id /\ same_but_payment d d'))
    docs (update_first id changes docs).
Proof.
  intros H. induction docs as [|d docs IH]; [constructor|].
  cbn [update_first]. unfold has_id at 1.
  destruct (bool_decide_reflect (d !! "_id" = id)) as [Hid|Hid].
  - constructor.
    + right. split; [exact Hid | apply apply_delta_same_but_payment, H].
    + clear. induction docs; constructor; auto.
  - constructor; [left; reflexivity | exact IH].
Qed.

Lemma Forall2_same (docs : list Doc) (id : option Value) :
  Forall2 (fun d d' => d' = d \/ (d !! "_id" = id /\ same_but_payment d d'))
    docs docs.
Proof. induction docs; constructor; auto. Qed.

(** C8 (as amended).  No request changes the users; a request leaves every
    procurement as it is and every sale as it is up to the members isPaid,
    paymentDate and updatedAt, in its place, and may add records after
    them: no record is deleted.  Only the payment route changes a stored
    record, and the record it changes carries the identifier named by the
    request. *)
Theorem only_payment_members_change (env : Env) (route : Route)
    (authorization : option string) (id : string) (type : option string)
    (b : gmap string JSON) (st st' : Store) (r : Response) (done : list Stage) :
  serve_ env (incoming route authorization id type b) st = (r, st', done) ->
  users st' = users st
  /\ (exists added, procurements st' = procurements st ++ added)
  /\ (exists kept added,
        sales st' = kept ++ added
        /\ Forall2
             (fun d d' =>
                d' = d
                \/ (route = PATCH_sales_credit_payment
                    /\ (exists oid, ObjectId_.ofString id = Some oid
                                    /\ d !! "_id" = Some (VObjectId oid))
                    /\ same_but_payment d d'))
             (sales st) kept).
Proof.
  intros Hserve.
  assert (Hsame : forall st0 : Store,
    users st0 = users st0
    /\ (exists added, procurements st0 = procurements st0 ++ added)
    /\ (exists kept added,
          sales st0 = kept ++ added
          /\ Forall2
               (fun d d' =>
                  d' = d
                  \/ (route = PATCH_sales_credit_payment
                      /\ (exists oid, ObjectId_.ofString id = Some oid
                                      /\ d !! "_id" = Some (VObjectId oid))
                      /\ same_but_payment d d'))
               (sales st0) kept)).
  { intros st0. split; [reflexivity|]. split.
    - exists []. rewrite app_nil_r. reflexivity.
    - exists (sales st0), []. rewrite app_nil_r. split; [reflexivity|].
      induction (sales st0); constructor; auto. }
  destruct (protected route) eqn:Hp.
  2:{ destruct route; try discriminate Hp; injection Hserve as <- <- <-;
        apply Hsame. }
  destruct (resolve_credential_ st authorization) as [u|] eqn:Hu.
  2:{ rewrite (serve_unauthenticated env route _ _ _ _ _ Hp Hu) in Hserve.
      injection Hserve as <- <- <-. apply Hsame. }
  assert (Hkinds :
    (exists roles chains key, (route, roles, chains, key) ∈ creation_routes)
    \/ route ∈ [GET_procurement; GET_procurement_id; GET_sales]
    \/ route = PATCH_sales_credit_payment).
  { destruct route; try discriminate Hp.
    - left. exists ["Manager"], procurement_rules, "date". elem_of_listed.
    - right. left. elem_of_listed.
    - right. left. elem_of_listed.
    - left. exists ["Sales Agent"; "Manager"], cash_rules, "date". elem_of_listed.
    - left. exists ["Sales Agent"; "Manager"], credit_rules, "dispatchDate".
      elem_of_listed.
    - right. left. elem_of_listed.
    - right. right. reflexivity. }
  destruct Hkinds as [(roles & chains & key & Hroute)|[Hread| ->]].
  - destruct (creation_route_cases env route roles chains key authorization id
                type b st Hroute)
      as [[_ H]|[(u1 & _ & _ & H)|[(u1 & e & es & _ & _ & _ & H)
         |[(u1 & _ & _ & _ & H)|(u1 & doc & _ & _ & _ & _ & _ & _ & H)]]]];
      rewrite H in Hserve; injection Hserve as <- <- <-; try apply Hsame.
    unfold inserted.
    destruct (collection (model_of route)); cbn [set_collection get_collection
      users procurements sales].
    + split; [reflexivity|]. split; [eexists; reflexivity|].
      exists (sales st), []. rewrite app_nil_r. split; [reflexivity|].
      induction (sales st); constructor; auto.
    + split; [reflexivity|]. split; [exists []; rewrite app_nil_r; reflexivity|].
      exists (sales st), [doc]. split; [reflexivity|].
      induction (sales st); constructor; auto.
  - destruct (serve_read env route authorization id type b st u Hread Hu)
      as (resp & H & _).
    rewrite H in Hserve. injection Hserve as <- <- <-. apply Hsame.
  - destruct (serve_patch env authorization id type b st u Hu)
      as (r0 & w' & Hh & H).
    rewrite H in Hserve. injection Hserve as <- <- <-.
    apply patch_payment_handler_cases in Hh
      as [(_ & Hst & _)|[(_ & Hw & _)|(oid & stored & Hid & _ & Hfind & _ & Hsaved)]].
    + rewrite Hst. apply Hsame.
    + subst w'. apply Hsame.
    + destruct Hsaved as [(_ & _ & Hst)|(_ & Hr)].
      { rewrite Hst. apply Hsame. }
      cbv zeta in Hr. destruct Hr as [_ Hst]. rewrite Hst.
      cbn [users procurements sales store log].
      split; [reflexivity|]. split; [exists []; rewrite app_nil_r; reflexivity|].
      eexists _, []. rewrite app_nil_r. split; [reflexivity|].
      assert (Hsid : (<["updatedAt" := VDate (now env)]>
                        (doc_values (paid env stored))) !! "_id"
                     = Some (VObjectId oid)).
      { rewrite lookup_insert_ne by discriminate.
        destruct (paid_values env stored) as (_ & _ & Hother).
        rewrite Hother by discriminate.
        unfold find_credit_sale in Hfind. apply find_some in Hfind as [_ Hfind].
        apply andb_true_iff in Hfind as [Hfind _]. unfold has_id in Hfind.
        apply bool_decide_eq_true in Hfind. exact Hfind. }
      rewrite Hsid.
      eapply Forall2_impl;
        [apply update_first_Forall2; intros k Hk;
         eapply payment_delta_keys; exact Hk|].
      intros d d' [->|[Hd Hframe]]; [left; reflexivity|].
      right. split; [reflexivity|]. split; [|exact Hframe].
      exists oid. split; [exact Hid | exact Hd].
Qed.

(** ** Paying a credit sale *)













(** ** The record of a new credit sale *)

Lemma invalid_paths_valid (ps : list SchemaPath) (doc : Doc) (p : SchemaPath) :
  invalid_paths ps doc = [] -> p ∈ ps -> path_valid p (doc !! p_name p) = true.
Proof.
  unfold invalid_paths. induction ps as [|q ps IH]; intros Hnil Hp.
  - apply elem_of_nil in Hp. destruct Hp.
  - cbn [flat_map] in Hnil. apply app_eq_nil in Hnil as [Hq Hnil].
    apply elem_of_cons in Hp as [->|Hp]; [|apply IH; assumption].
    destruct (path_valid q (doc !! p_name q)); [reflexivity | discriminate Hq].
Qed.



Lemma id_path (m : Model) :
  Schemas.required (Schemas.default Generated_id (Schemas.path "_id" TObjectId))
  ∈ paths m.
Proof. unfold paths. apply elem_of_app. left. apply list_elem_of_here. Qed.

Lemma castObjectId_cases (v v' : Value) :
  castObjectId Date_toString v = Some v' ->
  v' = VNull \/ exists oid, v' = VObjectId oid.
Proof.
  unfold castObjectId. intros H.
  destruct v as [j|t|o].
  - destruct j;
      try (injection H as <-; left; reflexivity);
      match type of H with
      | VObjectId <$> ?x = _ =>
          destruct x as [oid|]; [|discriminate H];
          injection H as <-; right; exists oid; reflexivity
      end.
  - destruct (ObjectId_.ofString (Date_toString t)) as [oid|]; [|discriminate H].
    injection H as <-. right. exists oid. reflexivity.
  - injection H as <-. right. exists o. reflexivity.
Qed.

(** The identifier of an accepted document is an ObjectId. *)
Lemma created_id (m : Model) (env : Env) (data doc : Doc) :
  m ∈ [Procurement; CashSale; CreditSale] ->
  created Date_parse Date_toString m env data doc ->
  exists oid, doc !! "_id" = Some (VObjectId oid).
Proof.
  intros Hm Hcr. pose proof Hcr as (_ & _ & Hdoc & Hvalid).
  pose proof (invalid_paths_valid _ _ _ Hvalid (id_path m)) as Hv.
  cbn [p_name Schemas.required Schemas.default Schemas.path] in Hv.
  unfold path_valid in Hv.
  cbn [p_required Schemas.required Schemas.default Schemas.path] in Hv.
  apply andb_true_iff in Hv as [Hv _].
  assert (Hl : doc !! "_id"
               = match data !! "_id" with
                 | Some v => castObjectId Date_toString v
                 | None => Some (VObjectId (newId env))
                 end).
  { rewrite Hdoc, timestamps_new_lookup by discriminate.
    pose proof (construct_lookup env (paths m) data _ (paths_NoDup m Hm) (id_path m))
      as Hcl.
    cbn [p_name p_type p_default Schemas.required Schemas.default Schemas.path]
      in Hcl.
    rewrite Hcl.
    destruct (data !! "_id") as [v|]; [|reflexivity].
    cbn [cast]. destruct (castObjectId Date_toString v) as [v'|] eqn:Hc;
      [|reflexivity].
    cbn [fmap option_fmap option_map]. f_equal.
    apply castObjectId_cases in Hc as [->|[oid ->]]; reflexivity. }
  destruct (data !! "_id") as [v|].
  - destruct (castObjectId Date_toString v) as [v'|] eqn:Hc.
    + apply castObjectId_cases in Hc as [->|[oid ->]].
      * rewrite Hl in Hv. discriminate Hv.
      * exists oid. exact Hl.
    + rewrite Hl in Hv. discriminate Hv.
  - exists (newId env). exact Hl.
Qed.

Lemma saleType_path :
  Schemas.default (Literal (VStr "Credit")) (Schemas.path "saleType" TString)
  ∈ paths CreditSale.
Proof.
  unfold paths. apply elem_of_app. right. apply elem_of_app. left.
  apply list_elem_of_here.
Qed.



Lemma CreditSale_listed : CreditSale ∈ [Procurement; CashSale; CreditSale].
Proof. elem_of_listed. Qed.

(** An accepted credit sale has the discriminator value of its model. *)
Lemma created_saleType (env : Env) (data doc : Doc) :
  created Date_parse Date_toString CreditSale env data doc ->
  doc !! "saleType" = Some (VStr "Credit").
Proof.
  intros (Hdisc & _ & -> & _).
  rewrite timestamps_new_lookup by discriminate.
  pose proof (construct_lookup env (paths CreditSale) data _
                (paths_NoDup _ CreditSale_listed) saleType_path) as Hcl.
  cbn [p_name p_type p_default Schemas.default Schemas.path] in Hcl.
  rewrite Hcl.
  unfold discriminator_ok in Hdisc.
  cbn [discriminatorKey discriminatorValue CreditSale discriminator Sale] in Hdisc.
  destruct (data !! "saleType") as [v|]; [|reflexivity].
  apply bool_decide_eq_true in Hdisc. cbn [cast]. rewrite Hdisc. reflexivity.
Qed.




(** The payment route on a well-formed identifier that no credit sale has. *)
Lemma serve_payment_not_found (env : Env) (authorization : option string)
    (id : string) (type : option string) (b : gmap string JSON) (st : Store)
    (u : User.t) (oid : ObjectId) :
  resolve_credential_ st authorization = Some u ->
  ObjectId_.ofString id = Some oid ->
  dbUp env = true ->
  find_credit_sale oid st = None ->
  serve_ env (incoming PATCH_sales_credit_payment authorization id type b) st
  = (mkResponse 404 (json_error "Credit sale not found"), st, [Authenticate]).
Proof.
  intros Hu Hid Hup Hfind. unfold serve, app, dispatch.
  cbn [req_route incoming]. unfold patch_payment.
  rewrite (authenticated_route verifyToken _
             (incoming PATCH_sales_credit_payment authorization id type b)
             (mkWorld st []) u Hu).
  unfold patch_payment_handler, try_catch, mbind, M_bind.
  rewrite (bind_ok _ _ _ _ _ (resolve_CreditSale _)).
  unfold bind at 1. rewrite Model_findById_run.
  cbn [req_params_id set_user incoming]. rewrite Hid, Hup.
  change (List.find _ _) with (find_credit_sale oid st).
  rewrite Hfind. reflexivity.
Qed.


(** ** Listing the sales *)

Lemma Sale_unbound :
  List.find (fun '(y, _) => String.eqb "Sale" y) salesRoutes_scope = None.
Proof. reflexivity. Qed.

(** C1, what the code does.  Every authenticated [GET /sales] request is
    answered with status 500 and the server-error payload, whatever the
    type parameter and the store hold and whether or not the database
    answers: the handler evaluates [Sale], a name that the module does not
    bind, so no list of sales is ever returned. *)
Theorem get_sales_answers_server_error (env : Env)
    (authorization : option string) (id : string) (type : option string)
    (b : gmap string JSON) (st : Store) (u : User.t) :
  resolve_credential_ st authorization = Some u ->
  serve_ env (incoming GET_sales authorization id type b) st
  = (mkResponse 500 (json_error "Server error"), st, [Authenticate]).
Proof.
  intros Hu. unfold serve, app, dispatch. cbn [req_route incoming].
  unfold get_sales.
  rewrite (authenticated_route verifyToken _
             (incoming GET_sales authorization id type b)
             (mkWorld st []) u Hu).
  rewrite get_sales_handler_run. reflexivity.
Qed.

(** ** Listing the procurements *)

Lemma newer_asym (a b : Doc) : newer a b = true -> newer b a = false.
Proof.
  unfold newer. destruct (createdAt a), (createdAt b); try reflexivity;
    try discriminate.
  intros H. apply Z.ltb_lt in H. apply Z.ltb_ge. lia.
Qed.

Lemma not_older_trans (a b c : Doc) :
  not_older a b -> not_older b c -> not_older a c.
Proof.
  unfold not_older, newer.
  destruct (createdAt a), (createdAt b), (createdAt c); try reflexivity;
    try discriminate.
  intros H1 H2. apply Z.ltb_ge in H1, H2. apply Z.ltb_ge. lia.
Qed.

Lemma insert_sorted_Permutation (d : Doc) (l : list Doc) :
  Permutation (insert_sorted d l) (d :: l).
Proof.
  induction l as [|x l IH]; [reflexivity|]. cbn [insert_sorted].
  destruct (newer x d); [|reflexivity].
  rewrite IH. apply perm_swap.
Qed.

Lemma sort_createdAt_desc_Permutation (l : list Doc) :
  Permutation (sort_createdAt_desc l) l.
Proof.
  unfold sort_createdAt_desc. induction l as [|x l IH]; [reflexivity|].
  cbn [foldr]. rewrite insert_sorted_Permutation, IH. reflexivity.
Qed.

Lemma insert_sorted_Sorted (d : Doc) (l : list Doc) :
  Sorted not_older l -> Sorted not_older (insert_sorted d l).
Proof.
  induction l as [|x l IH]; intros Hs.
  - repeat constructor.
  - cbn [insert_sorted]. destruct (newer x d) eqn:Hx.
    + apply Sorted_inv in Hs as [Hs Hhd]. constructor; [apply IH, Hs|].
      destruct l as [|y l]; cbn [insert_sorted].
      * constructor. apply newer_asym, Hx.
      * destruct (newer y d); constructor.
        -- apply HdRel_inv in Hhd. exact Hhd.
        -- apply newer_asym, Hx.
    + constructor; [exact Hs|]. constructor. exact Hx.
Qed.

Lemma sort_createdAt_desc_Sorted (l : list Doc) :
  StronglySorted not_older (sort_createdAt_desc l).
Proof.
  apply Sorted_StronglySorted.
  - intros a b c. apply not_older_trans.
  - unfold sort_createdAt_desc. induction l as [|x l IH]; [constructor|].
    cbn [foldr]. apply insert_sorted_Sorted, IH.
Qed.

Lemma filter_all {A} (f : A -> bool) (l : list A) :
  (forall x, f x = true) -> List.filter f l = l.
Proof.
  intros Hf. induction l as [|x l IH]; [reflexivity|].
  cbn [List.filter]. rewrite Hf, IH. reflexivity.
Qed.

(** What [GET /procurement] answers to an authenticated requester. *)
Lemma serve_get_procurements (env : Env) (authorization : option string)
    (id : string) (type : option string) (b : gmap string JSON) (st : Store)
    (u : User.t) :
  resolve_credential_ st authorization = Some u ->
  serve_ env (incoming GET_procurement authorization id type b) st
  = (if dbUp env
     then mkResponse 200
            (json_list (length (sort_createdAt_desc (procurements st)))
               (populate (users st) <$> sort_createdAt_desc (procurements st)))
     else mkResponse 500 (json_error "Server error"),
     st, [Authenticate]).
Proof.
  intros Hu. unfold serve, app, dispatch. cbn [req_route incoming].
  unfold get_procurements.
  rewrite (authenticated_route verifyToken _
             (incoming GET_procurement authorization id type b)
             (mkWorld st []) u Hu).
  unfold get_procurements_handler, try_catch, mbind, M_bind, bind, resolve.
  cbn [List.find procurementRoutes_scope String.eqb Ascii.eqb Bool.eqb].
  unfold mret, M_ret, ret, Model_find. cbn [cast_query].
  destruct (dbUp env); cbn [negb]; [|reflexivity].
  unfold mbind, M_bind, bind, get_store, mret, M_ret, ret, send.
  cbn [store log collection Procurement get_collection].
  rewrite filter_all by reflexivity.
  rewrite length_fmap. reflexivity.
Qed.

(** X1.  [GET /procurement], for an authenticated requester and while the
    database answers, is answered 200 with all the procurements of the
    store, each exactly once, ordered so that no record stands before a
    newer one (records without a creation date last); count is their
    number; each record comes with the name and e-mail of the user that
    its recordedBy names, or with none when there is no such user; the
    store is left as it is. *)
Theorem procurement_list_newest_first (env : Env) (authorization : option string)
    (id : string) (type : option string) (b : gmap string JSON) (st : Store)
    (u : User.t) :
  resolve_credential_ st authorization = Some u ->
  dbUp env = true ->
  exists listed,
    serve_ env (incoming GET_procurement authorization id type b) st
    = (mkResponse 200 (json_list (length (procurements st)) listed), st,
       [Authenticate])
    /\ Permutation (populated_doc <$> listed) (procurements st)
    /\ StronglySorted not_older (populated_doc <$> listed)
    /\ (forall p, p ∈ listed ->
          match populated_doc p !! "recordedBy" with
          | Some (VObjectId o) =>
              populated_recordedBy p = projection <$> users st !! o
          | _ => populated_recordedBy p = None
          end).
Proof.
  intros Hu Hup.
  exists (populate (users st) <$> sort_createdAt_desc (procurements st)).
  assert (Hdocs : populated_doc <$> (populate (users st)
                                       <$> sort_createdAt_desc (procurements st))
                  = sort_createdAt_desc (procurements st)).
  { rewrite <- list_fmap_compose. apply list_fmap_id. }
  split; [|split; [|split]].
  - rewrite (serve_get_procurements env authorization id type b st u Hu), Hup.
    rewrite (Permutation_length (sort_createdAt_desc_Permutation _)).
    reflexivity.
  - rewrite Hdocs. apply sort_createdAt_desc_Permutation.
  - rewrite Hdocs. apply sort_createdAt_desc_Sorted.
  - intros p Hp. apply list_elem_of_fmap in Hp as (d & -> & _).
    unfold populate, projection. cbn [populated_doc populated_recordedBy].
    destruct (d !! "recordedBy") as [[| |o]|]; reflexivity.
Qed.

(** ** Reading one procurement *)

Lemma of_model_Procurement (d : Doc) : of_model Procurement d = true.
Proof. reflexivity. Qed.

Lemma find_ext {A} (f g : A -> bool) (l : list A) :
  (forall x, f x = g x) -> List.find f l = List.find g l.
Proof.
  intros H. induction l as [|x l IH]; [reflexivity|].
  cbn [List.find]. rewrite H, IH. reflexivity.
Qed.

(** What [GET /procurement/:id] answers to an authenticated requester. *)
Lemma serve_get_procurement (env : Env) (authorization : option string)
    (id : string) (type : option string) (b : gmap string JSON) (st : Store)
    (u : User.t) :
  resolve_credential_ st authorization = Some u ->
  serve_ env (incoming GET_procurement_id authorization id type b) st
  = (match ObjectId_.ofString id with
     | None => mkResponse 500 (json_error "Server error")
     | Some oid =>
         if dbUp env then
           match List.find (has_id (Some (VObjectId oid))) (procurements st) with
           | Some d => mkResponse 200 (json_populated (populate (users st) d))
           | None => mkResponse 404 (json_error "Procurement record not found")
           end
         else mkResponse 500 (json_error "Server error")
     end, st, [Authenticate]).
Proof.
  intros Hu. unfold serve, app, dispatch. cbn [req_route incoming].
  unfold get_procurement.
  rewrite (authenticated_route verifyToken _
             (incoming GET_procurement_id authorization id type b)
             (mkWorld st []) u Hu).
  unfold get_procurement_handler, try_catch, mbind, M_bind, bind, resolve.
  cbn [List.find procurementRoutes_scope String.eqb Ascii.eqb Bool.eqb].
  unfold mret, M_ret, ret. rewrite Model_findById_run.
  cbn [req_params_id set_user incoming].
  destruct (ObjectId_.ofString id) as [oid|]; [|reflexivity].
  destruct (dbUp env); [|reflexivity].
  cbn [store log collection Procurement get_collection].
  rewrite (find_ext _ (has_id (Some (VObjectId oid))))
    by (intros d; rewrite of_model_Procurement; apply andb_true_r).
  unfold get_store.
  destruct (List.find _ _); reflexivity.
Qed.

Lemma find_has_id_none (id : option Value) (docs : list Doc) :
  (forall d, d ∈ docs -> d !! "_id" <> id) -> List.find (has_id id) docs = None.
Proof.
  intros H. induction docs as [|d docs IH]; [reflexivity|].
  cbn [List.find]. unfold has_id at 1.
  rewrite bool_decide_eq_false_2 by (apply H, list_elem_of_here).
  apply IH. intros d' Hd'. apply H, list_elem_of_further, Hd'.
Qed.

Lemma find_has_id_first (id : option Value) (before after : list Doc) (d : Doc) :
  (forall x, x ∈ before -> x !! "_id" <> id) -> d !! "_id" = id ->
  List.find (has_id id) (before ++ d :: after) = Some d.
Proof.
  intros Hb Hd. induction before as [|x before IH].
  - rewrite app_nil_l. cbn [List.find]. unfold has_id.
    rewrite bool_decide_eq_true_2 by exact Hd. reflexivity.
  - rewrite <- app_comm_cons. cbn [List.find]. unfold has_id at 1.
    rewrite bool_decide_eq_false_2 by (apply Hb, list_elem_of_here).
    apply IH. intros y Hy. apply Hb, list_elem_of_further, Hy.
Qed.

(** X2.  [GET /procurement/:id], for an authenticated requester, leaves the
    store as it is and answers: 500 with the server-error payload when the
    id is not a well-formed ObjectId; 404 when the id is well formed, the
    database answers and no procurement has it; 200 with the first
    procurement that has it, together with the name and e-mail of the
    user that its recordedBy names, when there is one. *)
Theorem procurement_by_id (env : Env) (authorization : option string)
    (id : string) (type : option string) (b : gmap string JSON) (st : Store)
    (u : User.t) :
  resolve_credential_ st authorization = Some u ->
  (ObjectId_.ofString id = None ->
   serve_ env (incoming GET_procurement_id authorization id type b) st
   = (mkResponse 500 (json_error "Server error"), st, [Authenticate]))
  /\ (forall oid,
        ObjectId_.ofString id = Some oid -> dbUp env = true ->
        (forall d, d ∈ procurements st -> d !! "_id" <> Some (VObjectId oid)) ->
        serve_ env (incoming GET_procurement_id authorization id type b) st
        = (mkResponse 404 (json_error "Procurement record not found"), st,
           [Authenticate]))
  /\ (forall oid before d after,
        ObjectId_.ofString id = Some oid -> dbUp env = true ->
        procurements st = before ++ d :: after ->
        (forall x, x ∈ before -> x !! "_id" <> Some (VObjectId oid)) ->
        d !! "_id" = Some (VObjectId oid) ->
        serve_ env (incoming GET_procurement_id authorization id type b) st
        = (mkResponse 200
             (json_populated
                (mkPopulated d
                   match d !! "recordedBy" with
                   | Some (VObjectId o) => projection <$> users st !! o
                   | _ => None
                   end)), st, [Authenticate])).
Proof.
  intros Hu.
  pose proof (serve_get_procurement env authorization id type b st u Hu) as Hrun.
  split; [|split].
  - intros Hid. rewrite Hrun, Hid. reflexivity.
  - intros oid Hid Hup Hnone. rewrite Hrun, Hid, Hup.
    rewrite (find_has_id_none _ _ Hnone). reflexivity.
  - intros oid before d after Hid Hup Hst Hbefore Hd. rewrite Hrun, Hid, Hup, Hst.
    rewrite (find_has_id_first _ before after d Hbefore Hd). reflexivity.
Qed.

(** ** A new procurement, read back *)

Lemma Procurement_listed : Procurement ∈ [Procurement; CashSale; CreditSale].
Proof. elem_of_listed. Qed.

Lemma fresh_no_id (m : Model) (doc : Doc) (st : Store) (d : Doc) :
  fresh m doc st -> d ∈ get_collection (collection m) st ->
  d !! "_id" <> doc !! "_id".
Proof.
  unfold fresh. intros Hf Hd Heq.
  assert (H : existsb (has_id (doc !! "_id")) (get_collection (collection m) st)
              = true).
  { apply existsb_exists. exists d. split; [apply list_elem_of_In, Hd|].
    unfold has_id. apply bool_decide_eq_true_2, Heq. }
  congruence.
Qed.

(** X3.  A procurement that [POST /procurement] has answered with 201 can
    be read back: [GET /procurement/:id] with its identifier, by any
    authenticated requester and while the database answers, is answered
    200 with that same record, and with the name and e-mail of the user
    that recorded it when the store holds that user under this
    identifier. *)
Theorem created_procurement_is_readable (env : Env)
    (authorization : option string) (id : string) (type : option string)
    (b : gmap string JSON) (st st1 : Store) (doc : Doc) (done : list Stage) :
  serve_ env (incoming POST_procurement authorization id type b) st
  = (mkResponse 201 (json_data doc), st1, done) ->
  exists oid creator,
    doc !! "_id" = Some (VObjectId oid)
    /\ resolve_credential_ st authorization = Some creator
    /\ doc !! "recordedBy" = Some (VObjectId (User._id creator))
    /\ forall env' authorization' id' type' b' u',
         resolve_credential_ st1 authorization' = Some u' ->
         ObjectId_.ofString id' = Some oid ->
         dbUp env' = true ->
         serve_ env' (incoming GET_procurement_id authorization' id' type' b') st1
         = (mkResponse 200
              (json_populated
                 (mkPopulated doc (projection <$> users st !! User._id creator))),
            st1, [Authenticate]).
Proof.
  intros Hserve.
  assert (Hroute : (POST_procurement, ["Manager"], procurement_rules, "date")
                   ∈ creation_routes)
    by (unfold creation_routes; elem_of_listed).
  destruct (creation_route_cases env _ _ _ _ authorization id type b st Hroute)
    as [[_ H]|[(u & _ & _ & H)|[(u & e & es & _ & _ & _ & H)
       |[(u & _ & _ & _ & H)|(u & doc' & Hu & _ & _ & Hcr & _ & Hfresh & H)]]]];
    rewrite H in Hserve; try discriminate Hserve.
  injection Hserve as -> <- _. cbn [model_of] in *.
  destruct (created_id Procurement env _ doc Procurement_listed Hcr) as [oid Hid].
  pose proof (created_recordedBy Procurement env b (User._id u) "date" doc
                Procurement_listed ltac:(discriminate) Hcr) as Hrec.
  exists oid, u. split; [exact Hid|]. split; [exact Hu|]. split; [exact Hrec|].
  intros env' authorization' id' type' b' u' Hu' Hid' Hup'.
  rewrite (serve_get_procurement env' authorization' id' type' b' _ u' Hu').
  rewrite Hid', Hup'. unfold inserted. cbn [collection Procurement set_collection
    get_collection procurements users].
  rewrite (find_has_id_first _ (procurements st) [] doc).
  - unfold populate. rewrite Hrec. reflexivity.
  - intros x Hx. rewrite <- Hid.
    apply (fresh_no_id Procurement doc st x Hfresh Hx).
  - exact Hid.
Qed.

(** ** The members of an accepted document *)

Lemma cast_has_type (ty : SchemaType) (v v' : Value) :
  cast Date_parse Date_toString ty v = Some v' -> has_type ty v'.
Proof.
  unfold has_type. destruct ty; cbn [cast]; intros H.
  - destruct v as [[|b|n|s]|t|o]; cbn [castString] in H; injection H as <-;
      [left; reflexivity | right; eauto ..].
  - destruct v as [[|[]|n|s]|t|o]; cbn [castNumber] in H.
    + injection H as <-. left. reflexivity.
    + injection H as <-. right. eauto.
    + injection H as <-. right. eauto.
    + injection H as <-. right. eauto.
    + destruct (String.eqb s ""); [injection H as <-; left; reflexivity|].
      destruct (StringToNumber s); [|discriminate H].
      injection H as <-. right. eauto.
    + injection H as <-. right. eauto.
    + destruct (StringToNumber o); [|discriminate H].
      injection H as <-. right. eauto.
  - destruct v as [[|b|n|s]|t|o]; cbn [castDate] in H.
    + injection H as <-. left. reflexivity.
    + discriminate H.
    + destruct (Z.abs (Dec_trunc n) <=? 8640000000000000); [|discriminate H].
      injection H as <-. right. eauto.
    + destruct (String.eqb s ""); [injection H as <-; left; reflexivity|].
      destruct (Date_parse s); [|discriminate H].
      injection H as <-. right. eauto.
    + injection H as <-. right. eauto.
    + destruct (Date_parse o); [|discriminate H].
      injection H as <-. right. eauto.
  - destruct v as [[|b|n|s]|t|o]; cbn [castBoolean] in H; try discriminate H.
    + injection H as <-. left. reflexivity.
    + injection H as <-. right. eauto.
    + destruct (Dec_toZ n) as [[|[]|]|]; try discriminate H;
        injection H as <-; right; eauto.
    + destruct (bool_decide _); [injection H as <-; right; eauto|].
      destruct (bool_decide _); [injection H as <-; right; eauto|].
      discriminate H.
  - apply castObjectId_cases in H as [->|[o ->]]; [left | right; eauto];
      reflexivity.
Qed.

Lemma apply_setters_has_type (p : SchemaPath) (ty : SchemaType) (v : Value) :
  has_type ty v -> has_type ty (apply_setters p v).
Proof.
  unfold has_type, apply_setters. intros [->|H]; [left; reflexivity|].
  destruct ty.
  - destruct H as [s ->]. right. unfold VStr. destruct (p_trim p); eauto.
  - destruct H as [d ->]. right. eauto.
  - destruct H as [t ->]. right. eauto.
  - destruct H as [b ->]. right. eauto.
  - destruct H as [o ->]. right. eauto.
Qed.

(** A required path without a default, in an accepted document: the member
    was given, it is not [null], it has the type of the path and it
    satisfies the validators of the path. *)
Lemma created_required (m : Model) (env : Env) (data doc : Doc) (p : SchemaPath) :
  m ∈ [Procurement; CashSale; CreditSale] ->
  created Date_parse Date_toString m env data doc ->
  p ∈ paths m ->
  p_name p <> "createdAt" -> p_name p <> "updatedAt" ->
  p_required p = true -> p_default p = None ->
  exists given v,
    data !! p_name p = Some given
    /\ cast Date_parse Date_toString (p_type p) given = Some v
    /\ doc !! p_name p = Some (apply_setters p v)
    /\ apply_setters p v <> VNull
    /\ checkRequired (Some (apply_setters p v)) = true
    /\ has_type (p_type p) (apply_setters p v)
    /\ run_validators p (apply_setters p v) = true.
Proof.
  intros Hm Hcr Hp Hn1 Hn2 Hreq Hdef.
  pose proof Hcr as (_ & _ & Hdoc & Hvalid).
  pose proof (invalid_paths_valid _ _ p Hvalid Hp) as Hv.
  assert (Hl : doc !! p_name p
               = match data !! p_name p with
                 | Some v => apply_setters p
                               <$> cast Date_parse Date_toString (p_type p) v
                 | None => default_value env <$> p_default p
                 end).
  { rewrite Hdoc, timestamps_new_lookup by assumption.
    apply construct_lookup; [apply paths_NoDup, Hm | exact Hp]. }
  unfold path_valid in Hv. rewrite Hreq in Hv.
  apply andb_true_iff in Hv as [Hchk Hrun].
  destruct (data !! p_name p) as [given|].
  - destruct (cast Date_parse Date_toString (p_type p) given) as [v|] eqn:Hc.
    + cbn [fmap option_fmap option_map] in Hl. rewrite Hl in Hchk, Hrun.
      exists given, v. split; [reflexivity|]. split; [exact Hc|].
      split; [exact Hl|]. split.
      { intros Hnull. rewrite Hnull in Hchk. discriminate Hchk. }
      split; [exact Hchk|]. split; [|exact Hrun].
      apply apply_setters_has_type. exact (cast_has_type _ _ _ Hc).
    + cbn [fmap option_fmap option_map] in Hl. rewrite Hl in Hchk.
      discriminate Hchk.
  - rewrite Hdef in Hl. cbn [fmap option_fmap option_map] in Hl.
    rewrite Hl in Hchk. discriminate Hchk.
Qed.

(** A required path with [default: Date.now] holds a date. *)
Lemma created_dated (m : Model) (env : Env) (data doc : Doc) (p : SchemaPath) :
  m ∈ [Procurement; CashSale; CreditSale] ->
  created Date_parse Date_toString m env data doc ->
  p ∈ paths m ->
  p_name p <> "createdAt" -> p_name p <> "updatedAt" ->
  p_required p = true -> p_type p = TDate -> p_trim p = false ->
  p_default p = None \/ p_default p = Some Date_now ->
  exists t, doc !! p_name p = Some (VDate t).
Proof.
  intros Hm Hcr Hp Hn1 Hn2 Hreq Hty Htrim Hdef.
  pose proof Hcr as (_ & _ & Hdoc & Hvalid).
  pose proof (invalid_paths_valid _ _ p Hvalid Hp) as Hv.
  assert (Hl : doc !! p_name p
               = match data !! p_name p with
                 | Some v => apply_setters p
                               <$> cast Date_parse Date_toString (p_type p) v
                 | None => default_value env <$> p_default p
                 end).
  { rewrite Hdoc, timestamps_new_lookup by assumption.
    apply construct_lookup; [apply paths_NoDup, Hm | exact Hp]. }
  unfold path_valid in Hv. rewrite Hreq in Hv.
  apply andb_true_iff in Hv as [Hchk _].
  destruct (data !! p_name p) as [given|].
  - destruct (cast Date_parse Date_toString (p_type p) given) as [v|] eqn:Hc.
    + cbn [fmap option_fmap option_map] in Hl. rewrite Hl in Hchk.
      pose proof (cast_has_type _ _ _ Hc) as Hhas. rewrite Hty in Hhas.
      destruct Hhas as [->|[t ->]].
      * discriminate Hchk.
      * exists t. exact Hl.
    + cbn [fmap option_fmap option_map] in Hl. rewrite Hl in Hchk.
      discriminate Hchk.
  - destruct Hdef as [Hdef|Hdef]; rewrite Hdef in Hl;
      cbn [fmap option_fmap option_map default_value] in Hl.
    + rewrite Hl in Hchk. discriminate Hchk.
    + exists (now env). exact Hl.
Qed.

(** ** What the models demand of a stored record *)

Lemma run_validators_string (p : SchemaPath) (s : string) :
  run_validators p (VStr s) = true ->
  (forall n, p_minlength p = Some n -> (n <= String.length s)%nat)
  /\ (forall r, p_match p = Some r -> s <> "" -> Regex.test r s = true)
  /\ (forall values, p_enum p = Some values -> s ∈ values)
  /\ (forall f, p_validate p = Some f -> f (VStr s) = true).
Proof.
  unfold run_validators, VStr. intros H.
  apply andb_true_iff in H as [H Hval]. apply andb_true_iff in H as [H Henum].
  apply andb_true_iff in H as [H Hmatch]. apply andb_true_iff in H as [_ Hlen].
  split; [|split; [|split]].
  - intros n Hn. rewrite Hn in Hlen. apply Nat.leb_le, Hlen.
  - intros r Hr Hne. rewrite Hr in Hmatch.
    apply orb_true_iff in Hmatch as [He|Ht]; [|exact Ht].
    apply String.eqb_eq in He. contradiction.
  - intros values Hv. rewrite Hv in Henum. apply bool_decide_eq_true in Henum.
    exact Henum.
  - intros f Hf. rewrite Hf in Hval. exact Hval.
Qed.

Lemma run_validators_number (p : SchemaPath) (d : Dec) :
  run_validators p (VNum d) = true ->
  (forall n, p_min p = Some n -> Dec_geZ d n = true)
  /\ (forall f, p_validate p = Some f -> f (VNum d) = true).
Proof.
  unfold run_validators, VNum. intros H.
  apply andb_true_iff in H as [H Hval]. apply andb_true_iff in H as [H _].
  apply andb_true_iff in H as [H _]. apply andb_true_iff in H as [Hmin _].
  split.
  - intros n Hn. rewrite Hn in Hmin. exact Hmin.
  - intros f Hf. rewrite Hf in Hval. exact Hval.
Qed.

Section Members.

Variables (m : Model) (env : Env) (data doc : Doc) (p : SchemaPath).
Hypothesis Hm : m ∈ [Procurement; CashSale; CreditSale].
Hypothesis Hcr : created Date_parse Date_toString m env data doc.
Hypothesis Hp : p ∈ paths m.
Hypothesis Hn1 : p_name p <> "createdAt".
Hypothesis Hn2 : p_name p <> "updatedAt".
Hypothesis Hreq : p_required p = true.
Hypothesis Hdef : p_default p = None.

Lemma created_text : p_type p = TString -> text (doc !! p_name p).
Proof.
  intros Hty.
  destruct (created_required m env data doc p Hm Hcr Hp Hn1 Hn2 Hreq Hdef)
    as (given & v & _ & _ & Hl & Hnull & Hchk & Hhas & _).
  rewrite Hty in Hhas. destruct Hhas as [Hv|[s Hs]]; [contradiction|].
  rewrite Hs in Hl, Hchk. exists s. split; [exact Hl|].
  intros ->. discriminate Hchk.
Qed.

Lemma created_string (r : Regex.t) :
  p_type p = TString -> p_match p = Some r -> string_of r (doc !! p_name p).
Proof.
  intros Hty Hr.
  destruct (created_required m env data doc p Hm Hcr Hp Hn1 Hn2 Hreq Hdef)
    as (given & v & _ & _ & Hl & Hnull & Hchk & Hhas & Hrun).
  rewrite Hty in Hhas. destruct Hhas as [Hv|[s Hs]]; [contradiction|].
  rewrite Hs in Hl, Hchk, Hrun. exists s. split; [exact Hl|].
  assert (Hne : s <> "") by (intros ->; discriminate Hchk).
  split; [exact Hne|].
  destruct (run_validators_string p s Hrun) as (_ & Hmatch & _).
  apply (Hmatch r Hr Hne).
Qed.

Lemma created_validated (f : Value -> bool) :
  p_type p = TString -> p_validate p = Some f ->
  exists s, doc !! p_name p = Some (VStr s) /\ s <> "" /\ f (VStr s) = true.
Proof.
  intros Hty Hf.
  destruct (created_required m env data doc p Hm Hcr Hp Hn1 Hn2 Hreq Hdef)
    as (given & v & _ & _ & Hl & Hnull & Hchk & Hhas & Hrun).
  rewrite Hty in Hhas. destruct Hhas as [Hv|[s Hs]]; [contradiction|].
  rewrite Hs in Hl, Hchk, Hrun. exists s. split; [exact Hl|].
  split; [intros ->; discriminate Hchk|].
  destruct (run_validators_string p s Hrun) as (_ & _ & _ & Hval).
  apply (Hval f Hf).
Qed.

Lemma created_long (n : nat) :
  p_type p = TString -> p_minlength p = Some n -> long n (doc !! p_name p).
Proof.
  intros Hty Hn.
  destruct (created_required m env data doc p Hm Hcr Hp Hn1 Hn2 Hreq Hdef)
    as (given & v & _ & _ & Hl & Hnull & Hchk & Hhas & Hrun).
  rewrite Hty in Hhas. destruct Hhas as [Hv|[s Hs]]; [contradiction|].
  rewrite Hs in Hl, Hrun. exists s. split; [exact Hl|].
  destruct (run_validators_string p s Hrun) as (Hlen & _).
  apply (Hlen n Hn).
Qed.

Lemma created_listed (values : list string) :
  p_type p = TString -> p_enum p = Some values ->
  exists s, doc !! p_name p = Some (VStr s) /\ s ∈ values.
Proof.
  intros Hty Hv.
  destruct (created_required m env data doc p Hm Hcr Hp Hn1 Hn2 Hreq Hdef)
    as (given & v & _ & _ & Hl & Hnull & Hchk & Hhas & Hrun).
  rewrite Hty in Hhas. destruct Hhas as [Hnl|[s Hs]]; [contradiction|].
  rewrite Hs in Hl, Hrun. exists s. split; [exact Hl|].
  destruct (run_validators_string p s Hrun) as (_ & _ & Henum & _).
  apply (Henum values Hv).
Qed.

Lemma created_number (n : Z) :
  p_type p = TNumber -> p_min p = Some n -> number_from n (doc !! p_name p).
Proof.
  intros Hty Hn.
  destruct (created_required m env data doc p Hm Hcr Hp Hn1 Hn2 Hreq Hdef)
    as (given & v & _ & _ & Hl & Hnull & Hchk & Hhas & Hrun).
  rewrite Hty in Hhas. destruct Hhas as [Hv|[d Hd]]; [contradiction|].
  rewrite Hd in Hl, Hrun. exists d. split; [exact Hl|].
  destruct (run_validators_number p d Hrun) as (Hmin & _).
  apply (Hmin n Hn).
Qed.

Lemma created_integer :
  p_type p = TNumber -> p_validate p = Some Schemas.Number_isInteger ->
  exists n, doc !! p_name p = Some (VNum n) /\ Dec_isInteger n = true.
Proof.
  intros Hty Hf.
  destruct (created_required m env data doc p Hm Hcr Hp Hn1 Hn2 Hreq Hdef)
    as (given & v & _ & _ & Hl & Hnull & Hchk & Hhas & Hrun).
  rewrite Hty in Hhas. destruct Hhas as [Hv|[d Hd]]; [contradiction|].
  rewrite Hd in Hl, Hrun. exists d. split; [exact Hl|].
  destruct (run_validators_number p d Hrun) as (_ & Hval).
  apply (Hval _ Hf).
Qed.

Lemma created_reference :
  p_type p = TObjectId -> exists o, doc !! p_name p = Some (VObjectId o).
Proof.
  intros Hty.
  destruct (created_required m env data doc p Hm Hcr Hp Hn1 Hn2 Hreq Hdef)
    as (given & v & _ & _ & Hl & Hnull & Hchk & Hhas & _).
  rewrite Hty in Hhas. destruct Hhas as [Hv|[o Ho]]; [contradiction|].
  rewrite Ho in Hl. exists o. exact Hl.
Qed.

End Members.

Ltac path_listed :=
  unfold paths;
  cbn [schema Procurement CashSale CreditSale discriminator Sale
       discriminatorKey discriminatorValue timestamps];
  unfold Schemas.procurementSchema, Schemas.saleSchema, Schemas.cashSaleSchema,
    Schemas.creditSaleSchema;
  repeat first [ apply list_elem_of_here
               | apply list_elem_of_further
               | apply elem_of_app; right ].

Ltac member_of lemma :=
  eapply lemma;
  [ elem_of_listed | eassumption | path_listed
  | discriminate | discriminate | reflexivity | reflexivity | .. ];
  reflexivity.

Lemma time_validated (v : option Value) :
  (exists s, v = Some (VStr s) /\ s <> "" /\ Schemas.time_validator (VStr s) = true) ->
  string_of Regex.time v.
Proof. intros (s & -> & Hne & Ht). exists s. auto. Qed.

(** A procurement that [Procurement.create] accepts. *)
Lemma created_procurement_ok (env : Env) (data doc : Doc) :
  created Date_parse Date_toString Procurement env data doc -> procurement_ok doc.
Proof.
  intros Hcr. unfold procurement_ok.
  split; [member_of (created_string Procurement env data doc
            (Schemas.match_ Regex.alphanumeric
               (Schemas.trim (Schemas.required (Schemas.path "produceName" TString)))))|].
  split; [member_of (created_string Procurement env data doc
            (Schemas.match_ Regex.letters
               (Schemas.minlength 2
                  (Schemas.trim
                     (Schemas.required (Schemas.path "produceType" TString))))))|].
  split; [member_of (created_long Procurement env data doc
            (Schemas.match_ Regex.letters
               (Schemas.minlength 2
                  (Schemas.trim
                     (Schemas.required (Schemas.path "produceType" TString))))))|].
  split.
  { eapply (created_dated Procurement env data doc
              (Schemas.default Date_now
                 (Schemas.required (Schemas.path "date" TDate))));
      [ elem_of_listed | eassumption | path_listed | discriminate | discriminate
      | reflexivity | reflexivity | reflexivity | right; reflexivity ]. }
  split.
  { apply time_validated.
    member_of (created_validated Procurement env data doc
                 (Schemas.validate Schemas.time_validator
                    (Schemas.required (Schemas.path "time" TString)))). }
  split; [member_of (created_number Procurement env data doc
            (Schemas.validate Schemas.Number_isInteger
               (Schemas.min 100
                  (Schemas.required (Schemas.path "tonnage" TNumber)))))|].
  split; [member_of (created_integer Procurement env data doc
            (Schemas.validate Schemas.Number_isInteger
               (Schemas.min 100
                  (Schemas.required (Schemas.path "tonnage" TNumber)))))|].
  split; [member_of (created_number Procurement env data doc
            (Schemas.min 10000 (Schemas.required (Schemas.path "cost" TNumber))))|].
  split; [member_of (created_string Procurement env data doc
            (Schemas.match_ Regex.alphanumeric
               (Schemas.minlength 2
                  (Schemas.trim
                     (Schemas.required (Schemas.path "dealerName" TString))))))|].
  split; [member_of (created_long Procurement env data doc
            (Schemas.match_ Regex.alphanumeric
               (Schemas.minlength 2
                  (Schemas.trim
                     (Schemas.required (Schemas.path "dealerName" TString))))))|].
  split.
  { assert (Hpath : Schemas.enum ["Maganjo"; "Matugga"]
                      (Schemas.required (Schemas.path "branch" TString))
                    ∈ paths Procurement) by path_listed.
    destruct (created_listed Procurement env data doc _ Procurement_listed Hcr
                Hpath ltac:(discriminate) ltac:(discriminate) eq_refl eq_refl
                ["Maganjo"; "Matugga"] eq_refl eq_refl) as (s & Hs & Hin).
    cbn [p_name Schemas.enum Schemas.required Schemas.path] in Hs.
    apply elem_of_cons in Hin as [->|Hin]; [left; exact Hs|].
    apply list_elem_of_singleton in Hin as ->. right. exact Hs. }
  split; [member_of (created_string Procurement env data doc
            (Schemas.match_ Regex.phone
               (Schemas.required (Schemas.path "contact" TString))))|].
  split; [member_of (created_number Procurement env data doc
            (Schemas.min 1000
               (Schemas.required (Schemas.path "sellingPrice" TNumber))))|].
  member_of (created_reference Procurement env data doc
               (Schemas.required (Schemas.path "recordedBy" TObjectId))).
Qed.

Lemma CashSale_listed : CashSale ∈ [Procurement; CashSale; CreditSale].
Proof. elem_of_listed. Qed.

Lemma Cash_saleType_path :
  Schemas.default (Literal (VStr "Cash")) (Schemas.path "saleType" TString)
  ∈ paths CashSale.
Proof.
  unfold paths. apply elem_of_app. right. apply elem_of_app. left.
  apply list_elem_of_here.
Qed.

(** An accepted cash sale has the discriminator value of its model. *)
Lemma created_Cash_saleType (env : Env) (data doc : Doc) :
  created Date_parse Date_toString CashSale env data doc ->
  doc !! "saleType" = Some (VStr "Cash").
Proof.
  intros (Hdisc & _ & -> & _).
  rewrite timestamps_new_lookup by discriminate.
  pose proof (construct_lookup env (paths CashSale) data _
                (paths_NoDup _ CashSale_listed) Cash_saleType_path) as Hcl.
  cbn [p_name p_type p_default Schemas.default Schemas.path] in Hcl.
  rewrite Hcl.
  unfold discriminator_ok in Hdisc.
  cbn [discriminatorKey discriminatorValue CashSale discriminator Sale] in Hdisc.
  destruct (data !! "saleType") as [v|]; [|reflexivity].
  apply bool_decide_eq_true in Hdisc. cbn [cast]. rewrite Hdisc. reflexivity.
Qed.

(** A cash sale that [CashSale.create] accepts. *)
Lemma created_cash_sale_ok (env : Env) (data doc : Doc) :
  created Date_parse Date_toString CashSale env data doc -> cash_sale_ok doc.
Proof.
  intros Hcr. unfold cash_sale_ok.
  split; [apply (created_Cash_saleType env data), Hcr|].
  split; [member_of (created_text CashSale env data doc
            (Schemas.trim (Schemas.required (Schemas.path "produceName" TString))))|].
  split; [member_of (created_number CashSale env data doc
            (Schemas.min 1 (Schemas.required (Schemas.path "tonnage" TNumber))))|].
  split; [member_of (created_number CashSale env data doc
            (Schemas.min 10000
               (Schemas.required (Schemas.path "amountPaid" TNumber))))|].
  split; [member_of (created_string CashSale env data doc
            (Schemas.match_ Regex.alphanumeric
               (Schemas.minlength 2
                  (Schemas.trim
                     (Schemas.required (Schemas.path "buyerName" TString))))))|].
  split; [member_of (created_long CashSale env data doc
            (Schemas.match_ Regex.alphanumeric
               (Schemas.minlength 2
                  (Schemas.trim
                     (Schemas.required (Schemas.path "buyerName" TString))))))|].
  split; [member_of (created_string CashSale env data doc
            (Schemas.match_ Regex.alphanumeric
               (Schemas.minlength 2
                  (Schemas.trim
                     (Schemas.required (Schemas.path "salesAgentName" TString))))))|].
  split; [member_of (created_long CashSale env data doc
            (Schemas.match_ Regex.alphanumeric
               (Schemas.minlength 2
                  (Schemas.trim
                     (Schemas.required (Schemas.path "salesAgentName" TString))))))|].
  split.
  { eapply (created_dated CashSale env data doc
              (Schemas.default Date_now
                 (Schemas.required (Schemas.path "date" TDate))));
      [ elem_of_listed | eassumption | path_listed | discriminate | discriminate
      | reflexivity | reflexivity | reflexivity | right; reflexivity ]. }
  split.
  { apply time_validated.
    member_of (created_validated CashSale env data doc
                 (Schemas.validate Schemas.time_validator
                    (Schemas.required (Schemas.path "time" TString)))). }
  member_of (created_reference CashSale env data doc
               (Schemas.required (Schemas.path "recordedBy" TObjectId))).
Qed.

(** A credit sale that [CreditSale.create] accepts. *)
Lemma created_credit_sale_ok (env : Env) (data doc : Doc) :
  created Date_parse Date_toString CreditSale env data doc -> credit_sale_ok doc.
Proof.
  intros Hcr. unfold credit_sale_ok.
  split; [apply (created_saleType env data), Hcr|].
  split; [member_of (created_string CreditSale env data doc
            (Schemas.match_ Regex.alphanumeric
               (Schemas.minlength 2
                  (Schemas.trim
                     (Schemas.required (Schemas.path "buyerName" TString))))))|].
  split; [member_of (created_long CreditSale env data doc
            (Schemas.match_ Regex.alphanumeric
               (Schemas.minlength 2
                  (Schemas.trim
                     (Schemas.required (Schemas.path "buyerName" TString))))))|].
  split; [member_of (created_string CreditSale env data doc
            (Schemas.match_ Regex.nin
               (Schemas.required (Schemas.path "nationalId" TString))))|].
  split; [member_of (created_string CreditSale env data doc
            (Schemas.match_ Regex.alphanumeric
               (Schemas.minlength 2
                  (Schemas.trim
                     (Schemas.required (Schemas.path "location" TString))))))|].
  split; [member_of (created_long CreditSale env data doc
            (Schemas.match_ Regex.alphanumeric
               (Schemas.minlength 2
                  (Schemas.trim
                     (Schemas.required (Schemas.path "location" TString))))))|].
  split; [member_of (created_string CreditSale env data doc
            (Schemas.match_ Regex.phone
               (Schemas.required (Schemas.path "contacts" TString))))|].
  split; [member_of (created_number CreditSale env data doc
            (Schemas.min 10000
               (Schemas.required (Schemas.path "amountDue" TNumber))))|].
  split; [member_of (created_string CreditSale env data doc
            (Schemas.match_ Regex.alphanumeric
               (Schemas.minlength 2
                  (Schemas.trim
                     (Schemas.required (Schemas.path "salesAgentName" TString))))))|].
  split; [member_of (created_long CreditSale env data doc
            (Schemas.match_ Regex.alphanumeric
               (Schemas.minlength 2
                  (Schemas.trim
                     (Schemas.required (Schemas.path "salesAgentName" TString))))))|].
  split.
  { eapply (created_dated CreditSale env data doc
              (Schemas.required (Schemas.path "dueDate" TDate)));
      [ elem_of_listed | eassumption | path_listed | discriminate | discriminate
      | reflexivity | reflexivity | reflexivity | left; reflexivity ]. }
  split; [member_of (created_text CreditSale env data doc
            (Schemas.trim (Schemas.required (Schemas.path "produceName" TString))))|].
  split; [member_of (created_text CreditSale env data doc
            (Schemas.trim (Schemas.required (Schemas.path "produceType" TString))))|].
  split; [member_of (created_number CreditSale env data doc
            (Schemas.min 1 (Schemas.required (Schemas.path "tonnage" TNumber))))|].
  split.
  { eapply (created_dated CreditSale env data doc
              (Schemas.default Date_now
                 (Schemas.required (Schemas.path "dispatchDate" TDate))));
      [ elem_of_listed | eassumption | path_listed | discriminate | discriminate
      | reflexivity | reflexivity | reflexivity | right; reflexivity ]. }
  member_of (created_reference CreditSale env data doc
               (Schemas.required (Schemas.path "recordedBy" TObjectId))).
Qed.

(** The members that a payment may change are none of those that the
    model constrains. *)
Lemma same_but_payment_sale_ok (d d' : Doc) :
  same_but_payment d d' -> sale_ok d -> sale_ok d'.
Proof.
  intros Hsame.
  assert (Hk : forall k, k ∉ payment_members -> d' !! k = d !! k) by exact Hsame.
  unfold sale_ok, cash_sale_ok, credit_sale_ok.
  repeat rewrite (Hk _)
    by (unfold payment_members; intros Hin;
        repeat (apply elem_of_cons in Hin as [Hin|Hin]; [discriminate Hin|]);
        apply elem_of_nil in Hin; exact Hin).
  tauto.
Qed.

(** ** What a request does to the store *)

(** A request leaves the store as it is, or it is a creation answered 201
    that appends the accepted record to the collection of its model, or it
    is a payment that rewrites the payment members of sales in place.
    Only a creation is answered 201. *)
Lemma serve_effect (env : Env) (route : Route) (authorization : option string)
    (id : string) (type : option string) (b : gmap string JSON)
    (st st' : Store) (r : Response) (done : list Stage) :
  serve_ env (incoming route authorization id type b) st = (r, st', done) ->
  (st' = st /\ status r <> 201%nat)
  \/ (exists roles chains key u doc,
        (route, roles, chains, key) ∈ creation_routes
        /\ resolve_credential_ st authorization = Some u
        /\ User.role u ∈ roles
        /\ flat_map (run_chain_ b) chains = []
        /\ created Date_parse Date_toString (model_of route) env
             (fill_defaults env b (User._id u) key) doc
        /\ dbUp env = true
        /\ fresh (model_of route) doc st
        /\ r = mkResponse 201 (json_data doc)
        /\ st' = inserted (model_of route) doc st)
  \/ (route = PATCH_sales_credit_payment
      /\ status r <> 201%nat
      /\ users st' = users st
      /\ procurements st' = procurements st
      /\ Forall2 (fun d d' => d' = d \/ same_but_payment d d')
           (sales st) (sales st')).
Proof.
  intros Hserve.
  destruct (protected route) eqn:Hp.
  2:{ left. destruct route; try discriminate Hp; injection Hserve as <- <- <-;
        (split; [reflexivity | discriminate]). }
  destruct (resolve_credential_ st authorization) as [u|] eqn:Hu.
  2:{ left. rewrite (serve_unauthenticated env route _ _ _ _ _ Hp Hu) in Hserve.
      injection Hserve as <- <- <-. split; [reflexivity | discriminate]. }
  assert (Hkinds :
    (exists roles chains key, (route, roles, chains, key) ∈ creation_routes)
    \/ route ∈ [GET_procurement; GET_procurement_id; GET_sales]
    \/ route = PATCH_sales_credit_payment).
  { destruct route; try discriminate Hp.
    - left. exists ["Manager"], procurement_rules, "date". elem_of_listed.
    - right. left. elem_of_listed.
    - right. left. elem_of_listed.
    - left. exists ["Sales Agent"; "Manager"], cash_rules, "date". elem_of_listed.
    - left. exists ["Sales Agent"; "Manager"], credit_rules, "dispatchDate".
      elem_of_listed.
    - right. left. elem_of_listed.
    - right. right. reflexivity. }
  destruct Hkinds as [(roles & chains & key & Hroute)|[Hread| ->]].
  - destruct (creation_route_cases env route roles chains key authorization id
                type b st Hroute)
      as [[_ H]|[(u1 & _ & _ & H)|[(u1 & e & es & _ & _ & _ & H)
         |[(u1 & _ & _ & _ & H)
          |(u1 & doc & Hu1 & Hr1 & Hv1 & Hcr & Hup & Hfr & H)]]]];
      rewrite H in Hserve; injection Hserve as <- <- <-;
      try (left; split; [reflexivity | discriminate]).
    right. left. exists roles, chains, key, u1, doc. rewrite Hu in Hu1.
    split; [exact Hroute|]. split; [exact Hu1|]. split; [exact Hr1|].
    split; [exact Hv1|]. split; [exact Hcr|]. split; [exact Hup|].
    split; [exact Hfr|]. split; reflexivity.
  - left. destruct (serve_read env route authorization id type b st u Hread Hu)
      as (resp & H & Hs).
    rewrite H in Hserve. injection Hserve as <- <- <-.
    split; [reflexivity|]. destruct Hs as [Hs|[Hs|Hs]]; rewrite Hs; discriminate.
  - right. right. split; [reflexivity|].
    destruct (serve_patch env authorization id type b st u Hu)
      as (r0 & w' & Hh & H).
    rewrite H in Hserve. injection Hserve as <- <- <-.
    assert (Hsame : Forall2 (fun d d' : Doc => d' = d \/ same_but_payment d d')
                      (sales st) (sales st)).
    { induction (sales st); constructor; auto. }
    apply patch_payment_handler_cases in Hh
      as [(Hr & Hst & _)|[(Hr & Hw & _)|(oid & stored & Hid & _ & Hfind & _ & Hsaved)]].
    + injection Hr as ->. rewrite Hst. cbn [store log].
      split; [discriminate|]. split; [reflexivity|]. split; [reflexivity|].
      exact Hsame.
    + injection Hr as ->. subst w'. cbn [store log].
      split; [discriminate|]. split; [reflexivity|]. split; [reflexivity|].
      exact Hsame.
    + destruct Hsaved as [(_ & Hr & Hst)|(_ & Hr)].
      { injection Hr as ->. rewrite Hst. cbn [store log].
        split; [discriminate|]. split; [reflexivity|]. split; [reflexivity|].
        exact Hsame. }
      cbv zeta in Hr. destruct Hr as [Hr Hst]. injection Hr as ->. rewrite Hst.
      cbn [users procurements sales store log].
      split; [discriminate|]. split; [reflexivity|]. split; [reflexivity|].
      eapply Forall2_impl;
        [apply update_first_Forall2; intros k Hk;
         eapply payment_delta_keys; exact Hk|].
      intros d d' [->|[_ Hframe]]; [left; reflexivity | right; exact Hframe].
Qed.

Lemma creation_route_model_of (route : Route) (roles : list string)
    (chains : list ValidationChain) (key : string) :
  (route, roles, chains, key) ∈ creation_routes ->
  (route = POST_procurement /\ model_of route = Procurement)
  \/ (route = POST_sales_cash /\ model_of route = CashSale)
  \/ (route = POST_sales_credit /\ model_of route = CreditSale).
Proof.
  intros Hroute. unfold creation_routes in Hroute.
  apply elem_of_cons in Hroute as [Heq|Hroute];
    [|apply elem_of_cons in Hroute as [Heq|Hroute];
      [|apply list_elem_of_singleton in Hroute as Heq]];
    injection Heq as -> -> -> ->; auto.
Qed.

(** X4.  Every procurement that the API stores satisfies what
    [src/models/Procurement.js] demands: the record that
    [POST /procurement] answers with 201 has a tonnage that is an integer
    of at least 100, a cost of at least 10000, a selling price of at least
    1000, a branch that is Maganjo or Matugga, a contact of 10 to 12
    digits, a time of the form HH:MM, names of the demanded form, a date
    and a recorder; and if all the procurements of a store are such, they
    still are after any request. *)
Theorem stored_procurements_are_valid (env : Env) (route : Route)
    (authorization : option string) (id : string) (type : option string)
    (b : gmap string JSON) (st st' : Store) (r : Response) (done : list Stage) :
  serve_ env (incoming route authorization id type b) st = (r, st', done) ->
  (forall doc, route = POST_procurement -> r = mkResponse 201 (json_data doc) ->
     procurement_ok doc /\ procurements st' = procurements st ++ [doc])
  /\ (Forall procurement_ok (procurements st) ->
      Forall procurement_ok (procurements st')).
Proof.
  intros Hserve.
  apply serve_effect in Hserve
    as [[-> Hs]|[(roles & chains & key & u & doc & Hroute & _ & _ & _ & Hcr & _ & _
                  & -> & ->)|(-> & Hs & _ & Hprocs & _)]].
  - split; [|auto]. intros doc _ ->. contradiction Hs. reflexivity.
  - destruct (creation_route_model_of _ _ _ _ Hroute)
      as [[-> Hm]|[[-> Hm]|[-> Hm]]]; rewrite Hm in *; unfold inserted;
      cbn [collection Procurement CashSale CreditSale discriminator Sale
           set_collection get_collection procurements].
    + pose proof (created_procurement_ok env _ doc Hcr) as Hok. split.
      * intros doc' _ Hr. injection Hr as <-. split; [exact Hok | reflexivity].
      * intros Hall. apply Forall_app. split; [exact Hall|].
        constructor; [exact Hok | constructor].
    + split; [intros doc' Hne; discriminate Hne | auto].
    + split; [intros doc' Hne; discriminate Hne | auto].
  - split; [intros doc Hne; discriminate Hne|]. rewrite Hprocs. auto.
Qed.

(** X5.  Every sale that the API stores satisfies what [src/models/Sale.js]
    demands of its kind: the record that [POST /sales/cash] answers with
    201 is a cash sale with a tonnage of at least 1 and an amount paid of
    at least 10000, the record that [POST /sales/credit] answers with 201
    is a credit sale with a tonnage of at least 1, an amount due of at
    least 10000, a national id of 10 to 15 capitals and digits and a due
    date, each with names of the demanded form; and if all the sales of a
    store are such, they still are after any request, payments
    included. *)
Theorem stored_sales_are_valid (env : Env) (route : Route)
    (authorization : option string) (id : string) (type : option string)
    (b : gmap string JSON) (st st' : Store) (r : Response) (done : list Stage) :
  serve_ env (incoming route authorization id type b) st = (r, st', done) ->
  (forall doc, route = POST_sales_cash -> r = mkResponse 201 (json_data doc) ->
     cash_sale_ok doc /\ sales st' = sales st ++ [doc])
  /\ (forall doc, route = POST_sales_credit -> r = mkResponse 201 (json_data doc) ->
        credit_sale_ok doc /\ sales st' = sales st ++ [doc])
  /\ (Forall sale_ok (sales st) -> Forall sale_ok (sales st')).
Proof.
  intros Hserve.
  apply serve_effect in Hserve
    as [[-> Hs]|[(roles & chains & key & u & doc & Hroute & _ & _ & _ & Hcr & _ & _
                  & -> & ->)|(-> & Hs & _ & _ & Hsales)]].
  - split; [|split; [|auto]]; intros doc _ ->; contradiction Hs; reflexivity.
  - destruct (creation_route_model_of _ _ _ _ Hroute)
      as [[-> Hm]|[[-> Hm]|[-> Hm]]]; rewrite Hm in *; unfold inserted;
      cbn [collection Procurement CashSale CreditSale discriminator Sale
           set_collection get_collection sales].
    + split; [intros doc' Hne; discriminate Hne|].
      split; [intros doc' Hne; discriminate Hne | auto].
    + pose proof (created_cash_sale_ok env _ doc Hcr) as Hok. split; [|split].
      * intros doc' _ Hr. injection Hr as <-. split; [exact Hok | reflexivity].
      * intros doc' Hne. discriminate Hne.
      * intros Hall. apply Forall_app. split; [exact Hall|].
        constructor; [left; exact Hok | constructor].
    + pose proof (created_credit_sale_ok env _ doc Hcr) as Hok. split; [|split].
      * intros doc' Hne. discriminate Hne.
      * intros doc' _ Hr. injection Hr as <-. split; [exact Hok | reflexivity].
      * intros Hall. apply Forall_app. split; [exact Hall|].
        constructor; [right; exact Hok | constructor].
  - split; [intros doc Hne; discriminate Hne|].
    split; [intros doc Hne; discriminate Hne|].
    intros Hall. induction Hsales as [|d d' l l' Hd _ IH]; [constructor|].
    apply Forall_cons in Hall as [Hd0 Hall]. constructor; [|apply IH, Hall].
    destruct Hd as [->|Hsame]; [exact Hd0|].
    apply (same_but_payment_sale_ok d d' Hsame Hd0).
Qed.

(** ** Payments: whose, and of what *)

Lemma find_app_none {A} (f : A -> bool) (l1 l2 : list A) :
  List.find f l1 = None -> List.find f l2 = None -> List.find f (l1 ++ l2) = None.
Proof.
  intros H1 H2. induction l1 as [|x l1 IH]; [exact H2|].
  rewrite <- app_comm_cons. cbn [List.find] in *.
  destruct (f x); [discriminate H1 | apply IH, H1].
Qed.

Lemma find_none_all {A} (f : A -> bool) (l : list A) :
  (forall x, x ∈ l -> f x = false) -> List.find f l = None.
Proof.
  intros H. induction l as [|x l IH]; [reflexivity|].
  cbn [List.find]. rewrite (H x) by apply list_elem_of_here.
  apply IH. intros y Hy. apply H, list_elem_of_further, Hy.
Qed.

(** X6.  The payment route only reaches credit sales.  After
    [POST /sales/cash] has answered 201 with a cash sale, a payment
    request that names that cash sale, by an authenticated requester and
    while the database answers, is answered 404 "Credit sale not found"
    and leaves the store as it is. *)
Theorem payment_of_a_cash_sale_is_not_found (env : Env)
    (authorization : option string) (id : string) (type : option string)
    (b : gmap string JSON) (st st1 : Store) (doc : Doc) (done : list Stage) :
  serve_ env (incoming POST_sales_cash authorization id type b) st
  = (mkResponse 201 (json_data doc), st1, done) ->
  exists oid,
    doc !! "_id" = Some (VObjectId oid)
    /\ doc ∈ sales st1
    /\ forall env' authorization' id' type' b' u',
         resolve_credential_ st1 authorization' = Some u' ->
         ObjectId_.ofString id' = Some oid ->
         dbUp env' = true ->
         serve_ env'
           (incoming PATCH_sales_credit_payment authorization' id' type' b') st1
         = (mkResponse 404 (json_error "Credit sale not found"), st1,
            [Authenticate]).
Proof.
  intros Hserve.
  assert (Hroute : (POST_sales_cash, ["Sales Agent"; "Manager"], cash_rules, "date")
                   ∈ creation_routes)
    by (unfold creation_routes; elem_of_listed).
  destruct (creation_route_cases env _ _ _ _ authorization id type b st Hroute)
    as [[_ H]|[(u & _ & _ & H)|[(u & e & es & _ & _ & _ & H)
       |[(u & _ & _ & _ & H)|(u & doc' & Hu & _ & _ & Hcr & _ & Hfresh & H)]]]];
    rewrite H in Hserve; try discriminate Hserve.
  injection Hserve as -> <- _. cbn [model_of] in *.
  destruct (created_id CashSale env _ doc CashSale_listed Hcr) as [oid Hid].
  pose proof (created_Cash_saleType env _ doc Hcr) as Hty.
  exists oid. split; [exact Hid|]. split.
  { unfold inserted. cbn [collection CashSale discriminator Sale set_collection
      get_collection sales].
    apply elem_of_app. right. apply list_elem_of_here. }
  intros env' authorization' id' type' b' u' Hu' Hid' Hup'.
  apply (serve_payment_not_found env' authorization' id' type' b' _ u' oid
           Hu' Hid' Hup').
  unfold find_credit_sale, inserted.
  cbn [collection CashSale discriminator Sale set_collection get_collection sales].
  apply find_app_none.
  - apply find_none_all. intros d Hd.
    apply andb_false_iff. left. unfold has_id. apply bool_decide_eq_false_2.
    rewrite <- Hid. apply (fresh_no_id CashSale doc st d Hfresh Hd).
  - cbn [List.find]. unfold of_model.
    cbn [discriminatorKey discriminatorValue CreditSale discriminator Sale].
    rewrite Hty. rewrite (bool_decide_eq_false_2 (Some (VStr "Cash") = _))
      by discriminate.
    rewrite andb_false_r. reflexivity.
Qed.

(** X7.  The payment route asks for no role and reads nothing of the
    request but the identifier in its path: two payment requests with
    the same identifier, by any two authenticated requesters and with any
    bodies and query strings, have the same outcome. *)
Theorem payment_ignores_the_requester (env : Env) (id : string)
    (authorization1 authorization2 : option string) (type1 type2 : option string)
    (b1 b2 : gmap string JSON) (st : Store) (u1 u2 : User.t) :
  resolve_credential_ st authorization1 = Some u1 ->
  resolve_credential_ st authorization2 = Some u2 ->
  serve_ env (incoming PATCH_sales_credit_payment authorization1 id type1 b1) st
  = serve_ env (incoming PATCH_sales_credit_payment authorization2 id type2 b2) st.
Proof.
  intros H1 H2. unfold serve, app, dispatch. cbn [req_route incoming].
  unfold patch_payment.
  rewrite (authenticated_route verifyToken _
             (incoming PATCH_sales_credit_payment authorization1 id type1 b1)
             (mkWorld st []) u1 H1).
  rewrite (authenticated_route verifyToken _
             (incoming PATCH_sales_credit_payment authorization2 id type2 b2)
             (mkWorld st []) u2 H2).
  reflexivity.
Qed.

(** ** The handlers always answer *)

Lemma get_procurements_handler_run (env : Env) (req : Request) (w : World) :
  get_procurements_handler Date_parse Date_toString env req w
  = (Sent (if dbUp env
           then mkResponse 200
                  (json_list (length (sort_createdAt_desc (procurements (store w))))
                     (populate (users (store w))
                        <$> sort_createdAt_desc (procurements (store w))))
           else mkResponse 500 (json_error "Server error")), w).
Proof.
  unfold get_procurements_handler, try_catch, mbind, M_bind, bind, resolve.
  cbn [List.find procurementRoutes_scope String.eqb Ascii.eqb Bool.eqb].
  unfold mret, M_ret, ret, Model_find. cbn [cast_query].
  destruct (dbUp env); cbn [negb]; [|reflexivity].
  unfold mbind, M_bind, bind, get_store, mret, M_ret, ret, send.
  cbn [collection Procurement get_collection].
  rewrite filter_all by reflexivity.
  rewrite length_fmap. reflexivity.
Qed.

Lemma get_procurement_handler_run (env : Env) (req : Request) (w : World) :
  get_procurement_handler env req w
  = (Sent
       match ObjectId_.ofString (req_params_id req) with
       | None => mkResponse 500 (json_error "Server error")
       | Some oid =>
           if dbUp env then
             match List.find (has_id (Some (VObjectId oid)))
                     (procurements (store w)) with
             | Some d => mkResponse 200 (json_populated (populate (users (store w)) d))
             | None => mkResponse 404 (json_error "Procurement record not found")
             end
           else mkResponse 500 (json_error "Server error")
       end, w).
Proof.
  unfold get_procurement_handler, try_catch, mbind, M_bind, bind, resolve.
  cbn [List.find procurementRoutes_scope String.eqb Ascii.eqb Bool.eqb].
  unfold mret, M_ret, ret. rewrite Model_findById_run.
  destruct (ObjectId_.ofString (req_params_id req)) as [oid|]; [|reflexivity].
  destruct (dbUp env); [|reflexivity].
  cbn [collection Procurement get_collection].
  rewrite (find_ext _ (has_id (Some (VObjectId oid))))
    by (intros d; rewrite of_model_Procurement; apply andb_true_r).
  unfold get_store.
  destruct (List.find _ _); reflexivity.
Qed.

(** A creation handler without [req.user]: reading [req.user._id] throws,
    and the answer is the server error. *)
Lemma creation_handler_no_user (env : Env) (route : Route) (req : Request)
    (w : World) :
  req_validation req = [] -> req_user req = None ->
  creation_handler Date_parse Date_toString route env req w
  = (Sent (mkResponse 500 (json_error "Server error")), log w [DefaultFill]).
Proof.
  intros Hval Hu.
  destruct route;
    unfold creation_handler, post_procurement_handler, post_cash_handler,
      post_credit_handler, validationResult, user_id, try_catch, mbind, M_bind,
      bind;
    rewrite Hval, Hu; reflexivity.
Qed.

(** What a creation handler answers, case by case. *)
Lemma creation_handler_cases (env : Env) (route : Route) (roles : list string)
    (chains : list ValidationChain) (key : string) (req : Request) (w : World) :
  (route, roles, chains, key) ∈ creation_routes ->
  exists resp w',
    creation_handler Date_parse Date_toString route env req w = (Sent resp, w')
    /\ ((req_validation req <> [] /\ status resp = 400%nat /\ store w' = store w)
        \/ (req_validation req = []
            /\ resp = mkResponse 500 (json_error "Server error")
            /\ store w' = store w)
        \/ (req_validation req = [] /\ dbUp env = true /\ status resp = 201%nat)).
Proof.
  intros Hroute.
  destruct (req_validation req) as [|e es] eqn:Hval.
  2:{ eexists _, _. split; [apply creation_handler_invalid, Hval|].
      left. split; [discriminate|]. split; reflexivity. }
  destruct (req_user req) as [u|] eqn:Hu.
  2:{ eexists _, _. split; [apply creation_handler_no_user; assumption|].
      right. left. split; [reflexivity|]. split; reflexivity. }
  destruct (creation_handler Date_parse Date_toString route env req w)
    as [r w'] eqn:Hh.
  destruct (creation_handler_valid env route roles chains key req w w' u r
              Hroute Hu Hval Hh)
    as [[-> ->]|(doc & -> & _ & Hup & _ & ->)].
  - eexists _, _. split; [reflexivity|]. right. left.
    split; [reflexivity|]. split; reflexivity.
  - eexists _, _. split; [reflexivity|]. right. right.
    split; [reflexivity|]. split; [exact Hup | reflexivity].
Qed.

Lemma patch_payment_handler_answers (env : Env) (req : Request) (w : World) :
  exists resp w',
    patch_payment_handler env req w = (Sent resp, w')
    /\ ((resp = mkResponse 500 (json_error "Server error") /\ store w' = store w)
        \/ (dbUp env = true
            /\ (status resp = 404%nat /\ store w' = store w
                \/ status resp = 200%nat))).
Proof.
  destruct (patch_payment_handler env req w) as [r w'] eqn:Hh.
  apply patch_payment_handler_cases in Hh
    as [(-> & Hst & _)|[(-> & -> & oid & _ & Hup & _)
       |(oid & stored & _ & Hup & _ & _ & [(_ & -> & _)|(_ & Hr)])]].
  - eexists _, _. split; [reflexivity|]. left. split; [reflexivity | exact Hst].
  - eexists _, _. split; [reflexivity|]. right. split; [exact Hup|].
    left. split; reflexivity.
  - eexists _, _. split; [reflexivity|]. right. split; [exact Hup|].
    right. reflexivity.
  - cbv zeta in Hr. destruct Hr as [-> _].
    eexists _, _. split; [reflexivity|]. right. split; [exact Hup|].
    right. reflexivity.
Qed.

Ltac each_handler H :=
  unfold handlers in H;
  repeat (apply elem_of_cons in H as [->|H]);
  [ .. | apply elem_of_nil in H; destruct H ].

(** X8.  Every handler of the two routers answers every request: whatever
    the request and the store, and whether or not an earlier middleware
    has set [req.user], the handler sends a response, with status 200,
    201, 400, 404 or 500, and no exception leaves it.  A response with
    status 500 carries the payload "Server error" and nothing else, and
    when the status is 400, 404 or 500 the store is as it was. *)
Theorem every_handler_answers (env : Env) (h : Request -> M Empty_set)
    (req : Request) (w : World) :
  h ∈ handlers Date_parse Date_toString env ->
  exists resp w',
    h req w = (Sent resp, w')
    /\ status resp ∈ [200; 201; 400; 404; 500]%nat
    /\ (status resp = 500%nat -> json resp = json_error "Server error")
    /\ (status resp ∈ [400; 404; 500]%nat -> store w' = store w).
Proof.
  intros Hh. each_handler Hh.
  - destruct (creation_handler_cases env POST_procurement ["Manager"]
                procurement_rules "date" req w) as (resp & w' & Hrun & Hcases);
      [unfold creation_routes; elem_of_listed|].
    exists resp, w'. split; [exact Hrun|].
    destruct Hcases as [(_ & Hs & Hst)|[(_ & -> & Hst)|(_ & _ & Hs)]].
    + rewrite Hs. split; [elem_of_listed|]. split; [discriminate | auto].
    + split; [cbn; elem_of_listed|]. split; [reflexivity | auto].
    + rewrite Hs. split; [elem_of_listed|]. split; [discriminate|].
      intros Hin. repeat (apply elem_of_cons in Hin as [Hin|Hin]; [discriminate Hin|]).
      apply elem_of_nil in Hin. destruct Hin.
  - rewrite get_procurements_handler_run. eexists _, _. split; [reflexivity|].
    destruct (dbUp env); cbn [status json];
      (split; [elem_of_listed|]); (split; [try discriminate; reflexivity | auto]).
  - rewrite get_procurement_handler_run. eexists _, _. split; [reflexivity|].
    destruct (ObjectId_.ofString (req_params_id req)); [destruct (dbUp env)|];
      [destruct (List.find _ _)| |]; cbn [status json];
      (split; [elem_of_listed|]); (split; [try discriminate; reflexivity | auto]).
  - destruct (creation_handler_cases env POST_sales_cash ["Sales Agent"; "Manager"]
                cash_rules "date" req w) as (resp & w' & Hrun & Hcases);
      [unfold creation_routes; elem_of_listed|].
    exists resp, w'. split; [exact Hrun|].
    destruct Hcases as [(_ & Hs & Hst)|[(_ & -> & Hst)|(_ & _ & Hs)]].
    + rewrite Hs. split; [elem_of_listed|]. split; [discriminate | auto].
    + split; [cbn; elem_of_listed|]. split; [reflexivity | auto].
    + rewrite Hs. split; [elem_of_listed|]. split; [discriminate|].
      intros Hin. repeat (apply elem_of_cons in Hin as [Hin|Hin]; [discriminate Hin|]).
      apply elem_of_nil in Hin. destruct Hin.
  - destruct (creation_handler_cases env POST_sales_credit
                ["Sales Agent"; "Manager"] credit_rules "dispatchDate" req w)
      as (resp & w' & Hrun & Hcases);
      [unfold creation_routes; elem_of_listed|].
    exists resp, w'. split; [exact Hrun|].
    destruct Hcases as [(_ & Hs & Hst)|[(_ & -> & Hst)|(_ & _ & Hs)]].
    + rewrite Hs. split; [elem_of_listed|]. split; [discriminate | auto].
    + split; [cbn; elem_of_listed|]. split; [reflexivity | auto].
    + rewrite Hs. split; [elem_of_listed|]. split; [discriminate|].
      intros Hin. repeat (apply elem_of_cons in Hin as [Hin|Hin]; [discriminate Hin|]).
      apply elem_of_nil in Hin. destruct Hin.
  - rewrite get_sales_handler_run. eexists _, _. split; [reflexivity|].
    cbn [status json]. split; [elem_of_listed|]. split; [reflexivity | auto].
  - destruct (patch_payment_handler_answers env req w)
      as (resp & w' & Hrun & Hcases).
    exists resp, w'. split; [exact Hrun|].
    destruct Hcases as [[-> Hst]|[_ [[Hs Hst]|Hs]]].
    + split; [cbn; elem_of_listed|]. split; [reflexivity | auto].
    + rewrite Hs. split; [elem_of_listed|]. split; [discriminate | auto].
    + rewrite Hs. split; [elem_of_listed|]. split; [discriminate|].
      intros Hin. repeat (apply elem_of_cons in Hin as [Hin|Hin]; [discriminate Hin|]).
      apply elem_of_nil in Hin. destruct Hin.
Qed.

(** X9.  While the database does not answer, every handler answers a
    request that brought no validation error with status 500 and the
    payload "Server error", and the store is as it was. *)
Theorem database_down_is_server_error (env : Env) (h : Request -> M Empty_set)
    (req : Request) (w : World) :
  h ∈ handlers Date_parse Date_toString env ->
  dbUp env = false ->
  req_validation req = [] ->
  exists w',
    h req w = (Sent (mkResponse 500 (json_error "Server error")), w')
    /\ store w' = store w.
Proof.
  intros Hh Hdown Hval. each_handler Hh.
  - destruct (creation_handler_cases env POST_procurement ["Manager"]
                procurement_rules "date" req w) as (resp & w' & Hrun & Hcases);
      [unfold creation_routes; elem_of_listed|].
    destruct Hcases as [(Hne & _)|[(_ & -> & Hst)|(_ & Hup & _)]];
      [contradiction | | congruence].
    exists w'. split; assumption.
  - rewrite get_procurements_handler_run, Hdown. eexists. split; reflexivity.
  - rewrite get_procurement_handler_run, Hdown. eexists. split; [|reflexivity].
    destruct (ObjectId_.ofString (req_params_id req)); reflexivity.
  - destruct (creation_handler_cases env POST_sales_cash ["Sales Agent"; "Manager"]
                cash_rules "date" req w) as (resp & w' & Hrun & Hcases);
      [unfold creation_routes; elem_of_listed|].
    destruct Hcases as [(Hne & _)|[(_ & -> & Hst)|(_ & Hup & _)]];
      [contradiction | | congruence].
    exists w'. split; assumption.
  - destruct (creation_handler_cases env POST_sales_credit
                ["Sales Agent"; "Manager"] credit_rules "dispatchDate" req w)
      as (resp & w' & Hrun & Hcases);
      [unfold creation_routes; elem_of_listed|].
    destruct Hcases as [(Hne & _)|[(_ & -> & Hst)|(_ & Hup & _)]];
      [contradiction | | congruence].
    exists w'. split; assumption.
  - rewrite get_sales_handler_run. eexists. split; reflexivity.
  - destruct (patch_payment_handler_answers env req w)
      as (resp & w' & Hrun & Hcases).
    destruct Hcases as [[-> Hst]|[Hup _]]; [|congruence].
    exists w'. split; assumption.
Qed.

(** ** Bodies that pass the rules and that the model refuses *)

Lemma fill_defaults_other (env : Env) (b : gmap string JSON) (id : ObjectId)
    (key k : string) :
  k <> key -> k <> "recordedBy" ->
  fill_defaults env b id key !! k = VJson <$> b !! k.
Proof.
  intros H1 H2. unfold fill_defaults.
  rewrite !lookup_insert_ne by congruence. apply lookup_fmap.
Qed.

Lemma fill_defaults_key (env : Env) (b : gmap string JSON) (id : ObjectId)
    (key : string) (v : JSON) :
  b !! key = Some v -> truthy (Some v) = true ->
  fill_defaults env b id key !! key = Some (VJson v).
Proof.
  intros Hv Ht. unfold fill_defaults. rewrite lookup_insert_eq, Hv, Ht.
  reflexivity.
Qed.

(** A member whose cast fails is reported by [construct]. *)
Lemma construct_failed (env : Env) (ps : list SchemaPath) (data : Doc)
    (p : SchemaPath) (v : Value) :
  p ∈ ps -> data !! p_name p = Some v ->
  cast Date_parse Date_toString (p_type p) v = None ->
  p_name p ∈ (construct Date_parse Date_toString env ps data).2.
Proof.
  intros Hp Hv Hc. induction ps as [|q ps IH]; [apply elem_of_nil in Hp; destruct Hp|].
  cbn [construct].
  destruct (construct Date_parse Date_toString env ps data) as [doc failed].
  cbn [snd] in IH.
  apply elem_of_cons in Hp as [<-|Hp].
  - rewrite Hv, Hc. apply list_elem_of_here.
  - specialize (IH Hp).
    destruct (data !! p_name q) as [x|].
    + destruct (cast _ _ _ x); cbn [snd];
        [exact IH | apply list_elem_of_further, IH].
    + destruct (p_default q); exact IH.
Qed.

(** On a creation route, for an admitted requester whose body passed the
    rules, the answer is the server error or the new record. *)
Lemma creation_route_valid (env : Env) (route : Route) (roles : list string)
    (chains : list ValidationChain) (key : string)
    (authorization : option string) (id : string) (type : option string)
    (b : gmap string JSON) (st : Store) (u : User.t) :
  (route, roles, chains, key) ∈ creation_routes ->
  resolve_credential_ st authorization = Some u ->
  User.role u ∈ roles ->
  flat_map (run_chain_ b) chains = [] ->
  serve_ env (incoming route authorization id type b) st
  = (mkResponse 500 (json_error "Server error"), st,
     [Authenticate; Authorize; Validate; DefaultFill; Persist])
  \/ exists doc,
       created Date_parse Date_toString (model_of route) env
         (fill_defaults env b (User._id u) key) doc.
Proof.
  intros Hroute Hu Hr Hv.
  destruct (creation_route_cases env route roles chains key authorization id
              type b st Hroute)
    as [[Hu' _]|[(u1 & Hu1 & Hr1 & _)|[(u1 & e & es & _ & _ & He & _)
       |[(u1 & _ & _ & _ & H)|(u1 & doc & Hu1 & _ & _ & Hcr & _)]]]].
  - congruence.
  - rewrite Hu in Hu1. injection Hu1 as <-. contradiction.
  - congruence.
  - left. exact H.
  - right. rewrite Hu in Hu1. injection Hu1 as <-. exists doc. exact Hcr.
Qed.

(** X10.  A produce name of white space only passes the rules of every
    creation route (the pattern of the procurement rule admits white
    space, and [notEmpty] does not trim), but the models trim the name and
    require it: for an admitted requester whose body passes the rules, the
    answer is then 500 with the server-error payload, not 400, and no
    record is created. *)
Theorem blank_produce_name_is_server_error (env : Env) (route : Route)
    (roles : list string) (chains : list ValidationChain) (key : string)
    (authorization : option string) (id : string) (type : option string)
    (b : gmap string JSON) (st : Store) (u : User.t) (s : string) :
  (route, roles, chains, key) ∈ creation_routes ->
  resolve_credential_ st authorization = Some u ->
  User.role u ∈ roles ->
  flat_map (run_chain_ b) chains = [] ->
  b !! "produceName" = Some (JStr s) ->
  String_trim s = "" ->
  serve_ env (incoming route authorization id type b) st
  = (mkResponse 500 (json_error "Server error"), st,
     [Authenticate; Authorize; Validate; DefaultFill; Persist]).
Proof.
  intros Hroute Hu Hr Hv Hb Hs.
  destruct (creation_route_valid env route roles chains key authorization id
              type b st u Hroute Hu Hr Hv) as [H|[doc Hcr]]; [exact H|].
  exfalso.
  assert (Hkey : "produceName" <> key).
  { unfold creation_routes in Hroute.
    apply elem_of_cons in Hroute as [Heq|Hroute];
      [|apply elem_of_cons in Hroute as [Heq|Hroute];
        [|apply list_elem_of_singleton in Hroute as Heq]];
      injection Heq as -> -> -> ->; discriminate. }
  assert (Hdata : fill_defaults env b (User._id u) key !! "produceName"
                  = Some (VJson (JStr s))).
  { rewrite fill_defaults_other by (assumption || discriminate).
    rewrite Hb. reflexivity. }
  assert (Hgen : forall p,
            p ∈ paths (model_of route) -> p_name p = "produceName" ->
            p_required p = true -> p_default p = None -> p_type p = TString ->
            p_trim p = true -> False).
  { intros p Hp Hn Hreq Hdef Hty Htrim.
    destruct (creation_route_model route roles chains key Hroute) as (Hm & _).
    destruct (created_required (model_of route) env _ doc p Hm Hcr Hp)
      as (given & v & Hg & Hc & _ & _ & Hchk & _);
      [rewrite Hn; discriminate | rewrite Hn; discriminate | assumption
      | assumption |].
    rewrite Hn, Hdata in Hg. injection Hg as <-.
    rewrite Hty in Hc. cbn [cast castString ToString] in Hc. injection Hc as <-.
    unfold apply_setters, VStr in Hchk. rewrite Htrim in Hchk.
    unfold VStr in Hchk.
    rewrite Hs in Hchk. discriminate Hchk. }
  destruct (creation_route_model_of _ _ _ _ Hroute)
    as [[-> Hm]|[[-> Hm]|[-> Hm]]]; rewrite Hm in Hgen.
  - apply (Hgen (Schemas.match_ Regex.alphanumeric
                   (Schemas.trim
                      (Schemas.required (Schemas.path "produceName" TString)))));
      [path_listed | reflexivity ..].
  - apply (Hgen (Schemas.trim
                   (Schemas.required (Schemas.path "produceName" TString))));
      [path_listed | reflexivity ..].
  - apply (Hgen (Schemas.trim
                   (Schemas.required (Schemas.path "produceName" TString))));
      [path_listed | reflexivity ..].
Qed.

(** X11.  No rule of a creation route reads the date that the handler
    passes on ([date], or [dispatchDate] for a credit sale).  When the
    body holds there a truthy value that is no date (a non-empty string
    that [Date] does not parse, or [true]), the model refuses the record:
    for an admitted requester whose body passes the rules, the answer is
    500 with the server-error payload, not 400, and no record is
    created. *)
Theorem unusable_date_is_server_error (env : Env) (route : Route)
    (roles : list string) (chains : list ValidationChain) (key : string)
    (authorization : option string) (id : string) (type : option string)
    (b : gmap string JSON) (st : Store) (u : User.t) (v : JSON) :
  (route, roles, chains, key) ∈ creation_routes ->
  resolve_credential_ st authorization = Some u ->
  User.role u ∈ roles ->
  flat_map (run_chain_ b) chains = [] ->
  b !! key = Some v ->
  no_date Date_parse v ->
  serve_ env (incoming route authorization id type b) st
  = (mkResponse 500 (json_error "Server error"), st,
     [Authenticate; Authorize; Validate; DefaultFill; Persist]).
Proof.
  intros Hroute Hu Hr Hv Hb Hno.
  destruct (creation_route_valid env route roles chains key authorization id
              type b st u Hroute Hu Hr Hv) as [H|[doc Hcr]]; [exact H|].
  exfalso.
  assert (Htruthy : truthy (Some v) = true).
  { destruct Hno as [(s & -> & Hne & _)| ->]; [|reflexivity].
    cbn. destruct s; [contradiction | reflexivity]. }
  assert (Hcast : castDate Date_parse (VJson v) = None).
  { destruct Hno as [(s & -> & Hne & Hp)| ->]; [|reflexivity].
    cbn [castDate]. apply String.eqb_neq in Hne. rewrite Hne, Hp. reflexivity. }
  pose proof (fill_defaults_key env b (User._id u) key v Hb Htruthy) as Hdata.
  assert (Hgen : forall p,
            p ∈ paths (model_of route) -> p_name p = key -> p_type p = TDate ->
            False).
  { intros p Hp Hn Hty. destruct Hcr as (_ & Hfailed & _).
    assert (Hin : p_name p ∈ (construct Date_parse Date_toString env
                                (paths (model_of route))
                                (fill_defaults env b (User._id u) key)).2).
    { apply (construct_failed env _ _ p (VJson v) Hp).
      - rewrite Hn. exact Hdata.
      - rewrite Hty. exact Hcast. }
    rewrite Hfailed in Hin. apply elem_of_nil in Hin. exact Hin. }
  unfold creation_routes in Hroute.
  apply elem_of_cons in Hroute as [Heq|Hroute];
    [|apply elem_of_cons in Hroute as [Heq|Hroute];
      [|apply list_elem_of_singleton in Hroute as Heq]];
    injection Heq as -> -> -> ->; cbn [model_of] in Hgen.
  - apply (Hgen (Schemas.default Date_now
                   (Schemas.required (Schemas.path "date" TDate))));
      [path_listed | reflexivity ..].
  - apply (Hgen (Schemas.default Date_now
                   (Schemas.required (Schemas.path "date" TDate))));
      [path_listed | reflexivity ..].
  - apply (Hgen (Schemas.default Date_now
                   (Schemas.required (Schemas.path "dispatchDate" TDate))));
      [path_listed | reflexivity ..].
Qed.

(** ** What a new record holds *)

Lemma timestamps_new_None (env : Env) (m : Model) (doc : Doc) (k : string) :
  k <> "createdAt" -> k <> "updatedAt" -> doc !! k = None ->
  timestamps_new env m doc !! k = None.
Proof. intros H1 H2 H. rewrite timestamps_new_lookup by assumption. exact H. Qed.

Lemma createdAt_named (m : Model) :
  m ∈ [Procurement; CashSale; CreditSale] ->
  "createdAt" ∈ p_name <$> paths m.
Proof.
  intros Hm.
  apply elem_of_cons in Hm as [->|Hm];
    [|apply elem_of_cons in Hm as [->|Hm];
      [|apply list_elem_of_singleton in Hm as ->]];
    apply (bool_decide_unpack _); vm_compute; exact I.
Qed.

Lemma updatedAt_named (m : Model) :
  timestamps m = true -> "updatedAt" ∈ p_name <$> paths m.
Proof.
  intros Ht. unfold paths. rewrite Ht. rewrite !fmap_app.
  apply elem_of_app. right. apply elem_of_app. right. apply elem_of_app. left.
  apply list_elem_of_here.
Qed.

(** X12.  A record that a creation route answers with 201 holds no member
    but those that its model declares (the paths of the schema, [_id],
    [__v] and, for a sale, [saleType] and [updatedAt]): whatever else the
    body holds is dropped, not stored. *)
Theorem undeclared_members_are_dropped (env : Env) (route : Route)
    (roles : list string) (chains : list ValidationChain) (key : string)
    (authorization : option string) (id : string) (type : option string)
    (b : gmap string JSON) (st st' : Store) (doc : Doc) (done : list Stage)
    (k : string) :
  (route, roles, chains, key) ∈ creation_routes ->
  serve_ env (incoming route authorization id type b) st
  = (mkResponse 201 (json_data doc), st', done) ->
  k ∉ p_name <$> paths (model_of route) ->
  doc !! k = None.
Proof.
  intros Hroute Hserve Hk.
  destruct (creation_route_model route roles chains key Hroute) as (Hm & _).
  destruct (creation_route_cases env route roles chains key authorization id
              type b st Hroute)
    as [[_ H]|[(u & _ & _ & H)|[(u & e & es & _ & _ & _ & H)
       |[(u & _ & _ & _ & H)|(u & doc' & _ & _ & _ & Hcr & _ & _ & H)]]]];
    rewrite H in Hserve; try discriminate Hserve.
  injection Hserve as -> _ _.
  destruct Hcr as (_ & _ & -> & _).
  pose proof (construct_lookup_notin env (paths (model_of route))
                (fill_defaults env b (User._id u) key) k Hk) as Hnone.
  assert (Hc : k <> "createdAt").
  { intros ->. apply Hk, createdAt_named, Hm. }
  unfold timestamps_new. destruct (timestamps (model_of route)) eqn:Ht;
    [|exact Hnone].
  assert (Hu : k <> "updatedAt").
  { intros ->. apply Hk, updatedAt_named, Ht. }
  fold (timestamps_new env (model_of route)
          (construct Date_parse Date_toString env (paths (model_of route))
             (fill_defaults env b (User._id u) key)).1).
  pose proof (timestamps_new_None env (model_of route) _ k Hc Hu Hnone) as Hts.
  unfold timestamps_new in Hts. rewrite Ht in Hts. exact Hts.
Qed.

(** ** A new procurement in the list *)

Lemma sort_newest_last (doc : Doc) (l acc : list Doc) :
  (forall x, x ∈ l -> newer doc x = true) ->
  foldr insert_sorted (doc :: acc) l = doc :: foldr insert_sorted acc l.
Proof.
  intros H. induction l as [|x l IH]; [reflexivity|].
  cbn [foldr]. rewrite IH by (intros y Hy; apply H, list_elem_of_further, Hy).
  cbn [insert_sorted]. rewrite (H x) by apply list_elem_of_here. reflexivity.
Qed.

Lemma sort_createdAt_desc_newest (doc : Doc) (l : list Doc) :
  (forall x, x ∈ l -> newer doc x = true) ->
  sort_createdAt_desc (l ++ [doc]) = doc :: sort_createdAt_desc l.
Proof.
  intros H. unfold sort_createdAt_desc. rewrite foldr_app. cbn [foldr insert_sorted].
  apply sort_newest_last, H.
Qed.

Lemma createdAt_path :
  Schemas.default Date_now (Schemas.path "createdAt" TDate) ∈ paths Procurement.
Proof. path_listed. Qed.

(** X13.  A procurement recorded now stands first in the list.  After
    [POST /procurement] has answered 201 for a body without a createdAt
    member, at a time later than the creation dates of the procurements
    already stored, [GET /procurement] lists the new record first and
    then the stored ones as it listed them before. *)
Theorem new_procurement_is_listed_first (env : Env)
    (authorization : option string) (id : string) (type : option string)
    (b : gmap string JSON) (st st1 : Store) (doc : Doc) (done : list Stage) :
  serve_ env (incoming POST_procurement authorization id type b) st
  = (mkResponse 201 (json_data doc), st1, done) ->
  b !! "createdAt" = None ->
  (forall d, d ∈ procurements st -> older_than (now env) d) ->
  doc !! "createdAt" = Some (VDate (now env))
  /\ forall env' authorization' id' type' b' u',
       resolve_credential_ st1 authorization' = Some u' ->
       dbUp env' = true ->
       serve_ env' (incoming GET_procurement authorization' id' type' b') st1
       = (mkResponse 200
            (json_list (S (length (procurements st)))
               (populate (users st) doc
                  :: (populate (users st)
                        <$> sort_createdAt_desc (procurements st)))),
          st1, [Authenticate]).
Proof.
  intros Hserve Hb Hold.
  assert (Hroute : (POST_procurement, ["Manager"], procurement_rules, "date")
                   ∈ creation_routes)
    by (unfold creation_routes; elem_of_listed).
  destruct (creation_route_cases env _ _ _ _ authorization id type b st Hroute)
    as [[_ H]|[(u & _ & _ & H)|[(u & e & es & _ & _ & _ & H)
       |[(u & _ & _ & _ & H)|(u & doc' & Hu & _ & _ & Hcr & _ & Hfresh & H)]]]];
    rewrite H in Hserve; try discriminate Hserve.
  injection Hserve as -> <- _. cbn [model_of] in *.
  assert (Hat : doc !! "createdAt" = Some (VDate (now env))).
  { destruct Hcr as (_ & _ & -> & _).
    change (timestamps_new env Procurement ?d) with d.
    pose proof (construct_lookup env (paths Procurement)
                  (fill_defaults env b (User._id u) "date") _
                  (paths_NoDup _ Procurement_listed) createdAt_path) as Hcl.
    cbn [p_name p_type p_default Schemas.default Schemas.path] in Hcl.
    rewrite Hcl, fill_defaults_other by discriminate. rewrite Hb. reflexivity. }
  split; [exact Hat|].
  intros env' authorization' id' type' b' u' Hu' Hup'.
  rewrite (serve_get_procurements env' authorization' id' type' b' _ u' Hu'), Hup'.
  unfold inserted. cbn [collection Procurement set_collection get_collection
    procurements users].
  rewrite sort_createdAt_desc_newest.
  - cbn [length fmap list_fmap].
    rewrite (Permutation_length (sort_createdAt_desc_Permutation _)).
    reflexivity.
  - intros x Hx. specialize (Hold x Hx). unfold older_than in Hold.
    unfold newer, createdAt at 1. rewrite Hat.
    destruct (createdAt x) as [y|]; [|reflexivity].
    apply Z.ltb_lt, Hold.
Qed.

(** ** The numbers of a new record *)








(** ** Bodies that are accepted *)














End RouteProperties.

(* ===================================================================== *)
(** ** The patterns of the rules and of the models *)
(* ===================================================================== *)

Section Patterns.

Import Regex Chars.

Lemma matches_cons (r : Regex.t) (c : ascii) (cs : list ascii) :
  matches r (c :: cs) = matches (deriv c r) cs.
Proof. reflexivity. Qed.

Lemma matches_Void (cs : list ascii) : matches Void cs = false.
Proof. induction cs as [|c cs IH]; [reflexivity | exact IH]. Qed.

Lemma matches_Eps (cs : list ascii) : matches Eps cs = true <-> cs = [].
Proof.
  destruct cs as [|c cs]; [tauto|]. rewrite matches_cons. cbn [deriv].
  rewrite matches_Void. split; discriminate.
Qed.

Lemma matches_Class (p : ascii -> bool) (cs : list ascii) :
  matches (Class p) cs = true <-> exists c, cs = [c] /\ p c = true.
Proof.
  destruct cs as [|c cs].
  - split; [discriminate | intros (c & H & _); discriminate H].
  - rewrite matches_cons. cbn [deriv]. destruct (p c) eqn:Hp.
    + rewrite matches_Eps. split.
      * intros ->. exists c. auto.
      * intros (c' & H & _). injection H as _ ->. reflexivity.
    + rewrite matches_Void. split; [discriminate|].
      intros (c' & H & Hc'). injection H as -> _. congruence.
Qed.

Lemma matches_Alt (a b : Regex.t) (cs : list ascii) :
  matches (Alt a b) cs = matches a cs || matches b cs.
Proof.
  revert a b. induction cs as [|c cs IH]; intros a b; [reflexivity|].
  rewrite !matches_cons. cbn [deriv]. apply IH.
Qed.

Lemma matches_Seq (a b : Regex.t) (cs : list ascii) :
  matches (Seq a b) cs = true
  <-> exists x y, cs = x ++ y /\ matches a x = true /\ matches b y = true.
Proof.
  revert a b. induction cs as [|c cs IH]; intros a b.
  - unfold matches at 1. cbn [fold_left nullable]. rewrite andb_true_iff. split.
    + intros [Ha Hb]. exists [], []. auto.
    + intros (x & y & Hxy & Ha & Hb). symmetry in Hxy.
      apply app_eq_nil in Hxy as [-> ->]. auto.
  - rewrite matches_cons. cbn [deriv]. destruct (nullable a) eqn:Hn.
    + rewrite matches_Alt, orb_true_iff, IH. split.
      * intros [(x & y & -> & Ha & Hb)|Hb].
        -- exists (c :: x), y. auto.
        -- exists [], (c :: cs). auto.
      * intros (x & y & Hxy & Ha & Hb). destruct x as [|c' x].
        -- right. rewrite app_nil_l in Hxy. subst y. exact Hb.
        -- left. rewrite <- app_comm_cons in Hxy. injection Hxy as <- ->.
           exists x, y. auto.
    + rewrite IH. split.
      * intros (x & y & -> & Ha & Hb). exists (c :: x), y. auto.
      * intros (x & y & Hxy & Ha & Hb). destruct x as [|c' x].
        -- unfold matches in Ha. cbn [fold_left] in Ha. congruence.
        -- rewrite <- app_comm_cons in Hxy. injection Hxy as <- ->.
           exists x, y. auto.
Qed.

Lemma matches_Star_Class (p : ascii -> bool) (cs : list ascii) :
  matches (Star (Class p)) cs = true <-> forallb p cs = true.
Proof.
  induction cs as [|c cs IH]; [tauto|].
  rewrite matches_cons. cbn [deriv forallb]. rewrite matches_Seq.
  destruct (p c) eqn:Hp; cbn [andb].
  - split.
    + intros (x & y & -> & Hx & Hy). apply matches_Eps in Hx as ->.
      rewrite app_nil_l. apply IH, Hy.
    + intros Hcs. exists [], cs.
      split; [reflexivity|]. split; [reflexivity | apply IH, Hcs].
  - split; [|discriminate].
    intros (x & y & _ & Hx & _). rewrite matches_Void in Hx. discriminate Hx.
Qed.

Lemma matches_Plus_Class (p : ascii -> bool) (cs : list ascii) :
  matches (Plus (Class p)) cs = true <-> cs <> [] /\ forallb p cs = true.
Proof.
  unfold Plus. rewrite matches_Seq. split.
  - intros (x & y & -> & Hx & Hy).
    apply matches_Class in Hx as (c & -> & Hc). apply matches_Star_Class in Hy.
    change ([c] ++ y) with (c :: y).
    split; [discriminate|]. cbn [forallb]. rewrite Hc. exact Hy.
  - intros [Hne Hall]. destruct cs as [|c cs]; [contradiction|].
    cbn [forallb] in Hall. apply andb_true_iff in Hall as [Hc Hcs].
    exists [c], cs. split; [reflexivity|]. split.
    + apply matches_Class. exists c. auto.
    + apply matches_Star_Class, Hcs.
Qed.

Lemma matches_Times_Class (n : nat) (p : ascii -> bool) (cs : list ascii) :
  matches (Times n (Class p)) cs = true
  <-> length cs = n /\ forallb p cs = true.
Proof.
  revert cs. induction n as [|n IH]; intros cs; cbn [Times].
  - rewrite matches_Eps. split.
    + intros ->. auto.
    + intros [H _]. destruct cs; [reflexivity | discriminate H].
  - rewrite matches_Seq. split.
    + intros (x & y & -> & Hx & Hy).
      apply matches_Class in Hx as (c & -> & Hc). apply IH in Hy as [Hl Hy].
      change ([c] ++ y) with (c :: y).
      cbn [length forallb]. rewrite Hl, Hc. auto.
    + intros [Hl Hall]. destruct cs as [|c cs]; [discriminate Hl|].
      cbn [length forallb] in Hl, Hall. injection Hl as Hl.
      apply andb_true_iff in Hall as [Hc Hcs].
      exists [c], cs. split; [reflexivity|]. split.
      * apply matches_Class. exists c. auto.
      * apply IH. auto.
Qed.

Lemma matches_AtMost_Class (n : nat) (p : ascii -> bool) (cs : list ascii) :
  matches (AtMost n (Class p)) cs = true
  <-> (length cs <= n)%nat /\ forallb p cs = true.
Proof.
  revert cs. induction n as [|n IH]; intros cs; cbn [AtMost].
  - rewrite matches_Eps. split.
    + intros ->. auto.
    + intros [H _]. destruct cs; [reflexivity | cbn in H; lia].
  - unfold Opt. rewrite matches_Alt, orb_true_iff, matches_Eps, matches_Seq. split.
    + intros [->|(x & y & -> & Hx & Hy)].
      * split; [cbn; lia | reflexivity].
      * apply matches_Class in Hx as (c & -> & Hc). apply IH in Hy as [Hl Hy].
        change ([c] ++ y) with (c :: y).
        cbn [length forallb]. rewrite Hc. split; [lia | exact Hy].
    + intros [Hl Hall]. destruct cs as [|c cs]; [left; reflexivity|]. right.
      cbn [length forallb] in Hl, Hall.
      apply andb_true_iff in Hall as [Hc Hcs].
      exists [c], cs. split; [reflexivity|]. split.
      * apply matches_Class. exists c. auto.
      * apply IH. split; [lia | exact Hcs].
Qed.

Lemma matches_Between_Class (lo hi : nat) (p : ascii -> bool) (cs : list ascii) :
  (lo <= hi)%nat ->
  matches (Between lo hi (Class p)) cs = true
  <-> (lo <= length cs <= hi)%nat /\ forallb p cs = true.
Proof.
  intros Hle. unfold Between. rewrite matches_Seq. split.
  - intros (x & y & -> & Hx & Hy).
    apply matches_Times_Class in Hx as [Hlx Hx].
    apply matches_AtMost_Class in Hy as [Hly Hy].
    rewrite length_app, forallb_app, Hx, Hy. split; [lia | reflexivity].
  - intros [Hl Hall]. exists (take lo cs), (drop lo cs).
    rewrite <- (take_drop lo cs) in Hall. rewrite forallb_app in Hall.
    apply andb_true_iff in Hall as [H1 H2].
    split; [symmetry; apply take_drop|]. split.
    + apply matches_Times_Class. rewrite length_take. split; [lia | exact H1].
    + apply matches_AtMost_Class. rewrite length_drop. split; [lia | exact H2].
Qed.

Lemma length_list_ascii_of_string (s : string) :
  length (list_ascii_of_string s) = String.length s.
Proof. induction s as [|c s IH]; [reflexivity|]. cbn. rewrite IH. reflexivity. Qed.

Lemma list_ascii_nil (s : string) : list_ascii_of_string s = [] <-> s = "".
Proof. destruct s; [tauto|]. split; discriminate. Qed.

(** X14.  The pattern of a contact admits exactly the strings of 10 to 12
    decimal digits, and the pattern of a national id exactly the strings
    of 10 to 15 characters that are capital letters or decimal digits:
    nothing may stand before or after them. *)
Theorem contact_and_national_id_patterns (s : string) :
  (Regex.test Regex.phone s = true
   <-> (10 <= String.length s <= 12)%nat
       /\ forallb is_digit (list_ascii_of_string s) = true)
  /\ (Regex.test Regex.nin s = true
      <-> (10 <= String.length s <= 15)%nat
          /\ forallb (fun c => is_upper c || is_digit c) (list_ascii_of_string s)
             = true).
Proof.
  unfold Regex.test, phone, nin. rewrite <- length_list_ascii_of_string.
  split; apply matches_Between_Class; lia.
Qed.

(** X15.  The pattern of the names admits exactly the non-empty strings
    of letters, digits and white space, and the pattern of a produce type
    exactly the non-empty strings of letters and white space; a string of
    white space only is among them. *)
Theorem name_patterns (s : string) :
  (Regex.test Regex.alphanumeric s = true
   <-> s <> "" /\ forallb is_alphanumeric (list_ascii_of_string s) = true)
  /\ (Regex.test Regex.letters s = true
      <-> s <> "" /\ forallb is_letter (list_ascii_of_string s) = true)
  /\ (s <> "" -> forallb is_space (list_ascii_of_string s) = true ->
      Regex.test Regex.alphanumeric s = true /\ Regex.test Regex.letters s = true).
Proof.
  assert (H1 : Regex.test Regex.alphanumeric s = true
               <-> s <> "" /\ forallb is_alphanumeric (list_ascii_of_string s) = true).
  { unfold Regex.test, alphanumeric. rewrite matches_Plus_Class, list_ascii_nil.
    reflexivity. }
  assert (H2 : Regex.test Regex.letters s = true
               <-> s <> "" /\ forallb is_letter (list_ascii_of_string s) = true).
  { unfold Regex.test, letters. rewrite matches_Plus_Class, list_ascii_nil.
    reflexivity. }
  split; [exact H1|]. split; [exact H2|].
  intros Hne Hsp. split; [apply H1 | apply H2]; (split; [exact Hne|]);
    rewrite forallb_forall in *; intros c Hc; specialize (Hsp c Hc);
    unfold is_alphanumeric, is_letter; rewrite Hsp;
    rewrite ?orb_true_r; reflexivity.
Qed.

Lemma in_range_digit (k : N) (c : ascii) :
  in_range 48 (48 + k) c = true ->
  exists n, (n <= N.to_nat k)%nat /\ c = digit n.
Proof.
  unfold in_range, code. intros H. apply andb_true_iff in H as [Hlo Hhi].
  apply N.leb_le in Hlo, Hhi.
  exists (N.to_nat (N_of_ascii c - 48)). split; [lia|].
  unfold digit, digit_char. rewrite N2Nat.id.
  replace (48 + (N_of_ascii c - 48))%N with (N_of_ascii c) by lia.
  symmetry. apply ascii_N_embedding.
Qed.

Lemma matches_Range_digit (k : N) (hi : ascii) (cs : list ascii) :
  N_of_ascii hi = (48 + k)%N ->
  matches (Range "0" hi) cs = true ->
  exists n, (n <= N.to_nat k)%nat /\ cs = [digit n].
Proof.
  intros Hhi H. unfold Range in H. apply matches_Class in H as (c & -> & Hc).
  rewrite Hhi in Hc. change (N_of_ascii "0") with 48%N in Hc.
  destruct (in_range_digit k c Hc) as (n & Hn & ->). exists n. auto.
Qed.

Lemma matches_Chr (c : ascii) (cs : list ascii) :
  matches (Chr c) cs = true -> cs = [c].
Proof.
  unfold Chr. intros H. apply matches_Class in H as (c' & -> & Hc).
  apply Ascii.eqb_eq in Hc as ->. reflexivity.
Qed.

Lemma two_digits_spec (a b : nat) :
  (b < 10)%nat -> two_digits (10 * a + b) = [digit a; digit b].
Proof.
  intros Hb. unfold two_digits.
  rewrite <- (Nat.div_unique (10 * a + b) 10 a b) by lia.
  rewrite <- (Nat.mod_unique (10 * a + b) 10 a b) by lia.
  reflexivity.
Qed.

Lemma all_clocks :
  forallb
    (fun h =>
       forallb
         (fun m =>
            Regex.test time (clock_long h m)
            && (negb (h <? 10)%nat || Regex.test time (clock_short h m)))
         (seq 0 60))
    (seq 0 24) = true.
Proof. vm_compute. reflexivity. Qed.

(** X16.  The pattern of a time, in the rules and in the models alike,
    admits exactly the writings of the times of day from 0:00 to 23:59:
    the hour with two digits, or with one digit when it is below ten, a
    colon, and the minute with two digits. *)
Theorem time_pattern (s : string) :
  Regex.test Regex.time s = true
  <-> exists h m,
        (h < 24)%nat /\ (m < 60)%nat
        /\ (s = clock_long h m \/ ((h < 10)%nat /\ s = clock_short h m)).
Proof.
  split.
  - unfold Regex.test, time. intros H.
    apply matches_Seq in H as (x & y & Hs & Hx & Hy).
    apply matches_Seq in Hy as (y1 & y2 & -> & Hy1 & Hy2).
    apply matches_Chr in Hy1 as ->.
    apply matches_Seq in Hy2 as (m1 & m2 & -> & Hm1 & Hm2).
    apply (matches_Range_digit 5) in Hm1 as (a & Ha & ->); [|reflexivity].
    apply (matches_Range_digit 9) in Hm2 as (b & Hb & ->); [|reflexivity].
    change (N.to_nat 5) with 5%nat in Ha. change (N.to_nat 9) with 9%nat in Hb.
    assert (Hstr : s = string_of_list_ascii (x ++ ":"%char :: two_digits (10 * a + b))).
    { rewrite two_digits_spec by lia. rewrite <- (string_of_list_ascii_of_string s).
      rewrite Hs. reflexivity. }
    rewrite matches_Alt in Hx. apply orb_true_iff in Hx as [Hx|Hx].
    + apply matches_Seq in Hx as (x1 & x2 & -> & Hx1 & Hx2).
      apply (matches_Range_digit 9) in Hx2 as (d & Hd & ->); [|reflexivity].
      change (N.to_nat 9) with 9%nat in Hd.
      unfold Opt in Hx1. rewrite matches_Alt in Hx1.
      apply orb_true_iff in Hx1 as [Hx1|Hx1].
      * apply matches_Eps in Hx1 as ->.
        exists d, (10 * a + b)%nat. split; [lia|]. split; [lia|].
        right. split; [lia|]. exact Hstr.
      * apply (matches_Range_digit 1) in Hx1 as (t & Ht & ->); [|reflexivity].
        change (N.to_nat 1) with 1%nat in Ht.
        exists (10 * t + d)%nat, (10 * a + b)%nat. split; [lia|]. split; [lia|].
        left. unfold clock_long. rewrite (two_digits_spec t d) by lia. exact Hstr.
    + apply matches_Seq in Hx as (x1 & x2 & -> & Hx1 & Hx2).
      apply matches_Chr in Hx1 as ->.
      apply (matches_Range_digit 3) in Hx2 as (d & Hd & ->); [|reflexivity].
      change (N.to_nat 3) with 3%nat in Hd.
      exists (10 * 2 + d)%nat, (10 * a + b)%nat. split; [lia|]. split; [lia|].
      left. unfold clock_long. rewrite (two_digits_spec 2 d) by lia. exact Hstr.
  - intros (h & m & Hh & Hm & Hs).
    pose proof all_clocks as Hall. rewrite forallb_forall in Hall.
    specialize (Hall h). rewrite in_seq in Hall.
    specialize (Hall ltac:(lia)). rewrite forallb_forall in Hall.
    specialize (Hall m). rewrite in_seq in Hall. specialize (Hall ltac:(lia)).
    apply andb_true_iff in Hall as [Hlong Hshort].
    destruct Hs as [->|[Hlt ->]]; [exact Hlong|].
    apply orb_true_iff in Hshort as [Hge|Hshort]; [|exact Hshort].
    apply negb_true_iff, Nat.ltb_ge in Hge. lia.
Qed.

End Patterns.

(* ===================================================================== *)
(** ** The properties on the sample deployment *)
(* ===================================================================== *)

Lemma outcome_parts (x : Response * Store * list Stage) : x = (x.1.1, x.1.2, x.2).
Proof. destruct x as [[r st] done]. reflexivity. Qed.

Lemma outcome_data (x : Response * Store * list Stage) (n : nat) :
  status x.1.1 = n ->
  match json x.1.1 with json_data _ => true | _ => false end = true ->
  x = (mkResponse n (json_data (Sample.data_of x.1.1)), x.1.2, x.2).
Proof.
  destruct x as [[[s j] st] done]. cbn. intros -> H.
  destruct j; try discriminate H. reflexivity.
Qed.

Example sample_credit_sale :
  status (Sample.credit_outcome.1.1) = 201%nat
  /\ Sample.credit_record !! "isPaid" = Some (VBool false)
  /\ Sample.credit_record !! "paymentDate" = None
  /\ Sample.credit_record !! "updatedAt" = Some (VDate 1700000000000)
  /\ length (sales Sample.credit_store) = 1%nat.
Proof. vm_compute. repeat split; reflexivity. Qed.

(** Mary asks for the sales: the answer is the server error. *)
Lemma get_sales_answers_server_error_witness :
  Sample.request Sample.env0
    (incoming GET_sales (Some "token-of-mary") "" (Some "Credit") ∅) Sample.store0
  = (mkResponse 500 (json_error "Server error"), Sample.store0, [Authenticate]).
Proof.
  apply (get_sales_answers_server_error Sample.isISO8601 Sample.Date_parse
           Sample.Date_toString Sample.verifyToken Sample.env0
           (Some "token-of-mary") "" (Some "Credit") ∅ Sample.store0 Sample.mary).
  reflexivity.
Defined.



(** A procurement without a credential. *)
Lemma pipeline_stops_at_first_failure_witness :
  (Validate ∉ [Authenticate])
  /\ sublist [Authenticate] [Authenticate; Authorize; Validate; DefaultFill; Persist].
Proof.
  destruct (pipeline_stops_at_first_failure Sample.isISO8601 Sample.Date_parse
              Sample.Date_toString Sample.verifyToken Sample.env0
              POST_procurement None "" None maize_body Sample.store0 Sample.store0
              (mkResponse 401 (json_error "Unauthenticated")) [Authenticate])
    as (Hfirst & Hsub & _).
  - reflexivity.
  - split; [|exact Hsub].
    destruct Hfirst as (_ & _ & _ & H); [reflexivity | reflexivity | exact H].
Defined.

(** Sam is refused on the procurements; Mary records the example. *)
Lemma procurement_is_for_managers_witness :
  Sample.request Sample.env0
    (incoming POST_procurement (Some "token-of-sam") "" None maize_body)
    Sample.store0
  = (mkResponse 403 (json_error "Forbidden"), Sample.store0,
     [Authenticate; Authorize])
  /\ exists doc,
       Sample.request Sample.env0
         (incoming POST_procurement (Some "token-of-mary") "" None maize_body)
         Sample.store0
       = (mkResponse 201 (json_data doc),
          mkStore (users Sample.store0) (procurements Sample.store0 ++ [doc])
            (sales Sample.store0),
          [Authenticate; Authorize; Validate; DefaultFill; Persist])
       /\ doc !! "branch" = Some (VStr "Maganjo")
       /\ doc !! "tonnage" = Some (VNum (Dec_of_Z 150)).
Proof.
  split.
  - destruct (procurement_is_for_managers Sample.isISO8601 Sample.Date_parse
                Sample.Date_toString Sample.verifyToken Sample.env0
                (Some "token-of-sam") "" None Sample.store0 Sample.sam)
      as [Hforbidden _]; [reflexivity|].
    apply Hforbidden. discriminate.
  - destruct (procurement_is_for_managers Sample.isISO8601 Sample.Date_parse
                Sample.Date_toString Sample.verifyToken Sample.env0
                (Some "token-of-mary") "" None Sample.store0 Sample.mary)
      as [_ Hcreated]; [reflexivity|].
    apply Hcreated; [reflexivity | reflexivity |].
    intros d Hd. apply elem_of_nil in Hd. destruct Hd.
Defined.

(** Mary sends a procurement with a tonnage of 50 and a contact of three
    digits: both errors come back. *)
Lemma validation_errors_collected_witness :
  exists e1 e2,
    Sample.request Sample.env0
      (incoming POST_procurement (Some "token-of-mary") "" None
         (<["tonnage" := JNum (Dec_of_Z 50)]>
            (<["contact" := JStr "077"]> maize_body))) Sample.store0
    = (mkResponse 400 (json_errors [e1; e2]), Sample.store0,
       [Authenticate; Authorize; Validate])
    /\ ExpressValidator.path e1 = "tonnage"
    /\ ExpressValidator.path e2 = "contact".
Proof.
  eexists _, _. split.
  - refine (proj1 (validation_errors_collected Sample.isISO8601 Sample.Date_parse
                     Sample.Date_toString Sample.verifyToken Sample.env0
                     POST_procurement ["Manager"] procurement_rules "date"
                     (Some "token-of-mary") "" None
                     (<["tonnage" := JNum (Dec_of_Z 50)]>
                        (<["contact" := JStr "077"]> maize_body))
                     Sample.store0 Sample.mary _ _ _ _)).
    + apply list_elem_of_here.
    + reflexivity.
    + apply list_elem_of_here.
    + vm_compute. discriminate.
  - split; reflexivity.
Defined.

(** C7, the shape of an entry.  For a procurement with a tonnage of 50 the
    errors array holds one entry, whose members are type, value, msg, path
    and location: it has no member named field or message. *)
Lemma validation_error_is_not_field_message :
  exists e,
    Sample.request Sample.env0
      (incoming POST_procurement (Some "token-of-mary") "" None
         (<["tonnage" := JNum (Dec_of_Z 50)]> maize_body)) Sample.store0
    = (mkResponse 400 (json_errors [e]), Sample.store0,
       [Authenticate; Authorize; Validate])
    /\ ExpressValidator.members e = ["type"; "value"; "msg"; "path"; "location"]
    /\ ExpressValidator.members e <> ["field"; "message"]
    /\ ("field" ∉ ExpressValidator.members e)
    /\ ("message" ∉ ExpressValidator.members e).
Proof.
  eexists. split; [reflexivity|]. split; [reflexivity|].
  split; [discriminate|].
  split; intros H;
    repeat (apply elem_of_cons in H as [H|H]; [discriminate H|]);
    apply elem_of_nil in H; destruct H.
Qed.

(** Sam records a credit sale whose body names Mary under recordedBy: the
    record names Sam. *)
Lemma recordedBy_is_requester_witness :
  exists u,
    resolve_credential Sample.verifyToken Sample.store0 (Some "token-of-sam")
    = Some u
    /\ Sample.data_of
         (Sample.request Sample.env0
            (incoming POST_sales_credit (Some "token-of-sam") "" None
               (<["recordedBy" := JStr "65f000000000000000000001"]>
                  Sample.credit_body)) Sample.store0).1.1
       !! "recordedBy" = Some (VObjectId (User._id u))
    /\ get_collection (collection (model_of POST_sales_credit))
         (Sample.request Sample.env0
            (incoming POST_sales_credit (Some "token-of-sam") "" None
               (<["recordedBy" := JStr "65f000000000000000000001"]>
                  Sample.credit_body)) Sample.store0).1.2
       = get_collection (collection (model_of POST_sales_credit)) Sample.store0
         ++ [Sample.data_of
               (Sample.request Sample.env0
                  (incoming POST_sales_credit (Some "token-of-sam") "" None
                     (<["recordedBy" := JStr "65f000000000000000000001"]>
                        Sample.credit_body)) Sample.store0).1.1].
Proof.
  apply (recordedBy_is_requester Sample.isISO8601 Sample.Date_parse
           Sample.Date_toString Sample.verifyToken Sample.env0
           POST_sales_credit ["Sales Agent"; "Manager"] credit_rules
           "dispatchDate" (Some "token-of-sam") "" None
           (<["recordedBy" := JStr "65f000000000000000000001"]> Sample.credit_body)
           Sample.store0 _ _
           (Sample.request Sample.env0
              (incoming POST_sales_credit (Some "token-of-sam") "" None
                 (<["recordedBy" := JStr "65f000000000000000000001"]>
                    Sample.credit_body)) Sample.store0).2).
  - unfold creation_routes. elem_of_listed.
  - apply outcome_data; vm_compute; reflexivity.
Defined.


(** Sam pays the credit sale of the sample. *)
Lemma only_payment_members_change_witness :
  users (Sample.payment_outcome.1.2) = users Sample.credit_store
  /\ (exists added,
        procurements (Sample.payment_outcome.1.2)
        = procurements Sample.credit_store ++ added)
  /\ (exists kept added,
        sales (Sample.payment_outcome.1.2) = kept ++ added
        /\ Forall2
             (fun d d' =>
                d' = d
                \/ (PATCH_sales_credit_payment = PATCH_sales_credit_payment
                    /\ (exists oid,
                          ObjectId_.ofString "0123456789abcdef01234567" = Some oid
                          /\ d !! "_id" = Some (VObjectId oid))
                    /\ same_but_payment d d'))
             (sales Sample.credit_store) kept).
Proof.
  apply (only_payment_members_change Sample.isISO8601 Sample.Date_parse
           Sample.Date_toString Sample.verifyToken Sample.env1
           PATCH_sales_credit_payment (Some "token-of-sam")
           "0123456789abcdef01234567" None ∅ Sample.credit_store
           (Sample.payment_outcome.1.2) (Sample.payment_outcome.1.1)
           (Sample.payment_outcome.2)).
  apply (outcome_parts Sample.payment_outcome).
Defined.

(** C8, a member that a payment changes.  The credit sale of the sample
    was created with updatedAt 1700000000000; after the payment request
    five seconds later the same record has updatedAt 1700000005000: a
    member other than isPaid and paymentDate has changed. *)
Lemma payment_changes_updatedAt :
  exists d d',
    sales Sample.credit_store = [d]
    /\ sales (Sample.payment_outcome.1.2) = [d']
    /\ status (Sample.payment_outcome.1.1) = 200%nat
    /\ d' !! "_id" = d !! "_id"
    /\ d !! "updatedAt" = Some (VDate 1700000000000)
    /\ d' !! "updatedAt" = Some (VDate 1700000005000)
    /\ d' !! "updatedAt" <> d !! "updatedAt".
Proof.
  eexists _, _. split; [reflexivity|]. split; [reflexivity|].
  vm_compute. repeat split; try reflexivity. discriminate.
Qed.



(* ===================================================================== *)
(** ** The further properties on the sample deployment *)
(* ===================================================================== *)

(** Sam lists the procurements after Mary has recorded the example. *)
Lemma procurement_list_newest_first_witness :
  exists listed,
    Sample.request Sample.env1
      (incoming GET_procurement (Some "token-of-sam") "" None ∅)
      Ledger.procurement_store
    = (mkResponse 200
         (json_list (length (procurements Ledger.procurement_store)) listed),
       Ledger.procurement_store, [Authenticate])
    /\ Permutation (populated_doc <$> listed)
         (procurements Ledger.procurement_store)
    /\ StronglySorted not_older (populated_doc <$> listed)
    /\ (forall p, p ∈ listed ->
          match populated_doc p !! "recordedBy" with
          | Some (VObjectId o) =>
              populated_recordedBy p
              = projection <$> users Ledger.procurement_store !! o
          | _ => populated_recordedBy p = None
          end).
Proof.
  apply (procurement_list_newest_first Sample.isISO8601 Sample.Date_parse
           Sample.Date_toString Sample.verifyToken Sample.env1
           (Some "token-of-sam") "" None ∅ Ledger.procurement_store Sample.sam).
  - vm_compute. reflexivity.
  - reflexivity.
Defined.

(** Sam asks for the procurement 123. *)
Lemma procurement_by_id_witness :
  Sample.request Sample.env1
    (incoming GET_procurement_id (Some "token-of-sam") "123" None ∅)
    Ledger.procurement_store
  = (mkResponse 500 (json_error "Server error"), Ledger.procurement_store,
     [Authenticate]).
Proof.
  refine (proj1 (procurement_by_id Sample.isISO8601 Sample.Date_parse
                   Sample.Date_toString Sample.verifyToken Sample.env1
                   (Some "token-of-sam") "123" None ∅ Ledger.procurement_store
                   Sample.sam _) _).
  - vm_compute. reflexivity.
  - reflexivity.
Defined.

(** Mary records the example, and it can be read back. *)
Lemma created_procurement_is_readable_witness :
  exists oid creator,
    Ledger.procurement_record !! "_id" = Some (VObjectId oid)
    /\ resolve_credential Sample.verifyToken Sample.store0 (Some "token-of-mary")
       = Some creator
    /\ Ledger.procurement_record !! "recordedBy"
       = Some (VObjectId (User._id creator))
    /\ forall env' authorization' id' type' b' u',
         resolve_credential Sample.verifyToken Ledger.procurement_store
           authorization' = Some u' ->
         ObjectId_.ofString id' = Some oid ->
         dbUp env' = true ->
         Sample.request env'
           (incoming GET_procurement_id authorization' id' type' b')
           Ledger.procurement_store
         = (mkResponse 200
              (json_populated
                 (mkPopulated Ledger.procurement_record
                    (projection <$> users Sample.store0 !! User._id creator))),
            Ledger.procurement_store, [Authenticate]).
Proof.
  apply (created_procurement_is_readable Sample.isISO8601 Sample.Date_parse
           Sample.Date_toString Sample.verifyToken Sample.env0
           (Some "token-of-mary") "" None maize_body Sample.store0
           Ledger.procurement_store Ledger.procurement_record
           (Ledger.procurement_outcome.2)).
  apply (outcome_data Ledger.procurement_outcome); vm_compute; reflexivity.
Defined.

(** The procurements of the sample after Mary has recorded the example. *)
Lemma stored_procurements_are_valid_witness :
  Forall procurement_ok (procurements Ledger.procurement_store).
Proof.
  destruct (stored_procurements_are_valid Sample.isISO8601 Sample.Date_parse
              Sample.Date_toString Sample.verifyToken Sample.env0
              POST_procurement (Some "token-of-mary") "" None maize_body
              Sample.store0 Ledger.procurement_store
              (Ledger.procurement_outcome.1.1) (Ledger.procurement_outcome.2))
    as [_ Hkept].
  - apply (outcome_parts Ledger.procurement_outcome).
  - apply Hkept. constructor.
Defined.

(** The sales of the sample after Sam has recorded the credit sale. *)
Lemma stored_sales_are_valid_witness :
  Forall sale_ok (sales Sample.credit_store).
Proof.
  destruct (stored_sales_are_valid Sample.isISO8601 Sample.Date_parse
              Sample.Date_toString Sample.verifyToken Sample.env0
              POST_sales_credit (Some "token-of-sam") "" None Sample.credit_body
              Sample.store0 Sample.credit_store
              (Sample.credit_outcome.1.1) (Sample.credit_outcome.2))
    as (_ & _ & Hkept).
  - apply (outcome_parts Sample.credit_outcome).
  - apply Hkept. constructor.
Defined.

(** Sam records a cash sale; nobody can pay it. *)
Lemma payment_of_a_cash_sale_is_not_found_witness :
  exists oid,
    Ledger.cash_record !! "_id" = Some (VObjectId oid)
    /\ Ledger.cash_record ∈ sales Ledger.cash_store
    /\ forall env' authorization' id' type' b' u',
         resolve_credential Sample.verifyToken Ledger.cash_store authorization'
         = Some u' ->
         ObjectId_.ofString id' = Some oid ->
         dbUp env' = true ->
         Sample.request env'
           (incoming PATCH_sales_credit_payment authorization' id' type' b')
           Ledger.cash_store
         = (mkResponse 404 (json_error "Credit sale not found"),
            Ledger.cash_store, [Authenticate]).
Proof.
  apply (payment_of_a_cash_sale_is_not_found Sample.isISO8601 Sample.Date_parse
           Sample.Date_toString Sample.verifyToken Sample.env0
           (Some "token-of-sam") "" None Ledger.cash_body Sample.store0
           Ledger.cash_store Ledger.cash_record (Ledger.cash_outcome.2)).
  apply (outcome_data Ledger.cash_outcome); vm_compute; reflexivity.
Defined.

(** Mary and Sam pay the credit sale of the sample. *)
Lemma payment_ignores_the_requester_witness :
  Sample.request Sample.env1
    (incoming PATCH_sales_credit_payment (Some "token-of-mary")
       "0123456789abcdef01234567" None ∅) Sample.credit_store
  = Sample.request Sample.env1
      (incoming PATCH_sales_credit_payment (Some "token-of-sam")
         "0123456789abcdef01234567" (Some "Cash") Sample.credit_body)
      Sample.credit_store.
Proof.
  apply (payment_ignores_the_requester Sample.isISO8601 Sample.Date_parse
           Sample.Date_toString Sample.verifyToken Sample.env1
           "0123456789abcdef01234567" (Some "token-of-mary") (Some "token-of-sam")
           None (Some "Cash") ∅ Sample.credit_body Sample.credit_store
           Sample.mary Sample.sam);
    vm_compute; reflexivity.
Defined.

(** The handler of [POST /sales/cash] on a request that no middleware has
    prepared. *)
Lemma every_handler_answers_witness :
  exists resp w',
    post_cash_handler Sample.Date_parse Sample.Date_toString Sample.env0
      (incoming POST_sales_cash None "" None Ledger.cash_body)
      (mkWorld Sample.store0 [])
    = (Sent resp, w')
    /\ status resp ∈ [200; 201; 400; 404; 500]%nat
    /\ (status resp = 500%nat -> json resp = json_error "Server error")
    /\ (status resp ∈ [400; 404; 500]%nat -> store w' = store (mkWorld Sample.store0 [])).
Proof.
  apply (every_handler_answers Sample.Date_parse Sample.Date_toString Sample.env0
           (post_cash_handler Sample.Date_parse Sample.Date_toString Sample.env0)).
  unfold handlers. elem_of_listed.
Defined.

(** A payment request during an outage. *)
Lemma database_down_is_server_error_witness :
  exists w',
    patch_payment_handler Ledger.outage Sample.payment
      (mkWorld Sample.credit_store [Authenticate])
    = (Sent (mkResponse 500 (json_error "Server error")), w')
    /\ store w' = store (mkWorld Sample.credit_store [Authenticate]).
Proof.
  apply (database_down_is_server_error Sample.Date_parse Sample.Date_toString
           Ledger.outage (patch_payment_handler Ledger.outage)).
  - unfold handlers. elem_of_listed.
  - reflexivity.
  - reflexivity.
Defined.

(** Mary sends the example with a produce name of one space. *)
Lemma blank_produce_name_is_server_error_witness :
  Sample.request Sample.env0
    (incoming POST_procurement (Some "token-of-mary") "" None
       (<["produceName" := JStr " "]> maize_body)) Sample.store0
  = (mkResponse 500 (json_error "Server error"), Sample.store0,
     [Authenticate; Authorize; Validate; DefaultFill; Persist]).
Proof.
  apply (blank_produce_name_is_server_error Sample.isISO8601 Sample.Date_parse
           Sample.Date_toString Sample.verifyToken Sample.env0
           POST_procurement ["Manager"] procurement_rules "date"
           (Some "token-of-mary") "" None
           (<["produceName" := JStr " "]> maize_body) Sample.store0 Sample.mary
           " ").
  - unfold creation_routes. elem_of_listed.
  - vm_compute. reflexivity.
  - apply list_elem_of_here.
  - vm_compute. reflexivity.
  - reflexivity.
  - reflexivity.
Defined.

(** Mary sends the example with the date "tomorrow". *)
Lemma unusable_date_is_server_error_witness :
  Sample.request Sample.env0
    (incoming POST_procurement (Some "token-of-mary") "" None
       (<["date" := JStr "tomorrow"]> maize_body)) Sample.store0
  = (mkResponse 500 (json_error "Server error"), Sample.store0,
     [Authenticate; Authorize; Validate; DefaultFill; Persist]).
Proof.
  apply (unusable_date_is_server_error Sample.isISO8601 Sample.Date_parse
           Sample.Date_toString Sample.verifyToken Sample.env0
           POST_procurement ["Manager"] procurement_rules "date"
           (Some "token-of-mary") "" None
           (<["date" := JStr "tomorrow"]> maize_body) Sample.store0 Sample.mary
           (JStr "tomorrow")).
  - unfold creation_routes. elem_of_listed.
  - vm_compute. reflexivity.
  - apply list_elem_of_here.
  - vm_compute. reflexivity.
  - reflexivity.
  - left. exists "tomorrow". split; [reflexivity|]. split; [discriminate|].
    reflexivity.
Defined.

(** Mary sends the example with a member isAdmin. *)
Lemma undeclared_members_are_dropped_witness :
  Sample.data_of
    (Sample.request Sample.env0
       (incoming POST_procurement (Some "token-of-mary") "" None
          (<["isAdmin" := JBool true]> maize_body)) Sample.store0).1.1
  !! "isAdmin" = None.
Proof.
  apply (undeclared_members_are_dropped Sample.isISO8601 Sample.Date_parse
           Sample.Date_toString Sample.verifyToken Sample.env0
           POST_procurement ["Manager"] procurement_rules "date"
           (Some "token-of-mary") "" None
           (<["isAdmin" := JBool true]> maize_body) Sample.store0
           (Sample.request Sample.env0
              (incoming POST_procurement (Some "token-of-mary") "" None
                 (<["isAdmin" := JBool true]> maize_body)) Sample.store0).1.2
           _
           (Sample.request Sample.env0
              (incoming POST_procurement (Some "token-of-mary") "" None
                 (<["isAdmin" := JBool true]> maize_body)) Sample.store0).2).
  - unfold creation_routes. elem_of_listed.
  - apply outcome_data; vm_compute; reflexivity.
  - apply (bool_decide_unpack _). vm_compute. exact I.
Defined.

(** Mary records the example in the empty store, and Sam lists the
    procurements. *)
Lemma new_procurement_is_listed_first_witness :
  Ledger.procurement_record !! "createdAt" = Some (VDate (now Sample.env0))
  /\ forall env' authorization' id' type' b' u',
       resolve_credential Sample.verifyToken Ledger.procurement_store
         authorization' = Some u' ->
       dbUp env' = true ->
       Sample.request env' (incoming GET_procurement authorization' id' type' b')
         Ledger.procurement_store
       = (mkResponse 200
            (json_list (S (length (procurements Sample.store0)))
               (populate (users Sample.store0) Ledger.procurement_record
                  :: (populate (users Sample.store0)
                        <$> sort_createdAt_desc (procurements Sample.store0)))),
          Ledger.procurement_store, [Authenticate]).
Proof.
  apply (new_procurement_is_listed_first Sample.isISO8601 Sample.Date_parse
           Sample.Date_toString Sample.verifyToken Sample.env0
           (Some "token-of-mary") "" None maize_body Sample.store0
           Ledger.procurement_store Ledger.procurement_record
           (Ledger.procurement_outcome.2)).
  - apply (outcome_data Ledger.procurement_outcome); vm_compute; reflexivity.
  - reflexivity.
  - intros d Hd. apply elem_of_nil in Hd. destruct Hd.
Defined.



(** The contact of the example, and a national id. *)
Lemma contact_and_national_id_patterns_witness :
  Regex.test Regex.phone "0771234567" = true
  /\ Regex.test Regex.nin "CM12345678ABCD" = true.
Proof.
  split.
  - apply (proj1 (contact_and_national_id_patterns "0771234567")).
    split; [cbn; lia | reflexivity].
  - apply (proj2 (contact_and_national_id_patterns "CM12345678ABCD")).
    split; [cbn; lia | reflexivity].
Defined.

(** A name of one space. *)
Lemma name_patterns_witness :
  Regex.test Regex.alphanumeric " " = true /\ Regex.test Regex.letters " " = true.
Proof.
  apply (proj2 (proj2 (name_patterns " "))).
  - discriminate.
  - reflexivity.
Defined.

(** Five past nine, written with one digit for the hour. *)
Lemma time_pattern_witness : Regex.test Regex.time "9:05" = true.
Proof.
  apply (proj2 (time_pattern "9:05")). exists 9%nat, 5%nat.
  split; [lia|]. split; [lia|]. right. split; [lia | reflexivity].
Defined.
